(** * KarmaView main widget: the deferred-shading frame pipeline

    A shallow embedding of [src/KarmaView/mainwidget.cpp].  The widget's
    private state is a record, every member function is a state transformer
    that may end the process ([qFatal]) and that appends the OpenGL calls it
    issues to a command log.  The answers of the environment (input manager,
    file dialog, framebuffer completeness reported by the driver, mesh files)
    are inputs of the functions that ask for them.

    The K* math library (vectors, matrices, cameras, transforms, float
    arithmetic) is a collaborator outside the file: it is an interface, class
    [KMath], and the development is parametric in it. *)

From Stdlib Require Import ZArith QArith List String Bool Lia Permutation.
Import ListNotations.
Open Scope string_scope.
Open Scope list_scope.
Open Scope Z_scope.

(** ** Outcomes *)

(** A member function returns normally, ends the process through [qFatal],
    or dereferences a pointer that is null or deleted. *)
Inductive Outcome (A : Type) : Type :=
| Ok (a : A)
| Fatal (msg : string)
| Crash.
Arguments Ok {A} a.
Arguments Fatal {A} msg.
Arguments Crash {A}.

Definition bind {A B : Type} (m : Outcome A) (f : A -> Outcome B) : Outcome B :=
  match m with
  | Ok a => f a
  | Fatal msg => Fatal msg
  | Crash => Crash
  end.

(** Sequencing of two statements. *)
Definition andThen {S : Type} (f g : S -> Outcome S) : S -> Outcome S :=
  fun s => bind (f s) g.

Notation "f ;; g" := (andThen f g) (at level 61, right associativity).

(** A block of statements, run in order. *)
Fixpoint block {S : Type} (stmts : list (S -> Outcome S)) : S -> Outcome S :=
  match stmts with
  | [] => fun s => Ok s
  | stmt :: rest => stmt ;; block rest
  end.

(** A statement that cannot fail. *)
Definition pure {S : Type} (f : S -> S) : S -> Outcome S := fun s => Ok (f s).

(** [n] calls in a row. *)
Fixpoint repeatedly {S : Type} (n : nat) (f : S -> Outcome S) : S -> Outcome S :=
  match n with
  | O => fun s => Ok s
  | S k => f ;; repeatedly k f
  end.

(** ** Enumerations of the source *)

(** [enum DeferredData], lines 41-54.  [DeferredDataCount] is the length of
    the program table, not a channel. *)
Inductive DeferredData : Type :=
| DepthData
| LinearDepthData
| PositionData
| NormalData
| DiffuseData
| SpecularData
| VelocityData
| AmbientPass
| MotionBlurPass
| LightPass.

Definition DeferredDataCount : Z := 10.
Definition DEFERRED_TEXTURES : nat := 4.

(** The value of an enumerator and the cast [(DeferredData)i] of lines
    649-681. *)
Definition DeferredData_index (d : DeferredData) : Z :=
  match d with
  | DepthData => 0
  | LinearDepthData => 1
  | PositionData => 2
  | NormalData => 3
  | DiffuseData => 4
  | SpecularData => 5
  | VelocityData => 6
  | AmbientPass => 7
  | MotionBlurPass => 8
  | LightPass => 9
  end.

Definition DeferredData_cast (i : Z) : DeferredData :=
  match i with
  | 0 => DepthData
  | 1 => LinearDepthData
  | 2 => PositionData
  | 3 => NormalData
  | 4 => DiffuseData
  | 5 => SpecularData
  | 6 => VelocityData
  | 7 => AmbientPass
  | 8 => MotionBlurPass
  | _ => LightPass
  end.

Definition DeferredData_eqb (a b : DeferredData) : bool :=
  DeferredData_index a =? DeferredData_index b.

(** Modelled from the spec: the enumeration [OpenGLFramebufferObject::Status]
    is declared outside the file; these are the six enumerators the two
    switches of [updateBackbuffer] name, which the spec lists as the
    completeness results. *)
Inductive Status : Type :=
| Complete
| IncompleteAttachment
| IncompleteMissingAttachment
| IncompleteDrawBuffer
| IncompleteReadBuffer
| Unsupported.

(** Attachment points of a framebuffer object used by the file. *)
Inductive Attachment : Type :=
| ColorAttachment0
| ColorAttachment1
| ColorAttachment2
| ColorAttachment3
| ColorAttachment4
| DepthAttachment.

Definition Attachment_eqb (a b : Attachment) : bool :=
  match a, b with
  | ColorAttachment0, ColorAttachment0
  | ColorAttachment1, ColorAttachment1
  | ColorAttachment2, ColorAttachment2
  | ColorAttachment3, ColorAttachment3
  | ColorAttachment4, ColorAttachment4
  | DepthAttachment, DepthAttachment => true
  | _, _ => false
  end.

Inductive OpenGLInternalFormat : Type := Rgba32F | Depth32F.
Inductive TextureTarget : Type := Texture2D.
Inductive WrapMode : Type := ClampToEdge.
Inductive FilterMode : Type := Nearest.
Inductive UsagePattern : Type := DynamicDraw.
Inductive MeshOption : Type := Contiguous | Interleaved.

(** The two framebuffer objects and the six render-target textures. *)
Inductive FramebufferName : Type := DeferredBuffer | LightBuffer.

Inductive TextureSlot : Type :=
| DeferredTexture (i : nat)
| BackBuffer
| DepthTexture.

(** Shader programs and draw groups are created once by [initializeGL] and
    never reassigned; the commands name them by their member. *)
Inductive Program : Type :=
| m_program
| m_pointLightProgram
| m_deferredPrograms (i : DeferredData).

Inductive Group : Type :=
| m_instanceGroup
| m_floorGroup
| m_pointLightGroup.

Inductive Capability : Type := GL_CULL_FACE | GL_DEPTH_TEST | GL_BLEND.
Inductive DepthFunction : Type := GL_LEQUAL | GL_LESS | GL_GREATER.
Inductive BlendFactor : Type := GL_ONE.
Inductive ClearBit : Type := GL_COLOR_BUFFER_BIT | GL_DEPTH_BUFFER_BIT.

(** Readings of the input manager. *)
Inductive Key : Type :=
| Key_Control | Key_W | Key_S | Key_A | Key_D | Key_E | Key_Q | Key_O
| Key_0 | Key_1 | Key_2 | Key_3 | Key_4 | Key_5 | Key_6 | Key_7 | Key_8 | Key_9.

Inductive TouchPointState : Type :=
| TouchPointPressed
| TouchPointMoved
| TouchPointStationary
| TouchPointReleased.

(** A [QString]: null ([None]) or a possibly empty sequence of characters. *)
Definition QString : Type := option string.

Definition isNull (s : QString) : bool :=
  match s with
  | None => true
  | Some _ => false
  end.

(** [QString::isEmpty]: a string of no characters, null or not. *)
Definition isEmpty (s : QString) : bool :=
  match s with
  | None => true
  | Some name => (String.length name =? 0)%nat
  end.

(** A pointer member: null, pointing to a live object, or deleted. *)
Inductive Ptr (A : Type) : Type :=
| Null
| Live (a : A)
| Deleted.
Arguments Null {A}.
Arguments Live {A} a.
Arguments Deleted {A}.

(** [delete p]: a null pointer stays null, anything else is freed. *)
Definition delete {A : Type} (p : Ptr A) : Ptr A :=
  match p with
  | Null => Null
  | _ => Deleted
  end.

(** ** Sizes held in [float] members

    [m_width] and [m_height] are [float] members assigned from [int]
    arguments (lines 211-212).  The model keeps the number such a float
    holds, which is an integer: the conversion of an [int] to binary32,
    round to nearest, ties to even, 24 bits of significand. *)
Definition float_of_int (n : Z) : Z :=
  let a := Z.abs n in
  if a <? 2 ^ 24 then n
  else
    let e := Z.log2 a - 23 in
    let q := Z.shiftr a e in
    let r := a - Z.shiftl q e in
    let half := Z.shiftl 1 (e - 1) in
    let q' := if (half <? r) || ((r =? half) && Z.odd q) then q + 1 else q in
    Z.sgn n * Z.shiftl q' e.

Definition sizeof_float : Z := 4.

(** ** The math library, as an interface *)

Class KMath : Type := {
  float : Type;
  (** the float a literal of the source denotes *)
  flit : Q -> float;
  (** the float that holds an integer value *)
  float_of_Z : Z -> float;
  fadd : float -> float -> float;
  fsub : float -> float -> float;
  fmul : float -> float -> float;
  fdiv : float -> float -> float;
  fneg : float -> float;
  fcos : float -> float;
  fsin : float -> float;

  KVector3D : Type;
  vec3 : float -> float -> float -> KVector3D;
  vadd : KVector3D -> KVector3D -> KVector3D;
  vsub : KVector3D -> KVector3D -> KVector3D;
  vscale : float -> KVector3D -> KVector3D;
  vlength : KVector3D -> float;
  vnormalized : KVector3D -> KVector3D;

  KMatrix4x4 : Type;
  KMatrix4x4_identity : KMatrix4x4;
  perspective : float -> float -> float -> float -> KMatrix4x4 -> KMatrix4x4;
  mmul : KMatrix4x4 -> KMatrix4x4 -> KMatrix4x4;
  inverted : KMatrix4x4 -> KMatrix4x4;
  mapVector : KMatrix4x4 -> KVector3D -> KVector3D;

  KTransform3D : Type;
  KTransform3D_default : KTransform3D;
  KTransform3D_scale : float -> KTransform3D -> KTransform3D;
  KTransform3D_translate : KVector3D -> KTransform3D -> KTransform3D;
  KTransform3D_rotate : float -> KVector3D -> KTransform3D -> KTransform3D;
  KTransform3D_setScale : float -> KTransform3D -> KTransform3D;
  KTransform3D_setTranslation : KVector3D -> KTransform3D -> KTransform3D;
  KTransform3D_toMatrix : KTransform3D -> KMatrix4x4;

  KCamera3D : Type;
  KCamera3D_default : KCamera3D;
  LocalUp : KVector3D;
  KCamera3D_rotate : float -> KVector3D -> KCamera3D -> KCamera3D;
  KCamera3D_translate : KVector3D -> KCamera3D -> KCamera3D;
  KCamera3D_right : KCamera3D -> KVector3D;
  KCamera3D_forward : KCamera3D -> KVector3D;
  KCamera3D_up : KCamera3D -> KVector3D;
  KCamera3D_rotatedVector : KCamera3D -> KVector3D -> KVector3D;
  KCamera3D_toMatrix : KCamera3D -> KMatrix4x4
}.

(** *** An implementation of the interface by terms

    Every value is the expression that built it.  It serves to run the model
    on concrete inputs. *)
Inductive term : Type :=
| Num (q : Q)
| Sym (name : string)
| App (f x : term).

Definition Op (name : string) (args : list term) : term :=
  fold_left App args (Sym name).

Definition TermMath : KMath := {|
  float := term;
  flit q := Num q;
  float_of_Z z := Num (inject_Z z);
  fadd a b := Op "+" [a; b];
  fsub a b := Op "-" [a; b];
  fmul a b := Op "*" [a; b];
  fdiv a b := Op "/" [a; b];
  fneg a := Op "neg" [a];
  fcos a := Op "cos" [a];
  fsin a := Op "sin" [a];
  KVector3D := term;
  vec3 x y z := Op "vec3" [x; y; z];
  vadd a b := Op "+" [a; b];
  vsub a b := Op "-" [a; b];
  vscale k v := Op "*" [k; v];
  vlength v := Op "length" [v];
  vnormalized v := Op "normalized" [v];
  KMatrix4x4 := term;
  KMatrix4x4_identity := Op "identity" [];
  perspective fov aspect near far m := Op "perspective" [m; fov; aspect; near; far];
  mmul a b := Op "*" [a; b];
  inverted m := Op "inverted" [m];
  mapVector m v := Op "*" [m; v];
  KTransform3D := term;
  KTransform3D_default := Op "transform" [];
  KTransform3D_scale k t := Op "scale" [t; k];
  KTransform3D_translate v t := Op "translate" [t; v];
  KTransform3D_rotate a v t := Op "rotate" [t; a; v];
  KTransform3D_setScale k t := Op "setScale" [t; k];
  KTransform3D_setTranslation v t := Op "setTranslation" [t; v];
  KTransform3D_toMatrix t := Op "toMatrix" [t];
  KCamera3D := term;
  KCamera3D_default := Op "camera" [];
  LocalUp := Op "LocalUp" [];
  KCamera3D_rotate a v c := Op "rotate" [c; a; v];
  KCamera3D_translate v c := Op "translate" [c; v];
  KCamera3D_right c := Op "right" [c];
  KCamera3D_forward c := Op "forward" [c];
  KCamera3D_up c := Op "up" [c];
  KCamera3D_rotatedVector c v := Op "rotatedVector" [c; v];
  KCamera3D_toMatrix c := Op "toMatrix" [c]
|}.

(** ** The data of the widget *)

Section Model.

Context {K : KMath}.

(** *** The mesh provider

    [KHalfEdgeMesh] is declared outside the file.  The file reads the list
    of half-edges, the sizes of the vertex and face lists, and looks
    vertices and half-edges up by index; index 0 of a face means no face. *)
Record KVertex : Type := { position : KVector3D }.

Record HalfEdge : Type := {
  to : nat;
  face : nat;
  next : nat
}.

Record Face : Type := { first : nat }.

Record KHalfEdgeMesh : Type := {
  vertices : list KVertex;
  faces : list Face;
  halfEdges : list HalfEdge;
  vertex : nat -> KVertex;
  halfEdge : nat -> HalfEdge
}.

(** The drawable buffer built from a topology. *)
Record OpenGLMesh : Type := {
  mesh_source : KHalfEdgeMesh;
  mesh_options : list MeshOption
}.

Definition createOpenGLMesh (mesh : KHalfEdgeMesh) (options : list MeshOption)
  : OpenGLMesh :=
  {| mesh_source := mesh; mesh_options := options |}.

Definition QueryResultType : Type := (KVector3D * KVector3D)%type.

(** *** Instances and lights *)
Record OpenGLMaterial : Type := {
  diffuse : list float;
  specular : list float
}.

Record OpenGLInstance : Type := {
  currentTransform : KTransform3D;
  material : OpenGLMaterial
}.

Record OpenGLPointLight : Type := {
  translation : KVector3D;
  radius : float
}.

(** *** Objects of the OpenGL wrapper

    Modelled from the spec: [OpenGLTexture], [OpenGLFramebufferObject] and
    [OpenGLUniformBufferObject] are declared outside the file.  A texture
    keeps what its setters were given and the storage [allocate] asked for;
    a framebuffer object keeps the texture name bound to each attachment
    point and its list of draw buffers; a uniform buffer keeps its size. *)
Record OpenGLTexture : Type := {
  textureId : nat;
  target : option TextureTarget;
  internalFormat : option OpenGLInternalFormat;
  wrapS : option WrapMode;
  wrapT : option WrapMode;
  magnification : option FilterMode;
  minification : option FilterMode;
  width : Z;
  height : Z;
  storage : option (OpenGLInternalFormat * Z * Z)
}.

Definition OpenGLTexture_default : OpenGLTexture :=
  {| textureId := 0; target := None; internalFormat := None;
     wrapS := None; wrapT := None; magnification := None; minification := None;
     width := 0; height := 0; storage := None |}.

Record OpenGLFramebufferObject : Type := {
  fbo_created : bool;
  attachments : Attachment -> option nat;
  drawBufferList : list Attachment
}.

Definition OpenGLFramebufferObject_default : OpenGLFramebufferObject :=
  {| fbo_created := false; attachments := fun _ => None; drawBufferList := [] |}.

Record OpenGLUniformBufferObject : Type := {
  ubo_created : bool;
  ubo_bindingPoint : option Z;
  ubo_usagePattern : option UsagePattern;
  ubo_size : Z
}.

Definition OpenGLUniformBufferObject_default : OpenGLUniformBufferObject :=
  {| ubo_created := false; ubo_bindingPoint := None;
     ubo_usagePattern := None; ubo_size := 0 |}.

(** *** Calls issued to OpenGL and to the drawing collaborators *)
Inductive UniformData : Type :=
| MatrixData (m : KMatrix4x4)
| FloatData (values : list float).

Inductive GLCommand : Type :=
| BeginFrame
| EndFrame
| PushMarker (name : string)
| PopMarker
| MakeCurrent
| BindProgram (p : Program)
| ReleaseProgram (p : Program)
| LinkProgram (p : Program) (vertexFile fragmentFile : string)
| SetUniformValue (p : Program) (name : string) (value : Z)
| BufferWrite (offset : Z) (data : UniformData) (size : Z)
| GroupSetMesh (g : Group) (mesh : OpenGLMesh)
| GroupUpdate (g : Group) (a b : KMatrix4x4)
| GroupDraw (g : Group)
| BindFramebuffer (f : FramebufferName)
| ReleaseFramebuffer (f : FramebufferName)
| BindDefaultFramebuffer
| FramebufferTexture2D (f : FramebufferName) (a : Attachment) (texture : nat)
| DrawBuffers (f : FramebufferName) (buffers : list Attachment)
| GenTexture (texture : nat)
| BindTexture (texture : nat)
| ReleaseTexture (texture : nat)
| glClear (mask : list ClearBit)
| glEnable (c : Capability)
| glDisable (c : Capability)
| glDepthMask (flag : bool)
| glDepthFunc (f : DepthFunction)
| glClearDepth (depth : float)
| glClearColor (r g b a : float)
| glBlendFunc (sfactor dfactor : BlendFactor)
| glActiveTexture (unit : Z)
| DrawQuad
| DebugDrawLine (origin to_ : KVector3D)
| DebugDrawDraw
| WidgetPaintGL
| WidgetResizeGL (w h : Z).

(** *** The private state of the widget, lines 59-118

    Pointer members that [initializeGL] assigns once and nothing reassigns
    (programs, groups, the quad) are the constructors of [Program] and
    [Group] and [DrawQuad]; the two framebuffer objects are held by value.
    [m_width] and [m_height] are the integers the two [float] members hold.
    [m_deferredTextures] is the array of [DEFERRED_TEXTURES] textures; the
    file indexes it with 0 to 3 only. *)
Record MainWidgetPrivate : Type := {
  (* Transformations *)
  m_camera : KCamera3D;
  m_cameraPrev : KCamera3D;
  m_transform : KTransform3D;
  m_projection : KMatrix4x4;
  m_depthFar : float;
  m_depthNear : float;
  m_depthDiff : float;
  (* OpenGL State Information *)
  m_width : Z;
  m_height : Z;
  m_openGLMesh : Ptr OpenGLMesh;
  m_halfEdgeMesh : Ptr KHalfEdgeMesh;
  m_boundaries : list QueryResultType;
  m_matrixBlock : OpenGLUniformBufferObject;
  m_floorInstance : Ptr OpenGLInstance;
  m_pointLights : list OpenGLPointLight;
  m_paused : bool;
  (* GBuffer *)
  m_buffer : DeferredData;
  m_deferredBuffer : OpenGLFramebufferObject;
  m_lightBuffer : OpenGLFramebufferObject;
  m_deferredTextures : nat -> OpenGLTexture;
  m_backBuffer : OpenGLTexture;
  m_depthTexture : OpenGLTexture;
  m_instances : list OpenGLInstance;
  m_ambientColor : list float;
  (* Touch Information *)
  m_dragVelocity : float;
  m_dragAxis : KVector3D;
  (* statics of the file: sg_count, and f of updateEvent *)
  sg_count : Z;
  updateEvent_f : float;
  (* the OpenGL context: texture names generated; calls issued, the most
     recent first *)
  gl_textureNames : nat;
  gl_commands : list GLCommand
}.

(** Assignments to one member. *)
Definition set_m_camera (v : KCamera3D) (p : MainWidgetPrivate)
  : MainWidgetPrivate :=
  {| m_camera := v; m_cameraPrev := m_cameraPrev p;
     m_transform := m_transform p; m_projection := m_projection p;
     m_depthFar := m_depthFar p; m_depthNear := m_depthNear p;
     m_depthDiff := m_depthDiff p; m_width := m_width p;
     m_height := m_height p; m_openGLMesh := m_openGLMesh p;
     m_halfEdgeMesh := m_halfEdgeMesh p; m_boundaries := m_boundaries p;
     m_matrixBlock := m_matrixBlock p; m_floorInstance := m_floorInstance p;
     m_pointLights := m_pointLights p; m_paused := m_paused p;
     m_buffer := m_buffer p; m_deferredBuffer := m_deferredBuffer p;
     m_lightBuffer := m_lightBuffer p;
     m_deferredTextures := m_deferredTextures p;
     m_backBuffer := m_backBuffer p; m_depthTexture := m_depthTexture p;
     m_instances := m_instances p; m_ambientColor := m_ambientColor p;
     m_dragVelocity := m_dragVelocity p; m_dragAxis := m_dragAxis p;
     sg_count := sg_count p; updateEvent_f := updateEvent_f p;
     gl_textureNames := gl_textureNames p; gl_commands := gl_commands p |}.

Definition set_m_cameraPrev (v : KCamera3D) (p : MainWidgetPrivate)
  : MainWidgetPrivate :=
  {| m_camera := m_camera p; m_cameraPrev := v; m_transform := m_transform p;
     m_projection := m_projection p; m_depthFar := m_depthFar p;
     m_depthNear := m_depthNear p; m_depthDiff := m_depthDiff p;
     m_width := m_width p; m_height := m_height p;
     m_openGLMesh := m_openGLMesh p; m_halfEdgeMesh := m_halfEdgeMesh p;
     m_boundaries := m_boundaries p; m_matrixBlock := m_matrixBlock p;
     m_floorInstance := m_floorInstance p; m_pointLights := m_pointLights p;
     m_paused := m_paused p; m_buffer := m_buffer p;
     m_deferredBuffer := m_deferredBuffer p;
     m_lightBuffer := m_lightBuffer p;
     m_deferredTextures := m_deferredTextures p;
     m_backBuffer := m_backBuffer p; m_depthTexture := m_depthTexture p;
     m_instances := m_instances p; m_ambientColor := m_ambientColor p;
     m_dragVelocity := m_dragVelocity p; m_dragAxis := m_dragAxis p;
     sg_count := sg_count p; updateEvent_f := updateEvent_f p;
     gl_textureNames := gl_textureNames p; gl_commands := gl_commands p |}.

Definition set_m_transform (v : KTransform3D) (p : MainWidgetPrivate)
  : MainWidgetPrivate :=
  {| m_camera := m_camera p; m_cameraPrev := m_cameraPrev p;
     m_transform := v; m_projection := m_projection p;
     m_depthFar := m_depthFar p; m_depthNear := m_depthNear p;
     m_depthDiff := m_depthDiff p; m_width := m_width p;
     m_height := m_height p; m_openGLMesh := m_openGLMesh p;
     m_halfEdgeMesh := m_halfEdgeMesh p; m_boundaries := m_boundaries p;
     m_matrixBlock := m_matrixBlock p; m_floorInstance := m_floorInstance p;
     m_pointLights := m_pointLights p; m_paused := m_paused p;
     m_buffer := m_buffer p; m_deferredBuffer := m_deferredBuffer p;
     m_lightBuffer := m_lightBuffer p;
     m_deferredTextures := m_deferredTextures p;
     m_backBuffer := m_backBuffer p; m_depthTexture := m_depthTexture p;
     m_instances := m_instances p; m_ambientColor := m_ambientColor p;
     m_dragVelocity := m_dragVelocity p; m_dragAxis := m_dragAxis p;
     sg_count := sg_count p; updateEvent_f := updateEvent_f p;
     gl_textureNames := gl_textureNames p; gl_commands := gl_commands p |}.

Definition set_m_projection (v : KMatrix4x4) (p : MainWidgetPrivate)
  : MainWidgetPrivate :=
  {| m_camera := m_camera p; m_cameraPrev := m_cameraPrev p;
     m_transform := m_transform p; m_projection := v;
     m_depthFar := m_depthFar p; m_depthNear := m_depthNear p;
     m_depthDiff := m_depthDiff p; m_width := m_width p;
     m_height := m_height p; m_openGLMesh := m_openGLMesh p;
     m_halfEdgeMesh := m_halfEdgeMesh p; m_boundaries := m_boundaries p;
     m_matrixBlock := m_matrixBlock p; m_floorInstance := m_floorInstance p;
     m_pointLights := m_pointLights p; m_paused := m_paused p;
     m_buffer := m_buffer p; m_deferredBuffer := m_deferredBuffer p;
     m_lightBuffer := m_lightBuffer p;
     m_deferredTextures := m_deferredTextures p;
     m_backBuffer := m_backBuffer p; m_depthTexture := m_depthTexture p;
     m_instances := m_instances p; m_ambientColor := m_ambientColor p;
     m_dragVelocity := m_dragVelocity p; m_dragAxis := m_dragAxis p;
     sg_count := sg_count p; updateEvent_f := updateEvent_f p;
     gl_textureNames := gl_textureNames p; gl_commands := gl_commands p |}.

Definition set_m_depthFar (v : float) (p : MainWidgetPrivate)
  : MainWidgetPrivate :=
  {| m_camera := m_camera p; m_cameraPrev := m_cameraPrev p;
     m_transform := m_transform p; m_projection := m_projection p;
     m_depthFar := v; m_depthNear := m_depthNear p;
     m_depthDiff := m_depthDiff p; m_width := m_width p;
     m_height := m_height p; m_openGLMesh := m_openGLMesh p;
     m_halfEdgeMesh := m_halfEdgeMesh p; m_boundaries := m_boundaries p;
     m_matrixBlock := m_matrixBlock p; m_floorInstance := m_floorInstance p;
     m_pointLights := m_pointLights p; m_paused := m_paused p;
     m_buffer := m_buffer p; m_deferredBuffer := m_deferredBuffer p;
     m_lightBuffer := m_lightBuffer p;
     m_deferredTextures := m_deferredTextures p;
     m_backBuffer := m_backBuffer p; m_depthTexture := m_depthTexture p;
     m_instances := m_instances p; m_ambientColor := m_ambientColor p;
     m_dragVelocity := m_dragVelocity p; m_dragAxis := m_dragAxis p;
     sg_count := sg_count p; updateEvent_f := updateEvent_f p;
     gl_textureNames := gl_textureNames p; gl_commands := gl_commands p |}.

Definition set_m_depthNear (v : float) (p : MainWidgetPrivate)
  : MainWidgetPrivate :=
  {| m_camera := m_camera p; m_cameraPrev := m_cameraPrev p;
     m_transform := m_transform p; m_projection := m_projection p;
     m_depthFar := m_depthFar p; m_depthNear := v;
     m_depthDiff := m_depthDiff p; m_width := m_width p;
     m_height := m_height p; m_openGLMesh := m_openGLMesh p;
     m_halfEdgeMesh := m_halfEdgeMesh p; m_boundaries := m_boundaries p;
     m_matrixBlock := m_matrixBlock p; m_floorInstance := m_floorInstance p;
     m_pointLights := m_pointLights p; m_paused := m_paused p;
     m_buffer := m_buffer p; m_deferredBuffer := m_deferredBuffer p;
     m_lightBuffer := m_lightBuffer p;
     m_deferredTextures := m_deferredTextures p;
     m_backBuffer := m_backBuffer p; m_depthTexture := m_depthTexture p;
     m_instances := m_instances p; m_ambientColor := m_ambientColor p;
     m_dragVelocity := m_dragVelocity p; m_dragAxis := m_dragAxis p;
     sg_count := sg_count p; updateEvent_f := updateEvent_f p;
     gl_textureNames := gl_textureNames p; gl_commands := gl_commands p |}.

Definition set_m_depthDiff (v : float) (p : MainWidgetPrivate)
  : MainWidgetPrivate :=
  {| m_camera := m_camera p; m_cameraPrev := m_cameraPrev p;
     m_transform := m_transform p; m_projection := m_projection p;
     m_depthFar := m_depthFar p; m_depthNear := m_depthNear p;
     m_depthDiff := v; m_width := m_width p; m_height := m_height p;
     m_openGLMesh := m_openGLMesh p; m_halfEdgeMesh := m_halfEdgeMesh p;
     m_boundaries := m_boundaries p; m_matrixBlock := m_matrixBlock p;
     m_floorInstance := m_floorInstance p; m_pointLights := m_pointLights p;
     m_paused := m_paused p; m_buffer := m_buffer p;
     m_deferredBuffer := m_deferredBuffer p;
     m_lightBuffer := m_lightBuffer p;
     m_deferredTextures := m_deferredTextures p;
     m_backBuffer := m_backBuffer p; m_depthTexture := m_depthTexture p;
     m_instances := m_instances p; m_ambientColor := m_ambientColor p;
     m_dragVelocity := m_dragVelocity p; m_dragAxis := m_dragAxis p;
     sg_count := sg_count p; updateEvent_f := updateEvent_f p;
     gl_textureNames := gl_textureNames p; gl_commands := gl_commands p |}.

Definition set_m_width (v : Z) (p : MainWidgetPrivate) : MainWidgetPrivate :=
  {| m_camera := m_camera p; m_cameraPrev := m_cameraPrev p;
     m_transform := m_transform p; m_projection := m_projection p;
     m_depthFar := m_depthFar p; m_depthNear := m_depthNear p;
     m_depthDiff := m_depthDiff p; m_width := v; m_height := m_height p;
     m_openGLMesh := m_openGLMesh p; m_halfEdgeMesh := m_halfEdgeMesh p;
     m_boundaries := m_boundaries p; m_matrixBlock := m_matrixBlock p;
     m_floorInstance := m_floorInstance p; m_pointLights := m_pointLights p;
     m_paused := m_paused p; m_buffer := m_buffer p;
     m_deferredBuffer := m_deferredBuffer p;
     m_lightBuffer := m_lightBuffer p;
     m_deferredTextures := m_deferredTextures p;
     m_backBuffer := m_backBuffer p; m_depthTexture := m_depthTexture p;
     m_instances := m_instances p; m_ambientColor := m_ambientColor p;
     m_dragVelocity := m_dragVelocity p; m_dragAxis := m_dragAxis p;
     sg_count := sg_count p; updateEvent_f := updateEvent_f p;
     gl_textureNames := gl_textureNames p; gl_commands := gl_commands p |}.

Definition set_m_height (v : Z) (p : MainWidgetPrivate) : MainWidgetPrivate :=
  {| m_camera := m_camera p; m_cameraPrev := m_cameraPrev p;
     m_transform := m_transform p; m_projection := m_projection p;
     m_depthFar := m_depthFar p; m_depthNear := m_depthNear p;
     m_depthDiff := m_depthDiff p; m_width := m_width p; m_height := v;
     m_openGLMesh := m_openGLMesh p; m_halfEdgeMesh := m_halfEdgeMesh p;
     m_boundaries := m_boundaries p; m_matrixBlock := m_matrixBlock p;
     m_floorInstance := m_floorInstance p; m_pointLights := m_pointLights p;
     m_paused := m_paused p; m_buffer := m_buffer p;
     m_deferredBuffer := m_deferredBuffer p;
     m_lightBuffer := m_lightBuffer p;
     m_deferredTextures := m_deferredTextures p;
     m_backBuffer := m_backBuffer p; m_depthTexture := m_depthTexture p;
     m_instances := m_instances p; m_ambientColor := m_ambientColor p;
     m_dragVelocity := m_dragVelocity p; m_dragAxis := m_dragAxis p;
     sg_count := sg_count p; updateEvent_f := updateEvent_f p;
     gl_textureNames := gl_textureNames p; gl_commands := gl_commands p |}.

Definition set_m_openGLMesh (v : Ptr OpenGLMesh) (p : MainWidgetPrivate)
  : MainWidgetPrivate :=
  {| m_camera := m_camera p; m_cameraPrev := m_cameraPrev p;
     m_transform := m_transform p; m_projection := m_projection p;
     m_depthFar := m_depthFar p; m_depthNear := m_depthNear p;
     m_depthDiff := m_depthDiff p; m_width := m_width p;
     m_height := m_height p; m_openGLMesh := v;
     m_halfEdgeMesh := m_halfEdgeMesh p; m_boundaries := m_boundaries p;
     m_matrixBlock := m_matrixBlock p; m_floorInstance := m_floorInstance p;
     m_pointLights := m_pointLights p; m_paused := m_paused p;
     m_buffer := m_buffer p; m_deferredBuffer := m_deferredBuffer p;
     m_lightBuffer := m_lightBuffer p;
     m_deferredTextures := m_deferredTextures p;
     m_backBuffer := m_backBuffer p; m_depthTexture := m_depthTexture p;
     m_instances := m_instances p; m_ambientColor := m_ambientColor p;
     m_dragVelocity := m_dragVelocity p; m_dragAxis := m_dragAxis p;
     sg_count := sg_count p; updateEvent_f := updateEvent_f p;
     gl_textureNames := gl_textureNames p; gl_commands := gl_commands p |}.

Definition set_m_halfEdgeMesh (v : Ptr KHalfEdgeMesh) (p : MainWidgetPrivate)
  : MainWidgetPrivate :=
  {| m_camera := m_camera p; m_cameraPrev := m_cameraPrev p;
     m_transform := m_transform p; m_projection := m_projection p;
     m_depthFar := m_depthFar p; m_depthNear := m_depthNear p;
     m_depthDiff := m_depthDiff p; m_width := m_width p;
     m_height := m_height p; m_openGLMesh := m_openGLMesh p;
     m_halfEdgeMesh := v; m_boundaries := m_boundaries p;
     m_matrixBlock := m_matrixBlock p; m_floorInstance := m_floorInstance p;
     m_pointLights := m_pointLights p; m_paused := m_paused p;
     m_buffer := m_buffer p; m_deferredBuffer := m_deferredBuffer p;
     m_lightBuffer := m_lightBuffer p;
     m_deferredTextures := m_deferredTextures p;
     m_backBuffer := m_backBuffer p; m_depthTexture := m_depthTexture p;
     m_instances := m_instances p; m_ambientColor := m_ambientColor p;
     m_dragVelocity := m_dragVelocity p; m_dragAxis := m_dragAxis p;
     sg_count := sg_count p; updateEvent_f := updateEvent_f p;
     gl_textureNames := gl_textureNames p; gl_commands := gl_commands p |}.

Definition set_m_boundaries (v : list QueryResultType) (p : MainWidgetPrivate)
  : MainWidgetPrivate :=
  {| m_camera := m_camera p; m_cameraPrev := m_cameraPrev p;
     m_transform := m_transform p; m_projection := m_projection p;
     m_depthFar := m_depthFar p; m_depthNear := m_depthNear p;
     m_depthDiff := m_depthDiff p; m_width := m_width p;
     m_height := m_height p; m_openGLMesh := m_openGLMesh p;
     m_halfEdgeMesh := m_halfEdgeMesh p; m_boundaries := v;
     m_matrixBlock := m_matrixBlock p; m_floorInstance := m_floorInstance p;
     m_pointLights := m_pointLights p; m_paused := m_paused p;
     m_buffer := m_buffer p; m_deferredBuffer := m_deferredBuffer p;
     m_lightBuffer := m_lightBuffer p;
     m_deferredTextures := m_deferredTextures p;
     m_backBuffer := m_backBuffer p; m_depthTexture := m_depthTexture p;
     m_instances := m_instances p; m_ambientColor := m_ambientColor p;
     m_dragVelocity := m_dragVelocity p; m_dragAxis := m_dragAxis p;
     sg_count := sg_count p; updateEvent_f := updateEvent_f p;
     gl_textureNames := gl_textureNames p; gl_commands := gl_commands p |}.

Definition set_m_matrixBlock (v : OpenGLUniformBufferObject) (p : MainWidgetPrivate)
  : MainWidgetPrivate :=
  {| m_camera := m_camera p; m_cameraPrev := m_cameraPrev p;
     m_transform := m_transform p; m_projection := m_projection p;
     m_depthFar := m_depthFar p; m_depthNear := m_depthNear p;
     m_depthDiff := m_depthDiff p; m_width := m_width p;
     m_height := m_height p; m_openGLMesh := m_openGLMesh p;
     m_halfEdgeMesh := m_halfEdgeMesh p; m_boundaries := m_boundaries p;
     m_matrixBlock := v; m_floorInstance := m_floorInstance p;
     m_pointLights := m_pointLights p; m_paused := m_paused p;
     m_buffer := m_buffer p; m_deferredBuffer := m_deferredBuffer p;
     m_lightBuffer := m_lightBuffer p;
     m_deferredTextures := m_deferredTextures p;
     m_backBuffer := m_backBuffer p; m_depthTexture := m_depthTexture p;
     m_instances := m_instances p; m_ambientColor := m_ambientColor p;
     m_dragVelocity := m_dragVelocity p; m_dragAxis := m_dragAxis p;
     sg_count := sg_count p; updateEvent_f := updateEvent_f p;
     gl_textureNames := gl_textureNames p; gl_commands := gl_commands p |}.

Definition set_m_floorInstance (v : Ptr OpenGLInstance) (p : MainWidgetPrivate)
  : MainWidgetPrivate :=
  {| m_camera := m_camera p; m_cameraPrev := m_cameraPrev p;
     m_transform := m_transform p; m_projection := m_projection p;
     m_depthFar := m_depthFar p; m_depthNear := m_depthNear p;
     m_depthDiff := m_depthDiff p; m_width := m_width p;
     m_height := m_height p; m_openGLMesh := m_openGLMesh p;
     m_halfEdgeMesh := m_halfEdgeMesh p; m_boundaries := m_boundaries p;
     m_matrixBlock := m_matrixBlock p; m_floorInstance := v;
     m_pointLights := m_pointLights p; m_paused := m_paused p;
     m_buffer := m_buffer p; m_deferredBuffer := m_deferredBuffer p;
     m_lightBuffer := m_lightBuffer p;
     m_deferredTextures := m_deferredTextures p;
     m_backBuffer := m_backBuffer p; m_depthTexture := m_depthTexture p;
     m_instances := m_instances p; m_ambientColor := m_ambientColor p;
     m_dragVelocity := m_dragVelocity p; m_dragAxis := m_dragAxis p;
     sg_count := sg_count p; updateEvent_f := updateEvent_f p;
     gl_textureNames := gl_textureNames p; gl_commands := gl_commands p |}.

Definition set_m_pointLights (v : list OpenGLPointLight) (p : MainWidgetPrivate)
  : MainWidgetPrivate :=
  {| m_camera := m_camera p; m_cameraPrev := m_cameraPrev p;
     m_transform := m_transform p; m_projection := m_projection p;
     m_depthFar := m_depthFar p; m_depthNear := m_depthNear p;
     m_depthDiff := m_depthDiff p; m_width := m_width p;
     m_height := m_height p; m_openGLMesh := m_openGLMesh p;
     m_halfEdgeMesh := m_halfEdgeMesh p; m_boundaries := m_boundaries p;
     m_matrixBlock := m_matrixBlock p; m_floorInstance := m_floorInstance p;
     m_pointLights := v; m_paused := m_paused p; m_buffer := m_buffer p;
     m_deferredBuffer := m_deferredBuffer p;
     m_lightBuffer := m_lightBuffer p;
     m_deferredTextures := m_deferredTextures p;
     m_backBuffer := m_backBuffer p; m_depthTexture := m_depthTexture p;
     m_instances := m_instances p; m_ambientColor := m_ambientColor p;
     m_dragVelocity := m_dragVelocity p; m_dragAxis := m_dragAxis p;
     sg_count := sg_count p; updateEvent_f := updateEvent_f p;
     gl_textureNames := gl_textureNames p; gl_commands := gl_commands p |}.

Definition set_m_paused (v : bool) (p : MainWidgetPrivate)
  : MainWidgetPrivate :=
  {| m_camera := m_camera p; m_cameraPrev := m_cameraPrev p;
     m_transform := m_transform p; m_projection := m_projection p;
     m_depthFar := m_depthFar p; m_depthNear := m_depthNear p;
     m_depthDiff := m_depthDiff p; m_width := m_width p;
     m_height := m_height p; m_openGLMesh := m_openGLMesh p;
     m_halfEdgeMesh := m_halfEdgeMesh p; m_boundaries := m_boundaries p;
     m_matrixBlock := m_matrixBlock p; m_floorInstance := m_floorInstance p;
     m_pointLights := m_pointLights p; m_paused := v; m_buffer := m_buffer p;
     m_deferredBuffer := m_deferredBuffer p;
     m_lightBuffer := m_lightBuffer p;
     m_deferredTextures := m_deferredTextures p;
     m_backBuffer := m_backBuffer p; m_depthTexture := m_depthTexture p;
     m_instances := m_instances p; m_ambientColor := m_ambientColor p;
     m_dragVelocity := m_dragVelocity p; m_dragAxis := m_dragAxis p;
     sg_count := sg_count p; updateEvent_f := updateEvent_f p;
     gl_textureNames := gl_textureNames p; gl_commands := gl_commands p |}.

Definition set_m_buffer (v : DeferredData) (p : MainWidgetPrivate)
  : MainWidgetPrivate :=
  {| m_camera := m_camera p; m_cameraPrev := m_cameraPrev p;
     m_transform := m_transform p; m_projection := m_projection p;
     m_depthFar := m_depthFar p; m_depthNear := m_depthNear p;
     m_depthDiff := m_depthDiff p; m_width := m_width p;
     m_height := m_height p; m_openGLMesh := m_openGLMesh p;
     m_halfEdgeMesh := m_halfEdgeMesh p; m_boundaries := m_boundaries p;
     m_matrixBlock := m_matrixBlock p; m_floorInstance := m_floorInstance p;
     m_pointLights := m_pointLights p; m_paused := m_paused p; m_buffer := v;
     m_deferredBuffer := m_deferredBuffer p;
     m_lightBuffer := m_lightBuffer p;
     m_deferredTextures := m_deferredTextures p;
     m_backBuffer := m_backBuffer p; m_depthTexture := m_depthTexture p;
     m_instances := m_instances p; m_ambientColor := m_ambientColor p;
     m_dragVelocity := m_dragVelocity p; m_dragAxis := m_dragAxis p;
     sg_count := sg_count p; updateEvent_f := updateEvent_f p;
     gl_textureNames := gl_textureNames p; gl_commands := gl_commands p |}.

Definition set_m_deferredBuffer (v : OpenGLFramebufferObject) (p : MainWidgetPrivate)
  : MainWidgetPrivate :=
  {| m_camera := m_camera p; m_cameraPrev := m_cameraPrev p;
     m_transform := m_transform p; m_projection := m_projection p;
     m_depthFar := m_depthFar p; m_depthNear := m_depthNear p;
     m_depthDiff := m_depthDiff p; m_width := m_width p;
     m_height := m_height p; m_openGLMesh := m_openGLMesh p;
     m_halfEdgeMesh := m_halfEdgeMesh p; m_boundaries := m_boundaries p;
     m_matrixBlock := m_matrixBlock p; m_floorInstance := m_floorInstance p;
     m_pointLights := m_pointLights p; m_paused := m_paused p;
     m_buffer := m_buffer p; m_deferredBuffer := v;
     m_lightBuffer := m_lightBuffer p;
     m_deferredTextures := m_deferredTextures p;
     m_backBuffer := m_backBuffer p; m_depthTexture := m_depthTexture p;
     m_instances := m_instances p; m_ambientColor := m_ambientColor p;
     m_dragVelocity := m_dragVelocity p; m_dragAxis := m_dragAxis p;
     sg_count := sg_count p; updateEvent_f := updateEvent_f p;
     gl_textureNames := gl_textureNames p; gl_commands := gl_commands p |}.

Definition set_m_lightBuffer (v : OpenGLFramebufferObject) (p : MainWidgetPrivate)
  : MainWidgetPrivate :=
  {| m_camera := m_camera p; m_cameraPrev := m_cameraPrev p;
     m_transform := m_transform p; m_projection := m_projection p;
     m_depthFar := m_depthFar p; m_depthNear := m_depthNear p;
     m_depthDiff := m_depthDiff p; m_width := m_width p;
     m_height := m_height p; m_openGLMesh := m_openGLMesh p;
     m_halfEdgeMesh := m_halfEdgeMesh p; m_boundaries := m_boundaries p;
     m_matrixBlock := m_matrixBlock p; m_floorInstance := m_floorInstance p;
     m_pointLights := m_pointLights p; m_paused := m_paused p;
     m_buffer := m_buffer p; m_deferredBuffer := m_deferredBuffer p;
     m_lightBuffer := v; m_deferredTextures := m_deferredTextures p;
     m_backBuffer := m_backBuffer p; m_depthTexture := m_depthTexture p;
     m_instances := m_instances p; m_ambientColor := m_ambientColor p;
     m_dragVelocity := m_dragVelocity p; m_dragAxis := m_dragAxis p;
     sg_count := sg_count p; updateEvent_f := updateEvent_f p;
     gl_textureNames := gl_textureNames p; gl_commands := gl_commands p |}.

Definition set_m_deferredTextures (v : nat -> OpenGLTexture) (p : MainWidgetPrivate)
  : MainWidgetPrivate :=
  {| m_camera := m_camera p; m_cameraPrev := m_cameraPrev p;
     m_transform := m_transform p; m_projection := m_projection p;
     m_depthFar := m_depthFar p; m_depthNear := m_depthNear p;
     m_depthDiff := m_depthDiff p; m_width := m_width p;
     m_height := m_height p; m_openGLMesh := m_openGLMesh p;
     m_halfEdgeMesh := m_halfEdgeMesh p; m_boundaries := m_boundaries p;
     m_matrixBlock := m_matrixBlock p; m_floorInstance := m_floorInstance p;
     m_pointLights := m_pointLights p; m_paused := m_paused p;
     m_buffer := m_buffer p; m_deferredBuffer := m_deferredBuffer p;
     m_lightBuffer := m_lightBuffer p; m_deferredTextures := v;
     m_backBuffer := m_backBuffer p; m_depthTexture := m_depthTexture p;
     m_instances := m_instances p; m_ambientColor := m_ambientColor p;
     m_dragVelocity := m_dragVelocity p; m_dragAxis := m_dragAxis p;
     sg_count := sg_count p; updateEvent_f := updateEvent_f p;
     gl_textureNames := gl_textureNames p; gl_commands := gl_commands p |}.

Definition set_m_backBuffer (v : OpenGLTexture) (p : MainWidgetPrivate)
  : MainWidgetPrivate :=
  {| m_camera := m_camera p; m_cameraPrev := m_cameraPrev p;
     m_transform := m_transform p; m_projection := m_projection p;
     m_depthFar := m_depthFar p; m_depthNear := m_depthNear p;
     m_depthDiff := m_depthDiff p; m_width := m_width p;
     m_height := m_height p; m_openGLMesh := m_openGLMesh p;
     m_halfEdgeMesh := m_halfEdgeMesh p; m_boundaries := m_boundaries p;
     m_matrixBlock := m_matrixBlock p; m_floorInstance := m_floorInstance p;
     m_pointLights := m_pointLights p; m_paused := m_paused p;
     m_buffer := m_buffer p; m_deferredBuffer := m_deferredBuffer p;
     m_lightBuffer := m_lightBuffer p;
     m_deferredTextures := m_deferredTextures p; m_backBuffer := v;
     m_depthTexture := m_depthTexture p; m_instances := m_instances p;
     m_ambientColor := m_ambientColor p; m_dragVelocity := m_dragVelocity p;
     m_dragAxis := m_dragAxis p; sg_count := sg_count p;
     updateEvent_f := updateEvent_f p; gl_textureNames := gl_textureNames p;
     gl_commands := gl_commands p |}.

Definition set_m_depthTexture (v : OpenGLTexture) (p : MainWidgetPrivate)
  : MainWidgetPrivate :=
  {| m_camera := m_camera p; m_cameraPrev := m_cameraPrev p;
     m_transform := m_transform p; m_projection := m_projection p;
     m_depthFar := m_depthFar p; m_depthNear := m_depthNear p;
     m_depthDiff := m_depthDiff p; m_width := m_width p;
     m_height := m_height p; m_openGLMesh := m_openGLMesh p;
     m_halfEdgeMesh := m_halfEdgeMesh p; m_boundaries := m_boundaries p;
     m_matrixBlock := m_matrixBlock p; m_floorInstance := m_floorInstance p;
     m_pointLights := m_pointLights p; m_paused := m_paused p;
     m_buffer := m_buffer p; m_deferredBuffer := m_deferredBuffer p;
     m_lightBuffer := m_lightBuffer p;
     m_deferredTextures := m_deferredTextures p;
     m_backBuffer := m_backBuffer p; m_depthTexture := v;
     m_instances := m_instances p; m_ambientColor := m_ambientColor p;
     m_dragVelocity := m_dragVelocity p; m_dragAxis := m_dragAxis p;
     sg_count := sg_count p; updateEvent_f := updateEvent_f p;
     gl_textureNames := gl_textureNames p; gl_commands := gl_commands p |}.

Definition set_m_instances (v : list OpenGLInstance) (p : MainWidgetPrivate)
  : MainWidgetPrivate :=
  {| m_camera := m_camera p; m_cameraPrev := m_cameraPrev p;
     m_transform := m_transform p; m_projection := m_projection p;
     m_depthFar := m_depthFar p; m_depthNear := m_depthNear p;
     m_depthDiff := m_depthDiff p; m_width := m_width p;
     m_height := m_height p; m_openGLMesh := m_openGLMesh p;
     m_halfEdgeMesh := m_halfEdgeMesh p; m_boundaries := m_boundaries p;
     m_matrixBlock := m_matrixBlock p; m_floorInstance := m_floorInstance p;
     m_pointLights := m_pointLights p; m_paused := m_paused p;
     m_buffer := m_buffer p; m_deferredBuffer := m_deferredBuffer p;
     m_lightBuffer := m_lightBuffer p;
     m_deferredTextures := m_deferredTextures p;
     m_backBuffer := m_backBuffer p; m_depthTexture := m_depthTexture p;
     m_instances := v; m_ambientColor := m_ambientColor p;
     m_dragVelocity := m_dragVelocity p; m_dragAxis := m_dragAxis p;
     sg_count := sg_count p; updateEvent_f := updateEvent_f p;
     gl_textureNames := gl_textureNames p; gl_commands := gl_commands p |}.

Definition set_m_ambientColor (v : list float) (p : MainWidgetPrivate)
  : MainWidgetPrivate :=
  {| m_camera := m_camera p; m_cameraPrev := m_cameraPrev p;
     m_transform := m_transform p; m_projection := m_projection p;
     m_depthFar := m_depthFar p; m_depthNear := m_depthNear p;
     m_depthDiff := m_depthDiff p; m_width := m_width p;
     m_height := m_height p; m_openGLMesh := m_openGLMesh p;
     m_halfEdgeMesh := m_halfEdgeMesh p; m_boundaries := m_boundaries p;
     m_matrixBlock := m_matrixBlock p; m_floorInstance := m_floorInstance p;
     m_pointLights := m_pointLights p; m_paused := m_paused p;
     m_buffer := m_buffer p; m_deferredBuffer := m_deferredBuffer p;
     m_lightBuffer := m_lightBuffer p;
     m_deferredTextures := m_deferredTextures p;
     m_backBuffer := m_backBuffer p; m_depthTexture := m_depthTexture p;
     m_instances := m_instances p; m_ambientColor := v;
     m_dragVelocity := m_dragVelocity p; m_dragAxis := m_dragAxis p;
     sg_count := sg_count p; updateEvent_f := updateEvent_f p;
     gl_textureNames := gl_textureNames p; gl_commands := gl_commands p |}.

Definition set_m_dragVelocity (v : float) (p : MainWidgetPrivate)
  : MainWidgetPrivate :=
  {| m_camera := m_camera p; m_cameraPrev := m_cameraPrev p;
     m_transform := m_transform p; m_projection := m_projection p;
     m_depthFar := m_depthFar p; m_depthNear := m_depthNear p;
     m_depthDiff := m_depthDiff p; m_width := m_width p;
     m_height := m_height p; m_openGLMesh := m_openGLMesh p;
     m_halfEdgeMesh := m_halfEdgeMesh p; m_boundaries := m_boundaries p;
     m_matrixBlock := m_matrixBlock p; m_floorInstance := m_floorInstance p;
     m_pointLights := m_pointLights p; m_paused := m_paused p;
     m_buffer := m_buffer p; m_deferredBuffer := m_deferredBuffer p;
     m_lightBuffer := m_lightBuffer p;
     m_deferredTextures := m_deferredTextures p;
     m_backBuffer := m_backBuffer p; m_depthTexture := m_depthTexture p;
     m_instances := m_instances p; m_ambientColor := m_ambientColor p;
     m_dragVelocity := v; m_dragAxis := m_dragAxis p; sg_count := sg_count p;
     updateEvent_f := updateEvent_f p; gl_textureNames := gl_textureNames p;
     gl_commands := gl_commands p |}.

Definition set_m_dragAxis (v : KVector3D) (p : MainWidgetPrivate)
  : MainWidgetPrivate :=
  {| m_camera := m_camera p; m_cameraPrev := m_cameraPrev p;
     m_transform := m_transform p; m_projection := m_projection p;
     m_depthFar := m_depthFar p; m_depthNear := m_depthNear p;
     m_depthDiff := m_depthDiff p; m_width := m_width p;
     m_height := m_height p; m_openGLMesh := m_openGLMesh p;
     m_halfEdgeMesh := m_halfEdgeMesh p; m_boundaries := m_boundaries p;
     m_matrixBlock := m_matrixBlock p; m_floorInstance := m_floorInstance p;
     m_pointLights := m_pointLights p; m_paused := m_paused p;
     m_buffer := m_buffer p; m_deferredBuffer := m_deferredBuffer p;
     m_lightBuffer := m_lightBuffer p;
     m_deferredTextures := m_deferredTextures p;
     m_backBuffer := m_backBuffer p; m_depthTexture := m_depthTexture p;
     m_instances := m_instances p; m_ambientColor := m_ambientColor p;
     m_dragVelocity := m_dragVelocity p; m_dragAxis := v;
     sg_count := sg_count p; updateEvent_f := updateEvent_f p;
     gl_textureNames := gl_textureNames p; gl_commands := gl_commands p |}.

Definition set_sg_count (v : Z) (p : MainWidgetPrivate) : MainWidgetPrivate :=
  {| m_camera := m_camera p; m_cameraPrev := m_cameraPrev p;
     m_transform := m_transform p; m_projection := m_projection p;
     m_depthFar := m_depthFar p; m_depthNear := m_depthNear p;
     m_depthDiff := m_depthDiff p; m_width := m_width p;
     m_height := m_height p; m_openGLMesh := m_openGLMesh p;
     m_halfEdgeMesh := m_halfEdgeMesh p; m_boundaries := m_boundaries p;
     m_matrixBlock := m_matrixBlock p; m_floorInstance := m_floorInstance p;
     m_pointLights := m_pointLights p; m_paused := m_paused p;
     m_buffer := m_buffer p; m_deferredBuffer := m_deferredBuffer p;
     m_lightBuffer := m_lightBuffer p;
     m_deferredTextures := m_deferredTextures p;
     m_backBuffer := m_backBuffer p; m_depthTexture := m_depthTexture p;
     m_instances := m_instances p; m_ambientColor := m_ambientColor p;
     m_dragVelocity := m_dragVelocity p; m_dragAxis := m_dragAxis p;
     sg_count := v; updateEvent_f := updateEvent_f p;
     gl_textureNames := gl_textureNames p; gl_commands := gl_commands p |}.

Definition set_updateEvent_f (v : float) (p : MainWidgetPrivate)
  : MainWidgetPrivate :=
  {| m_camera := m_camera p; m_cameraPrev := m_cameraPrev p;
     m_transform := m_transform p; m_projection := m_projection p;
     m_depthFar := m_depthFar p; m_depthNear := m_depthNear p;
     m_depthDiff := m_depthDiff p; m_width := m_width p;
     m_height := m_height p; m_openGLMesh := m_openGLMesh p;
     m_halfEdgeMesh := m_halfEdgeMesh p; m_boundaries := m_boundaries p;
     m_matrixBlock := m_matrixBlock p; m_floorInstance := m_floorInstance p;
     m_pointLights := m_pointLights p; m_paused := m_paused p;
     m_buffer := m_buffer p; m_deferredBuffer := m_deferredBuffer p;
     m_lightBuffer := m_lightBuffer p;
     m_deferredTextures := m_deferredTextures p;
     m_backBuffer := m_backBuffer p; m_depthTexture := m_depthTexture p;
     m_instances := m_instances p; m_ambientColor := m_ambientColor p;
     m_dragVelocity := m_dragVelocity p; m_dragAxis := m_dragAxis p;
     sg_count := sg_count p; updateEvent_f := v;
     gl_textureNames := gl_textureNames p; gl_commands := gl_commands p |}.

Definition set_gl_textureNames (v : nat) (p : MainWidgetPrivate)
  : MainWidgetPrivate :=
  {| m_camera := m_camera p; m_cameraPrev := m_cameraPrev p;
     m_transform := m_transform p; m_projection := m_projection p;
     m_depthFar := m_depthFar p; m_depthNear := m_depthNear p;
     m_depthDiff := m_depthDiff p; m_width := m_width p;
     m_height := m_height p; m_openGLMesh := m_openGLMesh p;
     m_halfEdgeMesh := m_halfEdgeMesh p; m_boundaries := m_boundaries p;
     m_matrixBlock := m_matrixBlock p; m_floorInstance := m_floorInstance p;
     m_pointLights := m_pointLights p; m_paused := m_paused p;
     m_buffer := m_buffer p; m_deferredBuffer := m_deferredBuffer p;
     m_lightBuffer := m_lightBuffer p;
     m_deferredTextures := m_deferredTextures p;
     m_backBuffer := m_backBuffer p; m_depthTexture := m_depthTexture p;
     m_instances := m_instances p; m_ambientColor := m_ambientColor p;
     m_dragVelocity := m_dragVelocity p; m_dragAxis := m_dragAxis p;
     sg_count := sg_count p; updateEvent_f := updateEvent_f p;
     gl_textureNames := v; gl_commands := gl_commands p |}.

Definition set_gl_commands (v : list GLCommand) (p : MainWidgetPrivate)
  : MainWidgetPrivate :=
  {| m_camera := m_camera p; m_cameraPrev := m_cameraPrev p;
     m_transform := m_transform p; m_projection := m_projection p;
     m_depthFar := m_depthFar p; m_depthNear := m_depthNear p;
     m_depthDiff := m_depthDiff p; m_width := m_width p;
     m_height := m_height p; m_openGLMesh := m_openGLMesh p;
     m_halfEdgeMesh := m_halfEdgeMesh p; m_boundaries := m_boundaries p;
     m_matrixBlock := m_matrixBlock p; m_floorInstance := m_floorInstance p;
     m_pointLights := m_pointLights p; m_paused := m_paused p;
     m_buffer := m_buffer p; m_deferredBuffer := m_deferredBuffer p;
     m_lightBuffer := m_lightBuffer p;
     m_deferredTextures := m_deferredTextures p;
     m_backBuffer := m_backBuffer p; m_depthTexture := m_depthTexture p;
     m_instances := m_instances p; m_ambientColor := m_ambientColor p;
     m_dragVelocity := m_dragVelocity p; m_dragAxis := m_dragAxis p;
     sg_count := sg_count p; updateEvent_f := updateEvent_f p;
     gl_textureNames := gl_textureNames p; gl_commands := v |}.

(** Issue calls, in the order of [cmds]. *)
Definition emit (cmds : list GLCommand) (p : MainWidgetPrivate) : MainWidgetPrivate :=
  set_gl_commands (rev cmds ++ gl_commands p) p.

(** [cmds] are the calls issued between [p] and [p'], in order. *)
Definition issued (p p' : MainWidgetPrivate) (cmds : list GLCommand) : Prop :=
  gl_commands p' = rev cmds ++ gl_commands p.

(** *** Answers of the environment *)
Record KPinchGesture : Type := {
  scaleFactor : float;
  lastRotationAngle : float;
  rotationAngle : float
}.

Record KPanGesture : Type := { pan_delta : float * float }.

Record KTouchPoint : Type := {
  pos : float * float;
  lastPos : float * float;
  touch_state : TouchPointState
}.

(** What [KInputManager] and the file dialog answer during one update. *)
Record KInputManager : Type := {
  buttonPressed_RightButton : bool;
  keyPressed : Key -> bool;
  keyTriggered : Key -> bool;
  mouseDelta : float * float;
  pinchGesture : option KPinchGesture;
  panGesture : option KPanGesture;
  touchCount : nat;
  touchPoint0 : KTouchPoint;
  getOpenFileName : QString
}.

(** What the driver answers to the two completeness queries of one
    rebuild. *)
Record Driver : Type := {
  deferredBuffer_status : Status;
  lightBuffer_status : Status
}.

(** ** The member functions *)

(** Statements that cannot fail, in order. *)
Definition statements (stmts : list (MainWidgetPrivate -> MainWidgetPrivate))
  (p : MainWidgetPrivate) : MainWidgetPrivate :=
  fold_left (fun q stmt => stmt q) stmts p.

(** *** Render targets *)
Definition texture (slot : TextureSlot) (p : MainWidgetPrivate) : OpenGLTexture :=
  match slot with
  | DeferredTexture i => m_deferredTextures p i
  | BackBuffer => m_backBuffer p
  | DepthTexture => m_depthTexture p
  end.

Definition set_texture (slot : TextureSlot) (t : OpenGLTexture)
  (p : MainWidgetPrivate) : MainWidgetPrivate :=
  match slot with
  | DeferredTexture i =>
      set_m_deferredTextures
        (fun j => if Nat.eqb j i then t else m_deferredTextures p j) p
  | BackBuffer => set_m_backBuffer t p
  | DepthTexture => set_m_depthTexture t p
  end.

Definition framebuffer (f : FramebufferName) (p : MainWidgetPrivate)
  : OpenGLFramebufferObject :=
  match f with
  | DeferredBuffer => m_deferredBuffer p
  | LightBuffer => m_lightBuffer p
  end.

Definition set_framebuffer (f : FramebufferName) (o : OpenGLFramebufferObject)
  (p : MainWidgetPrivate) : MainWidgetPrivate :=
  match f with
  | DeferredBuffer => set_m_deferredBuffer o p
  | LightBuffer => set_m_lightBuffer o p
  end.

(** [t.create(target)]: the texture object takes a name the context has not
    handed out before. *)
Definition OpenGLTexture_create (tgt : TextureTarget) (slot : TextureSlot)
  (p : MainWidgetPrivate) : MainWidgetPrivate :=
  let name := S (gl_textureNames p) in
  let t := texture slot p in
  let t' :=
    {| textureId := name; target := Some tgt;
       internalFormat := internalFormat t; wrapS := wrapS t; wrapT := wrapT t;
       magnification := magnification t; minification := minification t;
       width := width t; height := height t; storage := None |} in
  emit [GenTexture name] (set_texture slot t' (set_gl_textureNames name p)).

Definition setInternalFormat (f : OpenGLInternalFormat) (t : OpenGLTexture)
  : OpenGLTexture :=
  {| textureId := textureId t; target := target t; internalFormat := Some f;
     wrapS := wrapS t; wrapT := wrapT t;
     magnification := magnification t; minification := minification t;
     width := width t; height := height t; storage := storage t |}.

Definition setWrapModeS (m : WrapMode) (t : OpenGLTexture) : OpenGLTexture :=
  {| textureId := textureId t; target := target t;
     internalFormat := internalFormat t; wrapS := Some m; wrapT := wrapT t;
     magnification := magnification t; minification := minification t;
     width := width t; height := height t; storage := storage t |}.

Definition setWrapModeT (m : WrapMode) (t : OpenGLTexture) : OpenGLTexture :=
  {| textureId := textureId t; target := target t;
     internalFormat := internalFormat t; wrapS := wrapS t; wrapT := Some m;
     magnification := magnification t; minification := minification t;
     width := width t; height := height t; storage := storage t |}.

Definition setFilterMagnification (m : FilterMode) (t : OpenGLTexture)
  : OpenGLTexture :=
  {| textureId := textureId t; target := target t;
     internalFormat := internalFormat t; wrapS := wrapS t; wrapT := wrapT t;
     magnification := Some m; minification := minification t;
     width := width t; height := height t; storage := storage t |}.

Definition setFilterMinification (m : FilterMode) (t : OpenGLTexture)
  : OpenGLTexture :=
  {| textureId := textureId t; target := target t;
     internalFormat := internalFormat t; wrapS := wrapS t; wrapT := wrapT t;
     magnification := magnification t; minification := Some m;
     width := width t; height := height t; storage := storage t |}.

Definition setSize (w h : Z) (t : OpenGLTexture) : OpenGLTexture :=
  {| textureId := textureId t; target := target t;
     internalFormat := internalFormat t; wrapS := wrapS t; wrapT := wrapT t;
     magnification := magnification t; minification := minification t;
     width := w; height := h; storage := storage t |}.

(** [t.allocate()]: storage of the current format and size. *)
Definition allocate (t : OpenGLTexture) : OpenGLTexture :=
  {| textureId := textureId t; target := target t;
     internalFormat := internalFormat t; wrapS := wrapS t; wrapT := wrapT t;
     magnification := magnification t; minification := minification t;
     width := width t; height := height t;
     storage :=
       match internalFormat t with
       | Some f => Some (f, width t, height t)
       | None => None
       end |}.

Definition onTexture (slot : TextureSlot) (f : OpenGLTexture -> OpenGLTexture)
  (p : MainWidgetPrivate) : MainWidgetPrivate :=
  set_texture slot (f (texture slot p)) p.

(** [constructDeferredTexture], lines 328-340. *)
Definition constructDeferredTexture (t : TextureSlot) (f : OpenGLInternalFormat)
  : MainWidgetPrivate -> MainWidgetPrivate :=
  statements [
    OpenGLTexture_create Texture2D t;
    (fun p => emit [BindTexture (textureId (texture t p))] p);
    onTexture t (setInternalFormat f);
    onTexture t (setWrapModeS ClampToEdge);
    onTexture t (setWrapModeT ClampToEdge);
    onTexture t (setFilterMagnification Nearest);
    onTexture t (setFilterMinification Nearest);
    (fun p => onTexture t (setSize (m_width p) (m_height p)) p);
    onTexture t allocate;
    (fun p => emit [ReleaseTexture (textureId (texture t p))] p)
  ].

(** *** Framebuffer objects *)
Definition attachTexture2D (f : FramebufferName) (a : Attachment) (t : TextureSlot)
  (p : MainWidgetPrivate) : MainWidgetPrivate :=
  let o := framebuffer f p in
  let name := textureId (texture t p) in
  let o' :=
    {| fbo_created := fbo_created o;
       attachments := fun b => if Attachment_eqb b a then Some name else attachments o b;
       drawBufferList := drawBufferList o |} in
  emit [FramebufferTexture2D f a name] (set_framebuffer f o' p).

Definition drawBuffers (f : FramebufferName) (buffers : list Attachment)
  (p : MainWidgetPrivate) : MainWidgetPrivate :=
  let o := framebuffer f p in
  let o' :=
    {| fbo_created := fbo_created o; attachments := attachments o;
       drawBufferList := buffers |} in
  emit [DrawBuffers f buffers] (set_framebuffer f o' p).

(** [new OpenGLFramebufferObject], lines 443 and 445: the member points to
    a new object, with nothing attached. *)
Definition OpenGLFramebufferObject_new (f : FramebufferName)
  (p : MainWidgetPrivate) : MainWidgetPrivate :=
  set_framebuffer f OpenGLFramebufferObject_default p.

(** [create()], lines 444 and 446. *)
Definition OpenGLFramebufferObject_create (f : FramebufferName)
  (p : MainWidgetPrivate) : MainWidgetPrivate :=
  let o := framebuffer f p in
  set_framebuffer f
    {| fbo_created := true; attachments := attachments o;
       drawBufferList := drawBufferList o |} p.

(** [updateBackbuffer], lines 209-287.  [qFatal] ends the process. *)
Definition updateBackbuffer (w h : Z) (driver : Driver)
  : MainWidgetPrivate -> Outcome MainWidgetPrivate :=
  block [
    pure (set_m_width (float_of_int w));
    pure (set_m_height (float_of_int h));
    (* GBuffer Texture Storage *)
    pure (fun p =>
      fold_left
        (fun q i => constructDeferredTexture (DeferredTexture i) Rgba32F q)
        (seq 0 DEFERRED_TEXTURES) p);
    (* Backbuffer Texture *)
    pure (constructDeferredTexture BackBuffer Rgba32F);
    pure (constructDeferredTexture DepthTexture Depth32F);
    (* GBuffer Framebuffer *)
    pure (emit [BindFramebuffer DeferredBuffer]);
    pure (attachTexture2D DeferredBuffer ColorAttachment0 BackBuffer);
    pure (attachTexture2D DeferredBuffer ColorAttachment1 (DeferredTexture 0));
    pure (attachTexture2D DeferredBuffer ColorAttachment2 (DeferredTexture 1));
    pure (attachTexture2D DeferredBuffer ColorAttachment3 (DeferredTexture 2));
    pure (attachTexture2D DeferredBuffer ColorAttachment4 (DeferredTexture 3));
    pure (attachTexture2D DeferredBuffer DepthAttachment DepthTexture);
    pure (drawBuffers DeferredBuffer
            [ColorAttachment0; ColorAttachment1; ColorAttachment2;
             ColorAttachment3; ColorAttachment4]);
    (* Check Framebuffer validity *)
    (fun p =>
      match deferredBuffer_status driver with
      | Complete => Ok p
      | IncompleteAttachment => Fatal "Incomplete Attachment"
      | IncompleteMissingAttachment => Fatal "Incomplete Missing Attachment"
      | IncompleteDrawBuffer => Fatal "Incomplete Draw Buffer"
      | IncompleteReadBuffer => Fatal "Incomplete Read Buffer"
      | Unsupported => Fatal "Unsupported"
      end);
    pure (emit [ReleaseFramebuffer DeferredBuffer]);
    (* Light Buffer *)
    pure (emit [BindFramebuffer LightBuffer]);
    pure (attachTexture2D LightBuffer ColorAttachment0 (DeferredTexture 3));
    pure (attachTexture2D LightBuffer DepthAttachment DepthTexture);
    pure (drawBuffers LightBuffer [ColorAttachment0]);
    (* Check Framebuffer validity *)
    (fun p =>
      match lightBuffer_status driver with
      | Complete => Ok p
      | IncompleteAttachment => Fatal "Incomplete Attachment"
      | IncompleteMissingAttachment => Fatal "Incomplete Missing Attachment"
      | IncompleteDrawBuffer => Fatal "Incomplete Draw Buffer"
      | IncompleteReadBuffer => Fatal "Incomplete Read Buffer"
      | Unsupported => Fatal "Unsupported"
      end);
    pure (emit [ReleaseFramebuffer LightBuffer])
  ].

(** *** Presenting a frame *)

(** The texture units bound before presenting, lines 291-305. *)
Definition drawBackbuffer_textures (p : MainWidgetPrivate) : list GLCommand :=
  [ PushMarker "Present G Buffer";
    glDisable GL_DEPTH_TEST;
    glDepthMask false;
    glActiveTexture 0;
    BindTexture (textureId (m_deferredTextures p 0%nat));
    glActiveTexture 1;
    BindTexture (textureId (m_deferredTextures p 1%nat));
    glActiveTexture 2;
    BindTexture (textureId (m_deferredTextures p 2%nat));
    glActiveTexture 3;
    BindTexture (textureId (m_backBuffer p));
    glActiveTexture 4;
    BindTexture (textureId (m_deferredTextures p 3%nat));
    glActiveTexture 5;
    BindTexture (textureId (m_depthTexture p)) ].

(** The block under the marker "Light Pass", lines 307-319. *)
Definition drawBackbuffer_lightPass : list GLCommand :=
  [ PushMarker "Light Pass";
    BindFramebuffer LightBuffer;
    glClear [GL_COLOR_BUFFER_BIT];
    glEnable GL_BLEND;
    glBlendFunc GL_ONE GL_ONE;
    glDepthFunc GL_GREATER;
    BindProgram m_pointLightProgram;
    GroupDraw m_pointLightGroup;
    glDepthFunc GL_LESS;
    glDisable GL_BLEND;
    BindDefaultFramebuffer;
    PopMarker ].

(** The full-screen quad drawn with the program of the selected channel,
    lines 320-325. *)
Definition drawBackbuffer_quad (p : MainWidgetPrivate) : list GLCommand :=
  [ BindProgram (m_deferredPrograms (m_buffer p));
    DrawQuad;
    ReleaseProgram (m_deferredPrograms (m_buffer p));
    ReleaseTexture (textureId (m_backBuffer p));
    glDepthMask true;
    glEnable GL_DEPTH_TEST;
    PopMarker ].

(** [drawBackbuffer], lines 289-326. *)
Definition drawBackbuffer : MainWidgetPrivate -> MainWidgetPrivate :=
  statements [
    (fun p => emit (drawBackbuffer_textures p) p);
    (fun p =>
       if DeferredData_eqb (m_buffer p) LightPass
          || DeferredData_eqb (m_buffer p) MotionBlurPass
       then emit drawBackbuffer_lightPass p
       else p);
    (fun p => emit (drawBackbuffer_quad p) p)
  ].

(** The block under the marker "Prepare Scene", lines 519-539. *)
Definition paintGL_prepareScene (p : MainWidgetPrivate) : list GLCommand :=
  let camera := KCamera3D_toMatrix (m_camera p) in
  let cameraPrev := KCamera3D_toMatrix (m_cameraPrev p) in
  let projection := m_projection p in
  [ PushMarker "Prepare Scene";
    BufferWrite 0 (MatrixData camera) (sizeof_float * 16);
    BufferWrite (sizeof_float * 16) (MatrixData projection) (sizeof_float * 16);
    BufferWrite (sizeof_float * 16 * 2) (MatrixData (mmul projection camera))
      (sizeof_float * 16);
    BufferWrite (sizeof_float * 16 * 3) (MatrixData (inverted camera))
      (sizeof_float * 16);
    BufferWrite (sizeof_float * 16 * 4) (MatrixData (inverted projection))
      (sizeof_float * 16);
    BufferWrite (sizeof_float * 16 * 5)
      (MatrixData (inverted (mmul projection camera))) (sizeof_float * 16);
    BufferWrite (sizeof_float * 16 * 6) (MatrixData cameraPrev) (sizeof_float * 16);
    BufferWrite (sizeof_float * 16 * 7) (MatrixData (mmul projection cameraPrev))
      (sizeof_float * 16);
    BufferWrite (sizeof_float * 16 * 8) (MatrixData (inverted cameraPrev))
      (sizeof_float * 16);
    BufferWrite (sizeof_float * 16 * 9)
      (MatrixData (inverted (mmul projection cameraPrev))) (sizeof_float * 16);
    BufferWrite (sizeof_float * 16 * 10) (FloatData (m_ambientColor p))
      (sizeof_float * 4);
    BufferWrite (sizeof_float * (16 * 10 + 4)) (FloatData [m_depthFar p])
      sizeof_float;
    BufferWrite (sizeof_float * (16 * 10 + 5)) (FloatData [m_depthNear p])
      sizeof_float;
    BufferWrite (sizeof_float * (16 * 10 + 6)) (FloatData [m_depthDiff p])
      sizeof_float;
    BufferWrite (sizeof_float * (16 * 10 + 7))
      (FloatData [float_of_Z (m_width p)]) sizeof_float;
    BufferWrite (sizeof_float * (16 * 10 + 8))
      (FloatData [float_of_Z (m_height p)]) sizeof_float;
    GroupUpdate m_instanceGroup camera cameraPrev;
    GroupUpdate m_floorGroup camera cameraPrev;
    GroupUpdate m_pointLightGroup projection camera;
    PopMarker ].

(** The block under the marker "Generate G Buffer", lines 540-547. *)
Definition paintGL_generateGBuffer : list GLCommand :=
  [ PushMarker "Generate G Buffer";
    BindFramebuffer DeferredBuffer;
    glClear [GL_COLOR_BUFFER_BIT; GL_DEPTH_BUFFER_BIT];
    GroupDraw m_floorGroup;
    GroupDraw m_instanceGroup;
    BindDefaultFramebuffer;
    PopMarker ].

(** The statements of [paintGL] under [if (!p.m_paused)], lines 514-553. *)
Definition paintGL_statements
  : list (MainWidgetPrivate -> Outcome MainWidgetPrivate) :=
  [ pure (emit [BeginFrame]);
    pure (emit [PushMarker "Total Render Time"]);
    pure (emit [BindProgram m_program]);
    pure (fun p => emit (paintGL_prepareScene p) p);
    pure (emit paintGL_generateGBuffer);
    pure (emit [ReleaseProgram m_program]);
    pure drawBackbuffer;
    pure (emit [PopMarker]);
    pure (emit [EndFrame]);
    pure (emit [DebugDrawDraw]);
    pure (emit [WidgetPaintGL]) ].

(** [MainWidget::paintGL], lines 508-555. *)
Definition paintGL (p : MainWidgetPrivate) : Outcome MainWidgetPrivate :=
  if negb (m_paused p) then block paintGL_statements p else Ok p.

(** [MainWidget::resizeGL], lines 496-506. *)
Definition resizeGL (w h : Z) (driver : Driver)
  : MainWidgetPrivate -> Outcome MainWidgetPrivate :=
  block [
    pure (set_m_depthFar (flit 1000));
    pure (set_m_depthNear (flit 0.1));
    pure (set_m_projection KMatrix4x4_identity);
    pure (fun p =>
      set_m_projection
        (perspective (flit 45)
           (fdiv (float_of_Z (float_of_int w)) (float_of_Z (float_of_int h)))
           (m_depthNear p) (m_depthFar p) (m_projection p)) p);
    updateBackbuffer w h driver;
    pure (fun p => set_m_depthDiff (fsub (m_depthFar p) (m_depthNear p)) p);
    pure (emit [WidgetResizeGL w h])
  ].

(** *** Loading a mesh *)

(** What the mesh files hold: [new KHalfEdgeMesh(parent, fileName)]. *)
Class MeshFiles : Type := { KHalfEdgeMesh_new : string -> KHalfEdgeMesh }.

Context {files : MeshFiles}.

(** The tuple the JOIN clause of lines 166-167 builds for one half-edge. *)
Definition query_join (mesh : KHalfEdgeMesh) (edge : HalfEdge) : QueryResultType :=
  (position (vertex mesh (to edge)),
   position (vertex mesh (to (halfEdge mesh (next edge))))).

(** The query of lines 162-167.  The macros of KLinq are declared outside
    the file: the query visits the half-edges in order and appends the tuple
    of each one the WHERE clause accepts. *)
Definition query (mesh : KHalfEdgeMesh) : list QueryResultType :=
  fold_left
    (fun result edge =>
       if (face edge =? 0)%nat then result ++ [query_join mesh edge] else result)
    (halfEdges mesh) [].

(** The statements of [loadObj] after [bool oldValue = m_paused], lines
    139-182; timing and [qDebug] output are left out. *)
Definition loadObj_statements (fileName : string) (oldValue : bool)
  : list (MainWidgetPrivate -> Outcome MainWidgetPrivate) :=
  [ pure (set_m_paused true);
    pure (fun p => set_m_openGLMesh (delete (m_openGLMesh p)) p);
    pure (fun p => set_m_halfEdgeMesh (delete (m_halfEdgeMesh p)) p);
    pure (set_m_boundaries []);
    pure (set_m_halfEdgeMesh (Live (KHalfEdgeMesh_new fileName)));
    pure (emit [MakeCurrent]);
    (fun p =>
       match m_halfEdgeMesh p with
       | Live mesh =>
           Ok (set_m_openGLMesh
                 (Live (createOpenGLMesh mesh [Contiguous; Interleaved])) p)
       | _ => Crash
       end);
    (fun p =>
       match m_openGLMesh p with
       | Live mesh => Ok (emit [GroupSetMesh m_instanceGroup mesh] p)
       | _ => Crash
       end);
    (fun p =>
       match m_halfEdgeMesh p with
       | Live mesh => Ok (set_m_boundaries (query mesh) p)
       | _ => Crash
       end);
    pure (set_m_paused oldValue) ].

(** [loadObj], lines 135-183. *)
Definition loadObj (fileName : string) (p : MainWidgetPrivate)
  : Outcome MainWidgetPrivate :=
  let oldValue := m_paused p in
  block (loadObj_statements fileName oldValue) p.

(** [openObj], lines 185-196; [fileName] is what the dialog returned. *)
Definition openObj (fileName : QString) (p : MainWidgetPrivate)
  : Outcome MainWidgetPrivate :=
  match fileName with
  | Some name => loadObj name p
  | None => Ok p
  end.

(** [drawBoundaries], lines 198-207. *)
Definition drawBoundaries (p : MainWidgetPrivate) : MainWidgetPrivate :=
  let modelToWorld := KTransform3D_toMatrix (m_transform p) in
  emit
    (map (fun line =>
            DebugDrawLine (mapVector modelToWorld (fst line))
                          (mapVector modelToWorld (snd line)))
         (m_boundaries p)) p.

(** *** The update event, lines 566-724 *)

(** Update instances, lines 573-579. *)
Fixpoint updateEvent_rotate (angle : float) (instances : list OpenGLInstance)
  : list OpenGLInstance :=
  match instances with
  | [] => []
  | instance :: rest =>
      {| currentTransform :=
           KTransform3D_rotate angle (vec3 (flit 0) (flit 0) (flit 3))
             (currentTransform instance);
         material := material instance |}
      :: updateEvent_rotate (fadd angle (flit 1)) rest
  end.

(** Lines 584-588. *)
Fixpoint updateEvent_orbit (angle step : float) (lights : list OpenGLPointLight)
  : list OpenGLPointLight :=
  match lights with
  | [] => []
  | light :: rest =>
      {| translation :=
           vec3 (fmul (fcos angle) (flit 17)) (flit 0) (fmul (fsin angle) (flit 17));
         radius := radius light |}
      :: updateEvent_orbit (fadd angle step) step rest
  end.

Definition updateEvent_lights (p : MainWidgetPrivate) : MainWidgetPrivate :=
  let f := fadd (updateEvent_f p) (flit 0.0016) in
  let size := Z.of_nat (List.length (m_pointLights p)) in
  let step := fdiv (flit (2 * 3.1415926)) (float_of_Z size) in
  set_m_pointLights (updateEvent_orbit f step (m_pointLights p))
    (set_updateEvent_f f p).

(** Camera Transformation, lines 590-632. *)
Definition updateEvent_camera (input : KInputManager) (p : MainWidgetPrivate)
  : MainWidgetPrivate :=
  if buttonPressed_RightButton input then
    let transSpeed := if keyPressed input Key_Control then flit 1 else flit 3 in
    let rotSpeed := flit 0.5 in
    let c1 :=
      KCamera3D_rotate (fmul (fneg rotSpeed) (fst (mouseDelta input))) LocalUp
        (m_camera p) in
    let c2 :=
      KCamera3D_rotate (fmul (fneg rotSpeed) (snd (mouseDelta input)))
        (KCamera3D_right c1) c1 in
    let t0 := vec3 (flit 0) (flit 0) (flit 0) in
    let t1 := if keyPressed input Key_W then vadd t0 (KCamera3D_forward c2) else t0 in
    let t2 := if keyPressed input Key_S then vsub t1 (KCamera3D_forward c2) else t1 in
    let t3 := if keyPressed input Key_A then vsub t2 (KCamera3D_right c2) else t2 in
    let t4 := if keyPressed input Key_D then vadd t3 (KCamera3D_right c2) else t3 in
    let t5 := if keyPressed input Key_E then vsub t4 (KCamera3D_up c2) else t4 in
    let t6 := if keyPressed input Key_Q then vadd t5 (KCamera3D_up c2) else t5 in
    set_m_camera (KCamera3D_translate (vscale transSpeed t6) c2) p
  else p.

(** Lines 634-640. *)
Definition updateEvent_open (input : KInputManager) (p : MainWidgetPrivate)
  : Outcome MainWidgetPrivate :=
  if keyPressed input Key_Control then
    if keyTriggered input Key_O then openObj (getOpenFileName input) p
    else Ok p
  else Ok p.

(** Change Buffer, lines 642-682. *)
Definition updateEvent_buffer (input : KInputManager)
  : MainWidgetPrivate -> MainWidgetPrivate :=
  let select key channel :=
    (fun p : MainWidgetPrivate =>
       if keyPressed input key then set_m_buffer channel p else p) in
  statements [
    select Key_0 LightPass;
    select Key_1 (DeferredData_cast 0);
    select Key_2 (DeferredData_cast 1);
    select Key_3 (DeferredData_cast 2);
    select Key_4 (DeferredData_cast 3);
    select Key_5 (DeferredData_cast 4);
    select Key_6 (DeferredData_cast 5);
    select Key_7 (DeferredData_cast 6);
    select Key_8 (DeferredData_cast 7);
    select Key_9 (DeferredData_cast 8)
  ].

(** Pinching, panning, touching and the drag rotation, lines 684-723. *)
Definition updateEvent_gestures (input : KInputManager)
  : MainWidgetPrivate -> MainWidgetPrivate :=
  statements [
    (fun p =>
       match pinchGesture input with
       | Some pinch =>
           set_m_transform
             (KTransform3D_rotate
                (fsub (lastRotationAngle pinch) (rotationAngle pinch))
                (vec3 (flit 0) (flit 0) (flit 1))
                (KTransform3D_scale (scaleFactor pinch) (m_transform p))) p
       | None => p
       end);
    (fun p =>
       match panGesture input with
       | Some pan =>
           let delta :=
             vscale (flit 0.1)
               (vec3 (fst (pan_delta pan)) (fneg (snd (pan_delta pan))) (flit 0)) in
           set_m_transform (KTransform3D_translate delta (m_transform p)) p
       | None => p
       end);
    (fun p =>
       if (touchCount input =? 1)%nat then
         let touch := touchPoint0 input in
         let dx := fsub (fst (pos touch)) (fst (lastPos touch)) in
         let dy := fsub (snd (pos touch)) (snd (lastPos touch)) in
         let axis := vec3 dy dx (flit 0) in
         match touch_state touch with
         | TouchPointPressed => set_m_dragVelocity (flit 0) p
         | TouchPointMoved =>
             set_m_dragAxis
               (vnormalized (KCamera3D_rotatedVector (m_camera p) axis))
               (set_m_dragVelocity (fmul (vlength axis) (flit 0.1)) p)
         | _ => p
         end
       else p);
    (fun p => set_m_dragVelocity (fmul (m_dragVelocity p) (flit 0.9)) p);
    (fun p =>
       set_m_transform
         (KTransform3D_rotate (m_dragVelocity p) (m_dragAxis p) (m_transform p)) p)
  ].

(** [MainWidget::updateEvent]. *)
Definition updateEvent (input : KInputManager)
  : MainWidgetPrivate -> Outcome MainWidgetPrivate :=
  block [
    pure (fun p => set_m_cameraPrev (m_camera p) p);
    pure (fun p =>
      set_m_instances (updateEvent_rotate (flit 0) (m_instances p)) p);
    pure updateEvent_lights;
    pure (updateEvent_camera input);
    updateEvent_open input;
    pure (updateEvent_buffer input);
    pure (updateEvent_gestures input)
  ].

(** *** Construction and initialisation *)

(** [MainWidgetPrivate::MainWidgetPrivate], lines 120-128.  Members of class
    type are default-constructed; the four [float] members the constructor
    does not initialise hold whatever the arguments say; a pointer member it
    does not initialise is shown null. *)
Definition MainWidgetPrivate_new (depthFar depthNear depthDiff dragVelocity : float)
  : MainWidgetPrivate :=
  {| m_camera := KCamera3D_default;
     m_cameraPrev := KCamera3D_default;
     m_transform := KTransform3D_default;
     m_projection := KMatrix4x4_identity;
     m_depthFar := depthFar;
     m_depthNear := depthNear;
     m_depthDiff := depthDiff;
     m_width := 1;
     m_height := 1;
     m_openGLMesh := Null;
     m_halfEdgeMesh := Null;
     m_boundaries := [];
     m_matrixBlock := OpenGLUniformBufferObject_default;
     m_floorInstance := Null;
     m_pointLights := [];
     m_paused := false;
     m_buffer := LightPass;
     m_deferredBuffer := OpenGLFramebufferObject_default;
     m_lightBuffer := OpenGLFramebufferObject_default;
     m_deferredTextures := fun _ => OpenGLTexture_default;
     m_backBuffer := OpenGLTexture_default;
     m_depthTexture := OpenGLTexture_default;
     m_instances := [];
     m_ambientColor := [flit 0.2; flit 0.2; flit 0.2; flit 1];
     m_dragVelocity := dragVelocity;
     m_dragAxis := vec3 (flit 0) (flit 0) (flit 0);
     sg_count := 0;
     updateEvent_f := flit 0;
     gl_textureNames := 0;
     gl_commands := [] |}.

(** [MainWidget::MainWidget], lines 345-354. *)
Definition MainWidget_new (depthFar depthNear depthDiff dragVelocity : float)
  : MainWidgetPrivate :=
  statements [
    (fun p => set_m_transform (KTransform3D_scale (flit 50) (m_transform p)) p);
    (fun p =>
       set_m_transform
         (KTransform3D_translate (vec3 (flit 0) (flit 0) (flit (-150)))
            (m_transform p)) p);
    set_m_dragVelocity (flit 0)
  ] (MainWidgetPrivate_new depthFar depthNear depthDiff dragVelocity).

(** The uniform block object, lines 387-390. *)
Definition OpenGLUniformBufferObject_create (o : OpenGLUniformBufferObject)
  : OpenGLUniformBufferObject :=
  {| ubo_created := true; ubo_bindingPoint := ubo_bindingPoint o;
     ubo_usagePattern := ubo_usagePattern o; ubo_size := ubo_size o |}.

Definition OpenGLUniformBufferObject_bind (point : Z) (o : OpenGLUniformBufferObject)
  : OpenGLUniformBufferObject :=
  {| ubo_created := ubo_created o; ubo_bindingPoint := Some point;
     ubo_usagePattern := ubo_usagePattern o; ubo_size := ubo_size o |}.

Definition OpenGLUniformBufferObject_setUsagePattern (u : UsagePattern)
  (o : OpenGLUniformBufferObject) : OpenGLUniformBufferObject :=
  {| ubo_created := ubo_created o; ubo_bindingPoint := ubo_bindingPoint o;
     ubo_usagePattern := Some u; ubo_size := ubo_size o |}.

Definition OpenGLUniformBufferObject_allocate (bytes : Z)
  (o : OpenGLUniformBufferObject) : OpenGLUniformBufferObject :=
  {| ubo_created := ubo_created o; ubo_bindingPoint := ubo_bindingPoint o;
     ubo_usagePattern := ubo_usagePattern o; ubo_size := bytes |}.

Definition onMatrixBlock
  (f : OpenGLUniformBufferObject -> OpenGLUniformBufferObject)
  (p : MainWidgetPrivate) : MainWidgetPrivate :=
  set_m_matrixBlock (f (m_matrixBlock p)) p.

(** The sampler uniforms every presenting program is given, lines 405-410
    and 433-438. *)
Definition initializeGL_samplers (program : Program) : list GLCommand :=
  [ BindProgram program;
    SetUniformValue program "geometryTexture" 0;
    SetUniformValue program "materialTexture" 1;
    SetUniformValue program "dynamicsTexture" 2;
    SetUniformValue program "backbufferTexture" 3;
    SetUniformValue program "lightbufferTexture" 4;
    SetUniformValue program "depthTexture" 5;
    ReleaseProgram program ].

(** [fragFiles], lines 413-424. *)
Definition fragFiles (i : DeferredData) : string :=
  match i with
  | DepthData => ":/resources/shaders/gbuffer/depth.frag"
  | LinearDepthData => ":/resources/shaders/gbuffer/linearDepth.frag"
  | PositionData => ":/resources/shaders/gbuffer/position.frag"
  | NormalData => ":/resources/shaders/gbuffer/normal.frag"
  | DiffuseData => ":/resources/shaders/gbuffer/diffuse.frag"
  | SpecularData => ":/resources/shaders/gbuffer/specular.frag"
  | VelocityData => ":/resources/shaders/gbuffer/velocity.frag"
  | AmbientPass => ":/resources/shaders/gbuffer/ambient.frag"
  | MotionBlurPass => ":/resources/shaders/gbuffer/motion.frag"
  | LightPass => ":/resources/shaders/gbuffer/backbuffer.frag"
  end.

(** The instance created for one [deg] of the loop of lines 474-485. *)
Definition initializeGL_instance (level deg : Z) : OpenGLInstance :=
  let cosine := fcos (fdiv (fmul (float_of_Z deg) (flit 3.14159)) (flit 180)) in
  let sine := fsin (fdiv (fmul (float_of_Z deg) (flit 3.14159)) (flit 180)) in
  {| currentTransform :=
       KTransform3D_setTranslation
         (vec3 (fmul cosine (float_of_Z 15)) (float_of_Z (level * 5))
               (fmul sine (float_of_Z 15)))
         (KTransform3D_setScale (flit 1) KTransform3D_default);
     material :=
       {| diffuse :=
            [ fdiv (float_of_Z deg) (flit 360);
              fsub (flit 1) (fdiv (float_of_Z deg) (flit 360));
              flit 0 ];
          specular := [flit 1; flit 1; flit 1; flit 16] |} |}.

(** [MainWidget::initializeGL], lines 367-494.  The quad mesh of lines
    381-382 is what [DrawQuad] draws. *)
Definition initializeGL : MainWidgetPrivate -> Outcome MainWidgetPrivate :=
  block [
    (* Set global information *)
    pure (emit [ glEnable GL_CULL_FACE; glEnable GL_DEPTH_TEST;
                 glClearDepth (flit 1); glDepthFunc GL_LEQUAL;
                 glClearColor (flit 0) (flit 0) (flit 0) (flit 1) ]);
    (* Uniform Block Object *)
    pure (onMatrixBlock OpenGLUniformBufferObject_create);
    pure (onMatrixBlock (OpenGLUniformBufferObject_bind 1));
    pure (onMatrixBlock (OpenGLUniformBufferObject_setUsagePattern DynamicDraw));
    pure (onMatrixBlock
            (OpenGLUniformBufferObject_allocate (sizeof_float * (16 * 10 + 4 + 5))));
    (* Create Shader for GBuffer Pass *)
    pure (emit [ LinkProgram m_program ":/resources/shaders/gbuffer.vert"
                   ":/resources/shaders/gbuffer.frag" ]);
    (* Create Shader for point light pass *)
    pure (emit [ LinkProgram m_pointLightProgram
                   ":/resources/shaders/lighting/pointLight.vert"
                   ":/resources/shaders/lighting/pointLight.frag" ]);
    pure (emit (initializeGL_samplers m_pointLightProgram));
    pure (fun p =>
      fold_left
        (fun q i =>
           emit (LinkProgram (m_deferredPrograms i)
                   ":/resources/shaders/gbuffer/main.vert" (fragFiles i)
                 :: initializeGL_samplers (m_deferredPrograms i)) q)
        (map DeferredData_cast (map Z.of_nat (seq 0 (Z.to_nat DeferredDataCount))))
        p);
    (* Framebuffer Object *)
    pure (OpenGLFramebufferObject_new DeferredBuffer);
    pure (OpenGLFramebufferObject_create DeferredBuffer);
    pure (OpenGLFramebufferObject_new LightBuffer);
    pure (OpenGLFramebufferObject_create LightBuffer);
    pure (emit [ GroupSetMesh m_pointLightGroup
                   (createOpenGLMesh
                      (KHalfEdgeMesh_new ":/resources/objects/pointLight.obj")
                      [Contiguous]) ]);
    pure (fun p =>
      fold_left
        (fun q _ =>
           set_m_pointLights
             (m_pointLights q
              ++ [ {| translation := vec3 (flit 0) (flit 0) (flit 0);
                      radius := flit 10 |} ]) q)
        (seq 0 10) p);
    (* Open OBJ *)
    pure (emit [ GroupSetMesh m_floorGroup
                   (createOpenGLMesh
                      (KHalfEdgeMesh_new ":/resources/objects/floor.obj")
                      [Contiguous]) ]);
    pure (set_m_floorInstance
            (Live
               {| currentTransform :=
                    KTransform3D_setTranslation
                      (vec3 (flit 0) (flit (-2)) (flit 0))
                      (KTransform3D_setScale (flit 100) KTransform3D_default);
                  material :=
                    {| diffuse := [flit 0; flit 0; flit 1];
                       specular := [flit 0.5; flit 0.5; flit 0.5; flit 1] |} |}));
    loadObj ":/resources/objects/sphere.obj";
    (* Initialize instances *)
    pure (fun p =>
      fold_left
        (fun q deg =>
           set_sg_count (sg_count q + 1)
             (set_m_instances (m_instances q ++ [initializeGL_instance 0 deg]) q))
        (map (fun k => 30 * Z.of_nat k) (seq 0 12)) p);
    (* Release (unbind) all *)
    pure (emit [ReleaseProgram m_program])
  ].

(** *** The calls the windowing system makes *)
Inductive Event : Type :=
| InitializeGL
| ResizeGL (w h : Z) (driver : Driver)
| PaintGL
| UpdateEvent (input : KInputManager).

Definition handle (e : Event) : MainWidgetPrivate -> Outcome MainWidgetPrivate :=
  match e with
  | InitializeGL => initializeGL
  | ResizeGL w h driver => resizeGL w h driver
  | PaintGL => paintGL
  | UpdateEvent input => updateEvent input
  end.

Definition run (events : list Event) : MainWidgetPrivate -> Outcome MainWidgetPrivate :=
  block (map handle events).

(** ** Vocabulary of the properties *)

(** A statement leaves an observation of the state as it was. *)
Definition keeps {A : Type} (f : MainWidgetPrivate -> A)
  (g : MainWidgetPrivate -> MainWidgetPrivate) : Prop :=
  forall p, f (g p) = f p.

Definition preserves {A : Type} (f : MainWidgetPrivate -> A)
  (stmt : MainWidgetPrivate -> Outcome MainWidgetPrivate) : Prop :=
  forall p p', stmt p = Ok p' -> f p' = f p.

(** Whenever a statement returns, the state it returns satisfies [P]. *)
Definition ensures (P : MainWidgetPrivate -> Prop)
  (stmt : MainWidgetPrivate -> Outcome MainWidgetPrivate) : Prop :=
  forall p p', stmt p = Ok p' -> P p'.

(** The uniform block has the size line 390 asks for. *)
Definition allocated (p : MainWidgetPrivate) : Prop :=
  ubo_size (m_matrixBlock p) = sizeof_float * (16 * 10 + 4 + 5).

(** A statement always returns. *)
Definition total (stmt : MainWidgetPrivate -> Outcome MainWidgetPrivate) : Prop :=
  forall p, exists p', stmt p = Ok p'.

(** The calls of a frame that renders, in order. *)
Definition renderedFrame (p : MainWidgetPrivate) : list GLCommand :=
  [BeginFrame; PushMarker "Total Render Time"; BindProgram m_program]
  ++ paintGL_prepareScene p
  ++ paintGL_generateGBuffer
  ++ [ReleaseProgram m_program]
  ++ drawBackbuffer_textures p
  ++ match m_buffer p with
     | LightPass | MotionBlurPass => drawBackbuffer_lightPass
     | _ => []
     end
  ++ drawBackbuffer_quad p
  ++ [PopMarker; EndFrame; DebugDrawDraw; WidgetPaintGL].

(** The draw of the light volumes, and the bind of the light framebuffer. *)
Definition isLightVolumeDraw (c : GLCommand) : bool :=
  match c with
  | GroupDraw m_pointLightGroup => true
  | _ => false
  end.

Definition bindsLightBuffer (c : GLCommand) : bool :=
  match c with
  | BindFramebuffer LightBuffer => true
  | _ => false
  end.

(** Offset and size, in bytes, of every write into the uniform block. *)
Definition bufferWrites (cmds : list GLCommand) : list (Z * Z) :=
  flat_map (fun c =>
              match c with
              | BufferWrite offset _ size => [(offset, size)]
              | _ => []
              end) cmds.

(** The six render targets. *)
Definition renderTargets : list TextureSlot :=
  [ DeferredTexture 0; DeferredTexture 1; DeferredTexture 2; DeferredTexture 3;
    BackBuffer; DepthTexture ].

Definition formatOf (t : TextureSlot) : OpenGLInternalFormat :=
  match t with
  | DepthTexture => Depth32F
  | _ => Rgba32F
  end.

(** The message expected for each failure subtype. *)
Definition reported (s : Status) : option string :=
  match s with
  | Complete => None
  | IncompleteAttachment => Some "Incomplete Attachment"
  | IncompleteMissingAttachment => Some "Incomplete Missing Attachment"
  | IncompleteDrawBuffer => Some "Incomplete Draw Buffer"
  | IncompleteReadBuffer => Some "Incomplete Read Buffer"
  | Unsupported => Some "Unsupported"
  end.

Definition notUpdate (e : Event) : bool :=
  match e with
  | UpdateEvent _ => false
  | _ => true
  end.

(** An event that brings no camera input: anything but an update during
    which the right button is held. *)
Definition cameraIdle (e : Event) : bool :=
  match e with
  | UpdateEvent input => negb (buttonPressed_RightButton input)
  | _ => true
  end.

(** A half-edge with no owning face. *)
Definition isBoundary (edge : HalfEdge) : bool := (face edge =? 0)%nat.

(** A closed mesh: every half-edge has a face. *)
Definition closed (mesh : KHalfEdgeMesh) : Prop :=
  forall edge, In edge (halfEdges mesh) -> isBoundary edge = false.

Definition noHalfEdge : HalfEdge := {| to := 0; face := 0; next := 0 |}.

(** [loop] lists the half-edges without a face, each one followed by its
    [next], the last one by the first: one open loop of [length loop]
    edges. *)
Definition openLoop (mesh : KHalfEdgeMesh) (loop : list HalfEdge) : Prop :=
  Permutation loop (filter isBoundary (halfEdges mesh)) /\
  forall i, (i < List.length loop)%nat ->
    halfEdge mesh (next (nth i loop noHalfEdge))
    = nth (S i mod List.length loop) loop noHalfEdge.

(** The vertex the [i]-th half-edge of a loop points to. *)
Definition loopVertex (mesh : KHalfEdgeMesh) (loop : list HalfEdge) (i : nat)
  : KVertex :=
  vertex mesh (to (nth (i mod List.length loop) loop noHalfEdge)).

(** *** The state of the OpenGL context

    What the state-setting calls of the file leave in the context: the
    framebuffer and the program bound last ([None]: the default framebuffer,
    no program bound by the file), the capabilities, the depth mask and
    function, the blend function set last ([None]: not set by the calls
    seen), the active texture unit and the texture bound to each unit.  The
    [release] calls of the wrappers are declared outside the file and are
    not interpreted. *)
Record GLState : Type := {
  gl_framebuffer : option FramebufferName;
  gl_program : option Program;
  gl_depthTest : bool;
  gl_cullFace : bool;
  gl_blend : bool;
  gl_depthMask : bool;
  gl_depthFunc : DepthFunction;
  gl_blendFunc : option (BlendFactor * BlendFactor);
  gl_activeTexture : Z;
  gl_textureUnits : Z -> option nat
}.

Definition with_gl_framebuffer (v : option FramebufferName) (s : GLState) : GLState :=
  {| gl_framebuffer := v; gl_program := gl_program s;
     gl_depthTest := gl_depthTest s; gl_cullFace := gl_cullFace s;
     gl_blend := gl_blend s; gl_depthMask := gl_depthMask s;
     gl_depthFunc := gl_depthFunc s; gl_blendFunc := gl_blendFunc s;
     gl_activeTexture := gl_activeTexture s;
     gl_textureUnits := gl_textureUnits s |}.

Definition with_gl_program (v : option Program) (s : GLState) : GLState :=
  {| gl_framebuffer := gl_framebuffer s; gl_program := v;
     gl_depthTest := gl_depthTest s; gl_cullFace := gl_cullFace s;
     gl_blend := gl_blend s; gl_depthMask := gl_depthMask s;
     gl_depthFunc := gl_depthFunc s; gl_blendFunc := gl_blendFunc s;
     gl_activeTexture := gl_activeTexture s;
     gl_textureUnits := gl_textureUnits s |}.

Definition with_gl_depthTest (v : bool) (s : GLState) : GLState :=
  {| gl_framebuffer := gl_framebuffer s; gl_program := gl_program s;
     gl_depthTest := v; gl_cullFace := gl_cullFace s; gl_blend := gl_blend s;
     gl_depthMask := gl_depthMask s; gl_depthFunc := gl_depthFunc s;
     gl_blendFunc := gl_blendFunc s; gl_activeTexture := gl_activeTexture s;
     gl_textureUnits := gl_textureUnits s |}.

Definition with_gl_cullFace (v : bool) (s : GLState) : GLState :=
  {| gl_framebuffer := gl_framebuffer s; gl_program := gl_program s;
     gl_depthTest := gl_depthTest s; gl_cullFace := v;
     gl_blend := gl_blend s; gl_depthMask := gl_depthMask s;
     gl_depthFunc := gl_depthFunc s; gl_blendFunc := gl_blendFunc s;
     gl_activeTexture := gl_activeTexture s;
     gl_textureUnits := gl_textureUnits s |}.

Definition with_gl_blend (v : bool) (s : GLState) : GLState :=
  {| gl_framebuffer := gl_framebuffer s; gl_program := gl_program s;
     gl_depthTest := gl_depthTest s; gl_cullFace := gl_cullFace s;
     gl_blend := v; gl_depthMask := gl_depthMask s;
     gl_depthFunc := gl_depthFunc s; gl_blendFunc := gl_blendFunc s;
     gl_activeTexture := gl_activeTexture s;
     gl_textureUnits := gl_textureUnits s |}.

Definition with_gl_depthMask (v : bool) (s : GLState) : GLState :=
  {| gl_framebuffer := gl_framebuffer s; gl_program := gl_program s;
     gl_depthTest := gl_depthTest s; gl_cullFace := gl_cullFace s;
     gl_blend := gl_blend s; gl_depthMask := v;
     gl_depthFunc := gl_depthFunc s; gl_blendFunc := gl_blendFunc s;
     gl_activeTexture := gl_activeTexture s;
     gl_textureUnits := gl_textureUnits s |}.

Definition with_gl_depthFunc (v : DepthFunction) (s : GLState) : GLState :=
  {| gl_framebuffer := gl_framebuffer s; gl_program := gl_program s;
     gl_depthTest := gl_depthTest s; gl_cullFace := gl_cullFace s;
     gl_blend := gl_blend s; gl_depthMask := gl_depthMask s;
     gl_depthFunc := v; gl_blendFunc := gl_blendFunc s;
     gl_activeTexture := gl_activeTexture s;
     gl_textureUnits := gl_textureUnits s |}.

Definition with_gl_blendFunc (v : option (BlendFactor * BlendFactor)) (s : GLState) : GLState :=
  {| gl_framebuffer := gl_framebuffer s; gl_program := gl_program s;
     gl_depthTest := gl_depthTest s; gl_cullFace := gl_cullFace s;
     gl_blend := gl_blend s; gl_depthMask := gl_depthMask s;
     gl_depthFunc := gl_depthFunc s; gl_blendFunc := v;
     gl_activeTexture := gl_activeTexture s;
     gl_textureUnits := gl_textureUnits s |}.

Definition with_gl_activeTexture (v : Z) (s : GLState) : GLState :=
  {| gl_framebuffer := gl_framebuffer s; gl_program := gl_program s;
     gl_depthTest := gl_depthTest s; gl_cullFace := gl_cullFace s;
     gl_blend := gl_blend s; gl_depthMask := gl_depthMask s;
     gl_depthFunc := gl_depthFunc s; gl_blendFunc := gl_blendFunc s;
     gl_activeTexture := v; gl_textureUnits := gl_textureUnits s |}.

Definition with_gl_textureUnits (v : Z -> option nat) (s : GLState) : GLState :=
  {| gl_framebuffer := gl_framebuffer s; gl_program := gl_program s;
     gl_depthTest := gl_depthTest s; gl_cullFace := gl_cullFace s;
     gl_blend := gl_blend s; gl_depthMask := gl_depthMask s;
     gl_depthFunc := gl_depthFunc s; gl_blendFunc := gl_blendFunc s;
     gl_activeTexture := gl_activeTexture s; gl_textureUnits := v |}.

(** A capability switched on or off. *)
Definition setCapability (c : Capability) (on : bool) (s : GLState) : GLState :=
  match c with
  | GL_CULL_FACE => with_gl_cullFace on s
  | GL_DEPTH_TEST => with_gl_depthTest on s
  | GL_BLEND => with_gl_blend on s
  end.

(** What one call does to the context. *)
Definition glStep (c : GLCommand) (s : GLState) : GLState :=
  match c with
  | BindProgram p => with_gl_program (Some p) s
  | BindFramebuffer f => with_gl_framebuffer (Some f) s
  | BindDefaultFramebuffer => with_gl_framebuffer None s
  | glEnable cap => setCapability cap true s
  | glDisable cap => setCapability cap false s
  | glDepthMask flag => with_gl_depthMask flag s
  | glDepthFunc f => with_gl_depthFunc f s
  | glBlendFunc sfactor dfactor => with_gl_blendFunc (Some (sfactor, dfactor)) s
  | glActiveTexture unit => with_gl_activeTexture unit s
  | BindTexture texture =>
      with_gl_textureUnits
        (fun unit =>
           if unit =? gl_activeTexture s then Some texture
           else gl_textureUnits s unit) s
  | _ => s
  end.

(** The context after a list of calls, and every call with the context it
    is issued in. *)
Definition glRun (cmds : list GLCommand) (s : GLState) : GLState :=
  fold_left (fun s c => glStep c s) cmds s.

Fixpoint glTrace (cmds : list GLCommand) (s : GLState)
  : list (GLState * GLCommand) :=
  match cmds with
  | [] => []
  | c :: rest => (s, c) :: glTrace rest (glStep c s)
  end.

(** The contexts in which the calls selected by [select] are issued. *)
Definition statesAt (select : GLCommand -> bool) (cmds : list GLCommand)
  (s : GLState) : list GLState :=
  map fst (filter (fun sc => select (snd sc)) (glTrace cmds s)).

(** Clears and draws. *)
Definition isDraw (c : GLCommand) : bool :=
  match c with
  | glClear _ | GroupDraw _ | DrawQuad | DebugDrawDraw => true
  | _ => false
  end.

Definition isGeometryDraw (c : GLCommand) : bool :=
  match c with
  | GroupDraw m_floorGroup | GroupDraw m_instanceGroup => true
  | _ => false
  end.

Definition isQuadDraw (c : GLCommand) : bool :=
  match c with
  | DrawQuad => true
  | _ => false
  end.

Definition isDebugDrawLine (c : GLCommand) : bool :=
  match c with
  | DebugDrawLine _ _ => true
  | _ => false
  end.

(** The clears and draws of a list of calls, each with the framebuffer bound
    when it is issued. *)
Definition drawTargets (cmds : list GLCommand) (s : GLState)
  : list (GLCommand * option FramebufferName) :=
  map (fun sc => (snd sc, gl_framebuffer (fst sc)))
      (filter (fun sc => isDraw (snd sc)) (glTrace cmds s)).

(** The stack of open markers after a list of calls; [None] when a marker is
    popped that was not pushed. *)
Fixpoint markerStack (cmds : list GLCommand) (stack : list string)
  : option (list string) :=
  match cmds with
  | [] => Some stack
  | PushMarker name :: rest => markerStack rest (name :: stack)
  | PopMarker :: rest =>
      match stack with
      | [] => None
      | _ :: below => markerStack rest below
      end
  | _ :: rest => markerStack rest stack
  end.

(** The writes of a list tile the bytes from [from] on, in order, without
    gap or overlap: the byte after the last one written. *)
Fixpoint tiledUpTo (writes : list (Z * Z)) (from : Z) : option Z :=
  match writes with
  | [] => Some from
  | (offset, size) :: rest =>
      if (offset =? from) && (0 <? size) then tiledUpTo rest (offset + size)
      else None
  end.

(** The number keys and the channel each one selects, in the order
    [updateEvent] tests them (lines 643-682). *)
Definition numberKeys : list (Key * DeferredData) :=
  [ (Key_0, LightPass); (Key_1, DepthData); (Key_2, LinearDepthData);
    (Key_3, PositionData); (Key_4, NormalData); (Key_5, DiffuseData);
    (Key_6, SpecularData); (Key_7, VelocityData); (Key_8, AmbientPass);
    (Key_9, MotionBlurPass) ].

Definition isInitialize (e : Event) : bool :=
  match e with
  | InitializeGL => true
  | _ => false
  end.

Definition isResize (e : Event) : bool :=
  match e with
  | ResizeGL _ _ _ => true
  | _ => false
  end.

(** The mesh handed last to the instance group, read off the command log
    (the most recent call first). *)
Fixpoint instanceGroupMesh (log : list GLCommand) : option OpenGLMesh :=
  match log with
  | [] => None
  | GroupSetMesh m_instanceGroup mesh :: _ => Some mesh
  | _ :: earlier => instanceGroupMesh earlier
  end.

(** What the widget holds of the loaded mesh. *)
Definition meshView (p : MainWidgetPrivate)
  : Ptr KHalfEdgeMesh * Ptr OpenGLMesh * list QueryResultType
    * option OpenGLMesh :=
  (m_halfEdgeMesh p, m_openGLMesh p, m_boundaries p,
   instanceGroupMesh (gl_commands p)).

(** The topology, its drawable buffer, the boundary edges and the mesh of
    the instance group all belong to one live mesh. *)
Definition coherent (p : MainWidgetPrivate) : Prop :=
  exists mesh,
    meshView p
    = (Live mesh,
       Live (createOpenGLMesh mesh [Contiguous; Interleaved]),
       query mesh,
       Some (createOpenGLMesh mesh [Contiguous; Interleaved])).

(** What the widget holds of the render targets. *)
Definition targetsView (p : MainWidgetPrivate) :=
  (m_width p, m_height p,
   (m_deferredTextures p, m_backBuffer p, m_depthTexture p),
   (attachments (m_deferredBuffer p), drawBufferList (m_deferredBuffer p)),
   (attachments (m_lightBuffer p), drawBufferList (m_lightBuffer p))).

(** Every render target has storage of the size the widget holds. *)
Definition sized (p : MainWidgetPrivate) : Prop :=
  Forall (fun t =>
            width (texture t p) = m_width p /\
            height (texture t p) = m_height p /\
            storage (texture t p) = Some (formatOf t, m_width p, m_height p))
         renderTargets.

(** The framebuffer objects hold the render targets of the widget. *)
Definition wired (p : MainWidgetPrivate) : Prop :=
  attachments (m_deferredBuffer p) ColorAttachment0
  = Some (textureId (m_backBuffer p)) /\
  attachments (m_deferredBuffer p) ColorAttachment1
  = Some (textureId (m_deferredTextures p 0%nat)) /\
  attachments (m_deferredBuffer p) ColorAttachment2
  = Some (textureId (m_deferredTextures p 1%nat)) /\
  attachments (m_deferredBuffer p) ColorAttachment3
  = Some (textureId (m_deferredTextures p 2%nat)) /\
  attachments (m_deferredBuffer p) ColorAttachment4
  = Some (textureId (m_deferredTextures p 3%nat)) /\
  attachments (m_deferredBuffer p) DepthAttachment
  = Some (textureId (m_depthTexture p)) /\
  attachments (m_lightBuffer p) ColorAttachment0
  = Some (textureId (m_deferredTextures p 3%nat)) /\
  attachments (m_lightBuffer p) DepthAttachment
  = Some (textureId (m_depthTexture p)).

Definition Program_eqb (a b : Program) : bool :=
  match a, b with
  | m_program, m_program => true
  | m_pointLightProgram, m_pointLightProgram => true
  | m_deferredPrograms i, m_deferredPrograms j => DeferredData_eqb i j
  | _, _ => false
  end.

(** The texture unit a sampler uniform of a program was given last, read
    off the command log. *)
Fixpoint samplerUnit (program : Program) (name : string) (log : list GLCommand)
  : option Z :=
  match log with
  | [] => None
  | SetUniformValue program' name' unit :: earlier =>
      if Program_eqb program' program && String.eqb name' name then Some unit
      else samplerUnit program name earlier
  | _ :: earlier => samplerUnit program name earlier
  end.

(** Each sampler uniform with the texture attached where rendering writes
    what the sampler is named after. *)
Definition samplerSources (p : MainWidgetPrivate) : list (string * option nat) :=
  [ ("geometryTexture", attachments (m_deferredBuffer p) ColorAttachment1);
    ("materialTexture", attachments (m_deferredBuffer p) ColorAttachment2);
    ("dynamicsTexture", attachments (m_deferredBuffer p) ColorAttachment3);
    ("backbufferTexture", attachments (m_deferredBuffer p) ColorAttachment0);
    ("lightbufferTexture", attachments (m_lightBuffer p) ColorAttachment0);
    ("depthTexture", attachments (m_deferredBuffer p) DepthAttachment) ].

(** The units the samplers of a program were given last. *)
Definition samplerView (p : MainWidgetPrivate) : Program -> string -> option Z :=
  fun program name => samplerUnit program name (gl_commands p).

(** Every sampler of every program but the G-buffer one has been given the
    unit [drawBackbuffer] binds its texture to (lines 294-305). *)
Definition samplersSet (p : MainWidgetPrivate) : Prop :=
  forall program, program <> m_program ->
    samplerView p program "geometryTexture" = Some 0 /\
    samplerView p program "materialTexture" = Some 1 /\
    samplerView p program "dynamicsTexture" = Some 2 /\
    samplerView p program "backbufferTexture" = Some 3 /\
    samplerView p program "lightbufferTexture" = Some 4 /\
    samplerView p program "depthTexture" = Some 5.

(** The debug lines issued so far. *)
Definition debugLines (p : MainWidgetPrivate) : list GLCommand :=
  filter isDebugDrawLine (gl_commands p).

(** What the widget holds of the projection. *)
Definition projectionView (p : MainWidgetPrivate) :=
  (m_width p, m_height p, m_depthFar p, m_depthNear p, m_depthDiff p,
   m_projection p).

(** How many instances and lights the widget holds. *)
Definition countsView (p : MainWidgetPrivate) : nat * nat :=
  (List.length (m_instances p), List.length (m_pointLights p)).

(** What the drag rotation reads and writes. *)
Definition dragView (p : MainWidgetPrivate) :=
  (m_dragVelocity p, m_dragAxis p, m_transform p).

(** What the animation of lines 573-588 reads and writes. *)
Definition animationView (p : MainWidgetPrivate) :=
  (m_instances p, m_pointLights p, updateEvent_f p).

(** No gesture and no single touch. *)
Definition untouched (input : KInputManager) : Prop :=
  pinchGesture input = None /\ panGesture input = None /\
  touchCount input <> 1%nat.


End Model.

(** ** Concrete inputs

    A widget over [TermMath], two meshes, and the answers of a driver and of
    an input manager, used to run the model. *)

Definition vertexAt (K : KMath) (l : list (@KVertex K)) (i : nat) : @KVertex K :=
  nth (i - 1) l {| position := vec3 (flit 0) (flit 0) (flit 0) |}.

Definition halfEdgeAt (l : list HalfEdge) (i : nat) : HalfEdge :=
  nth (i - 1) l noHalfEdge.

Definition num (z : Z) : @float TermMath := @float_of_Z TermMath z.

Definition corner (x y z : Z) : @KVertex TermMath :=
  {| position := @vec3 TermMath (num x) (num y) (num z) |}.

(** One triangle 1-2-3: half-edges 1-3 belong to face 1, half-edges 4-6
    run the other way round and have no face. *)
Definition triangle_vertices : list (@KVertex TermMath) :=
  [corner 0 0 0; corner 1 0 0; corner 0 1 0].

Definition triangle_halfEdges : list HalfEdge :=
  [ {| to := 2; face := 1; next := 2 |};
    {| to := 3; face := 1; next := 3 |};
    {| to := 1; face := 1; next := 1 |};
    {| to := 1; face := 0; next := 6 |};
    {| to := 2; face := 0; next := 4 |};
    {| to := 3; face := 0; next := 5 |} ].

Definition triangle : @KHalfEdgeMesh TermMath :=
  {| vertices := triangle_vertices;
     faces := [ {| first := 1 |} ];
     halfEdges := triangle_halfEdges;
     vertex := vertexAt TermMath triangle_vertices;
     halfEdge := halfEdgeAt triangle_halfEdges |}.

(** A tetrahedron 1-2-3-4, faces 123, 142, 243, 341: every half-edge has a
    face. *)
Definition tetrahedron_vertices : list (@KVertex TermMath) :=
  [corner 0 0 0; corner 1 0 0; corner 0 1 0; corner 0 0 1].

Definition tetrahedron_halfEdges : list HalfEdge :=
  [ {| to := 2; face := 1; next := 2 |};
    {| to := 3; face := 1; next := 3 |};
    {| to := 1; face := 1; next := 1 |};
    {| to := 4; face := 2; next := 5 |};
    {| to := 2; face := 2; next := 6 |};
    {| to := 1; face := 2; next := 4 |};
    {| to := 4; face := 3; next := 8 |};
    {| to := 3; face := 3; next := 9 |};
    {| to := 2; face := 3; next := 7 |};
    {| to := 4; face := 4; next := 11 |};
    {| to := 1; face := 4; next := 12 |};
    {| to := 3; face := 4; next := 10 |} ].

Definition tetrahedron : @KHalfEdgeMesh TermMath :=
  {| vertices := tetrahedron_vertices;
     faces := [ {| first := 1 |}; {| first := 4 |}; {| first := 7 |};
                {| first := 10 |} ];
     halfEdges := tetrahedron_halfEdges;
     vertex := vertexAt TermMath tetrahedron_vertices;
     halfEdge := halfEdgeAt tetrahedron_halfEdges |}.

Definition sampleFiles : @MeshFiles TermMath :=
  {| KHalfEdgeMesh_new name :=
       if String.eqb name "triangle.obj" then triangle else tetrahedron |}.

Definition sampleWidget : @MainWidgetPrivate TermMath :=
  MainWidget_new (num 0) (num 0) (num 0) (num 0).

(** The state a run ends in; the start state if it does not return. *)
Definition after (events : list (@Event TermMath))
  (p : @MainWidgetPrivate TermMath) : @MainWidgetPrivate TermMath :=
  match @run TermMath sampleFiles events p with
  | Ok p' => p'
  | _ => p
  end.

Definition allComplete : Driver :=
  {| deferredBuffer_status := Complete; lightBuffer_status := Complete |}.

Definition badDrawBuffer : Driver :=
  {| deferredBuffer_status := IncompleteDrawBuffer;
     lightBuffer_status := Complete |}.

Definition unsupportedLight : Driver :=
  {| deferredBuffer_status := Complete; lightBuffer_status := Unsupported |}.

Definition noTouch : @KTouchPoint TermMath :=
  {| pos := (num 0, num 0); lastPos := (num 0, num 0);
     touch_state := TouchPointReleased |}.

(** Nothing pressed, nothing touched. *)
Definition idleInput : @KInputManager TermMath :=
  {| buttonPressed_RightButton := false;
     keyPressed := fun _ => false;
     keyTriggered := fun _ => false;
     mouseDelta := (num 0, num 0);
     pinchGesture := None;
     panGesture := None;
     touchCount := 0;
     touchPoint0 := noTouch;
     getOpenFileName := None |}.

(** The right button held, the mouse moved and W pressed. *)
Definition flyInput : @KInputManager TermMath :=
  {| buttonPressed_RightButton := true;
     keyPressed := fun k => match k with Key_W => true | _ => false end;
     keyTriggered := fun _ => false;
     mouseDelta := (num 3, num 1);
     pinchGesture := None;
     panGesture := None;
     touchCount := 0;
     touchPoint0 := noTouch;
     getOpenFileName := None |}.

(** The widget once shown at 800 by 600; the same one paused. *)
Definition shownWidget : @MainWidgetPrivate TermMath :=
  after [InitializeGL; ResizeGL 800 600 allComplete] sampleWidget.

Definition pausedWidget : @MainWidgetPrivate TermMath :=
  set_m_paused true shownWidget.

(** The half-edges of the triangle without a face, in the order of their
    [next] links. *)
Definition triangle_loop : list HalfEdge :=
  [ {| to := 1; face := 0; next := 6 |};
    {| to := 3; face := 0; next := 5 |};
    {| to := 2; face := 0; next := 4 |} ].

(** A context in which nothing is bound and no capability is enabled. *)
Definition freshContext : GLState :=
  {| gl_framebuffer := None;
     gl_program := None;
     gl_depthTest := false;
     gl_cullFace := false;
     gl_blend := false;
     gl_depthMask := true;
     gl_depthFunc := GL_LESS;
     gl_blendFunc := None;
     gl_activeTexture := 0;
     gl_textureUnits := fun _ => None |}.

(** The keys 2 and 4 held. *)
Definition twoAndFourInput : @KInputManager TermMath :=
  {| buttonPressed_RightButton := false;
     keyPressed := fun k => match k with Key_2 | Key_4 => true | _ => false end;
     keyTriggered := fun _ => false;
     mouseDelta := (num 0, num 0);
     pinchGesture := None;
     panGesture := None;
     touchCount := 0;
     touchPoint0 := noTouch;
     getOpenFileName := None |}.

(** Control and O, and the triangle chosen in the dialog. *)
Definition openTriangleInput : @KInputManager TermMath :=
  {| buttonPressed_RightButton := false;
     keyPressed := fun k => match k with Key_Control => true | _ => false end;
     keyTriggered := fun k => match k with Key_O => true | _ => false end;
     mouseDelta := (num 0, num 0);
     pinchGesture := None;
     panGesture := None;
     touchCount := 0;
     touchPoint0 := noTouch;
     getOpenFileName := Some "triangle.obj" |}.

(** The events that show the widget at 800 by 600, and a session after. *)
Definition showEvents : list (@Event TermMath) :=
  [InitializeGL; ResizeGL 800 600 allComplete].

Definition sessionEvents : list (@Event TermMath) :=
  [UpdateEvent flyInput; PaintGL; UpdateEvent openTriangleInput; PaintGL].

(** A first frame painted after an update with the right button held. *)
Definition flownFirstFrame : list (@Event TermMath) :=
  [InitializeGL; ResizeGL 800 600 allComplete; UpdateEvent flyInput; PaintGL].

(** The widget showing the triangle, and a widget after the dialog has
    returned [fileName]; the widget itself where [openObj] does not return. *)
Definition triangleWidget : @MainWidgetPrivate TermMath :=
  after [UpdateEvent openTriangleInput] shownWidget.

Definition afterOpen (fileName : QString) (p : @MainWidgetPrivate TermMath)
  : @MainWidgetPrivate TermMath :=
  match @openObj TermMath sampleFiles fileName p with
  | Ok p' => p'
  | _ => p
  end.

(** ** Properties *)

Section Properties.

Context {K : KMath} {files : MeshFiles}.

(** *** Reasoning about blocks of statements *)

Lemma keeps_statements {A : Type} (f : MainWidgetPrivate -> A) stmts :
  Forall (keeps f) stmts -> keeps f (statements stmts).
Proof.
  unfold statements. induction 1 as [|g l Hg _ IH]; intro p; simpl.
  - reflexivity.
  - rewrite IH. apply Hg.
Qed.

Lemma keeps_fold_left {A B : Type} (f : MainWidgetPrivate -> A)
  (g : MainWidgetPrivate -> B -> MainWidgetPrivate) (l : list B) :
  (forall b, keeps f (fun p => g p b)) -> keeps f (fun p => fold_left g l p).
Proof.
  intros Hg. induction l as [|b l IH]; intro p; simpl.
  - reflexivity.
  - rewrite IH. apply (Hg b).
Qed.

Lemma preserves_pure {A : Type} (f : MainWidgetPrivate -> A) g :
  keeps f g -> preserves f (pure g).
Proof. intros Hg p p' H. injection H as <-. apply Hg. Qed.

Lemma preserves_block {A : Type} (f : MainWidgetPrivate -> A) stmts :
  Forall (preserves f) stmts -> preserves f (block stmts).
Proof.
  induction 1 as [|s l Hs _ IH]; intros p p' H; simpl in H.
  - injection H as <-. reflexivity.
  - unfold andThen in H.
    destruct (s p) as [q| |] eqn:E; simpl in H; try discriminate.
    rewrite (IH _ _ H). apply (Hs _ _ E).
Qed.

Lemma total_pure g : total (pure g).
Proof. intro p. exists (g p). reflexivity. Qed.

Lemma total_block stmts : Forall total stmts -> total (block stmts).
Proof.
  induction 1 as [|s l Hs _ IH]; intro p; simpl.
  - exists p. reflexivity.
  - unfold andThen. destruct (Hs p) as [q E]. rewrite E. simpl. apply IH.
Qed.

Lemma block_pure (g : MainWidgetPrivate -> MainWidgetPrivate) rest p :
  block (pure g :: rest) p = block rest (g p).
Proof. reflexivity. Qed.

Lemma run_cons e events p :
  run (e :: events) p = bind (handle e p) (run events).
Proof. reflexivity. Qed.

Lemma loadObj_unfold fileName p :
  loadObj fileName p = block (loadObj_statements fileName (m_paused p)) p.
Proof. reflexivity. Qed.

Lemma preserves_loadObj {A : Type} (f : MainWidgetPrivate -> A) fileName :
  (forall oldValue, preserves f (block (loadObj_statements fileName oldValue))) ->
  preserves f (loadObj fileName).
Proof. intros H p p' E. rewrite loadObj_unfold in E. exact (H _ _ _ E). Qed.

Lemma preserves_openObj {A : Type} (f : MainWidgetPrivate -> A) fileName :
  (forall name, preserves f (loadObj name)) -> preserves f (openObj fileName).
Proof.
  intros H p p'. destruct fileName as [name|]; simpl.
  - apply H.
  - intros E. injection E as <-. reflexivity.
Qed.

Lemma preserves_updateEvent_open {A : Type} (f : MainWidgetPrivate -> A) input :
  (forall name, preserves f (loadObj name)) ->
  preserves f (updateEvent_open input).
Proof.
  intros H p p'. unfold updateEvent_open.
  destruct (keyPressed input Key_Control).
  - destruct (keyTriggered input Key_O).
    + apply preserves_openObj, H.
    + intros E. injection E as <-. reflexivity.
  - intros E. injection E as <-. reflexivity.
Qed.

Lemma preserves_paintGL {A : Type} (f : MainWidgetPrivate -> A) :
  preserves f (block paintGL_statements) -> preserves f paintGL.
Proof.
  intros H p p'. unfold paintGL. destruct (m_paused p); cbv [negb].
  - intros E. injection E as <-. reflexivity.
  - apply H.
Qed.

(** Case analysis on every test a statement makes. *)
Ltac split_cases :=
  repeat match goal with
         | |- context [match ?x with _ => _ end] => destruct x
         end.

(** A member is left alone by a statement that cannot fail: by the
    structure of the statement, then by computation at the leaves. *)
Ltac solve_keeps :=
  lazymatch goal with
  | |- keeps _ (statements _) =>
      apply keeps_statements;
      repeat (apply Forall_cons; [solve_keeps|]); apply Forall_nil
  | |- keeps _ (fun p => fold_left _ _ p) =>
      apply keeps_fold_left; intro; solve_keeps
  | |- keeps _ (constructDeferredTexture _ _) =>
      unfold constructDeferredTexture; solve_keeps
  | |- keeps _ drawBackbuffer => unfold drawBackbuffer; solve_keeps
  | |- keeps _ (updateEvent_buffer _) => unfold updateEvent_buffer; solve_keeps
  | |- keeps _ (updateEvent_gestures _) =>
      unfold updateEvent_gestures; solve_keeps
  | |- keeps _ _ =>
      intro; unfold updateEvent_camera, updateEvent_lights; cbv beta;
      split_cases; reflexivity
  end.

Ltac solve_leaf :=
  let H := fresh "H" in
  intros ? ? H;
  repeat match type of H with
         | context [match ?x with _ => _ end] => destruct x
         end;
  try discriminate; injection H as <-; reflexivity.

(** The same for statements that may end the process. *)
Ltac solve_preserves :=
  lazymatch goal with
  | |- preserves _ (block _) =>
      apply preserves_block;
      repeat (apply Forall_cons; [solve_preserves|]); apply Forall_nil
  | |- preserves _ (pure _) => apply preserves_pure; solve_keeps
  | |- preserves _ (updateBackbuffer _ _ _) =>
      unfold updateBackbuffer; solve_preserves
  | |- preserves _ (resizeGL _ _ _) => unfold resizeGL; solve_preserves
  | |- preserves _ initializeGL => unfold initializeGL; solve_preserves
  | |- preserves _ paintGL =>
      apply preserves_paintGL; unfold paintGL_statements; solve_preserves
  | |- preserves _ (loadObj _) =>
      apply preserves_loadObj; intro; unfold loadObj_statements; solve_preserves
  | |- preserves _ (updateEvent_open _) =>
      apply preserves_updateEvent_open; intro; solve_preserves
  | |- preserves _ (openObj _) =>
      apply preserves_openObj; intro; solve_preserves
  | |- preserves _ _ => solve_leaf
  end.

(** *** Painting *)

Lemma paintGL_when_paused p : m_paused p = true -> paintGL p = Ok p.
Proof. intros H. unfold paintGL. rewrite H. reflexivity. Qed.

Lemma paintGL_renders p :
  m_paused p = false ->
  exists p', paintGL p = Ok p' /\ issued p p' (renderedFrame p).
Proof.
  intros H. destruct p. simpl in H. subst.
  match goal with
  | channel : DeferredData |- _ =>
      destruct channel; (eexists; split; vm_compute; reflexivity)
  end.
Qed.

Lemma paintGL_total : total paintGL.
Proof.
  intro p. destruct (m_paused p) eqn:E.
  - exists p. apply paintGL_when_paused, E.
  - destruct (paintGL_renders p E) as [p' [H _]]. exists p'. exact H.
Qed.

(** C1.  In a frame that renders, the calls issued are those of
    [renderedFrame]: the light volumes are drawn, and the light framebuffer
    is bound, exactly when the selected channel is [LightPass] or
    [MotionBlurPass]; for any other channel the textures are bound and the
    quad is drawn straight after the G-buffer pass. *)
Theorem light_pass_iff_composed_or_motion_blur (p : MainWidgetPrivate) :
  m_paused p = false ->
  exists p',
    paintGL p = Ok p' /\ issued p p' (renderedFrame p) /\
    (existsb isLightVolumeDraw (renderedFrame p) = true <->
     m_buffer p = LightPass \/ m_buffer p = MotionBlurPass) /\
    (existsb bindsLightBuffer (renderedFrame p) = true <->
     m_buffer p = LightPass \/ m_buffer p = MotionBlurPass) /\
    (m_buffer p <> LightPass -> m_buffer p <> MotionBlurPass ->
     renderedFrame p =
       [BeginFrame; PushMarker "Total Render Time"; BindProgram m_program]
       ++ paintGL_prepareScene p
       ++ paintGL_generateGBuffer
       ++ [ReleaseProgram m_program]
       ++ drawBackbuffer_textures p
       ++ drawBackbuffer_quad p
       ++ [PopMarker; EndFrame; DebugDrawDraw; WidgetPaintGL]).
Proof.
  intros H. destruct (paintGL_renders p H) as [p' [E I]].
  exists p'. split; [exact E|]. split; [exact I|].
  clear E I. unfold renderedFrame.
  destruct (m_buffer p);
    (split; [|split]; [vm_compute; intuition congruence ..|]);
    intros N1 N2; solve [reflexivity | congruence].
Qed.

(** C4.  While the pause flag is set, a call of [paintGL], and any number of
    calls in a row, return the state they were given: no call is added to
    the command log (no draw, no uniform write, no framebuffer bind) and no
    member changes. *)
Theorem paintGL_paused_is_noop (p : MainWidgetPrivate) (n : nat) :
  m_paused p = true ->
  paintGL p = Ok p /\ repeatedly n paintGL p = Ok p.
Proof.
  intros H. pose proof (paintGL_when_paused p H) as E.
  split; [exact E|].
  induction n as [|n IH]; simpl.
  - reflexivity.
  - unfold andThen. rewrite E. exact IH.
Qed.

(** C9, as amended.  When the dialog returns a null path, [openObj] returns
    the state it was given: nothing is loaded and nothing fails.  Line 192
    tests [isNull] only. *)
Theorem openObj_cancelled (fileName : QString) (p : MainWidgetPrivate) :
  isNull fileName = true -> openObj fileName p = Ok p.
Proof. destruct fileName; [discriminate | reflexivity]. Qed.

(** An empty path that is not null is a selection like any other. *)
Remark openObj_selected (name : string) (p : MainWidgetPrivate) :
  openObj (Some name) p = loadObj name p.
Proof. reflexivity. Qed.

(** *** The camera of the previous frame *)

Lemma loadObj_total fileName : total (loadObj fileName).
Proof.
  intro p. rewrite loadObj_unfold. eexists. vm_compute. reflexivity.
Qed.

Lemma updateEvent_open_total input : total (updateEvent_open input).
Proof.
  intro p. unfold updateEvent_open.
  destruct (keyPressed input Key_Control); [|exists p; reflexivity].
  destruct (keyTriggered input Key_O); [|exists p; reflexivity].
  destruct (getOpenFileName input) as [name|]; simpl.
  - apply loadObj_total.
  - exists p. reflexivity.
Qed.

Ltac solve_total :=
  lazymatch goal with
  | |- total (pure _) => apply total_pure
  | |- total (loadObj _) => apply loadObj_total
  | |- total (updateEvent_open _) => apply updateEvent_open_total
  end.

Lemma updateEvent_total input : total (updateEvent input).
Proof.
  unfold updateEvent. apply total_block.
  repeat (apply Forall_cons; [solve_total|]). apply Forall_nil.
Qed.

Lemma updateEvent_snapshot input p p' :
  updateEvent input p = Ok p' -> m_cameraPrev p' = m_camera p.
Proof.
  unfold updateEvent. rewrite block_pure. intros H.
  match type of H with
  | block ?l _ = _ =>
      assert (P : preserves m_cameraPrev (block l)) by solve_preserves
  end.
  rewrite (P _ _ H). reflexivity.
Qed.

Lemma updateEvent_idle input :
  buttonPressed_RightButton input = false ->
  preserves m_camera (updateEvent input).
Proof.
  intros B. unfold updateEvent. apply preserves_block.
  do 3 (apply Forall_cons; [solve_preserves|]).
  apply Forall_cons.
  { apply preserves_pure. intro p. unfold updateEvent_camera. rewrite B.
    reflexivity. }
  repeat (apply Forall_cons; [solve_preserves|]). apply Forall_nil.
Qed.

Lemma handle_preserves_cameras e :
  notUpdate e = true ->
  preserves m_camera (handle e) /\ preserves m_cameraPrev (handle e).
Proof.
  destruct e; simpl; intros N; try discriminate; split; solve_preserves.
Qed.

Lemma run_preserves_cameras events :
  forallb notUpdate events = true ->
  preserves m_camera (run events) /\ preserves m_cameraPrev (run events).
Proof.
  induction events as [|e events IH]; intros Hn.
  - split; intros p p' H; injection H as <-; reflexivity.
  - simpl in Hn. apply andb_prop in Hn. destruct Hn as [He Hn].
    destruct (IH Hn) as [IH1 IH2].
    destruct (handle_preserves_cameras e He) as [Hh1 Hh2].
    split; intros p p' H; rewrite run_cons in H;
      destruct (handle e p) as [q| |] eqn:E; simpl in H; try discriminate.
    + rewrite (IH1 _ _ H). apply (Hh1 _ _ E).
    + rewrite (IH2 _ _ H). apply (Hh2 _ _ E).
Qed.

Lemma handle_idle e p p' :
  cameraIdle e = true -> handle e p = Ok p' ->
  m_cameraPrev p = m_camera p -> m_cameraPrev p' = m_camera p'.
Proof.
  intros I H E. destruct e as [|w h driver| |input].
  - destruct (handle_preserves_cameras InitializeGL eq_refl) as [H1 H2].
    rewrite (H1 _ _ H), (H2 _ _ H). exact E.
  - destruct (handle_preserves_cameras (ResizeGL w h driver) eq_refl) as [H1 H2].
    rewrite (H1 _ _ H), (H2 _ _ H). exact E.
  - destruct (handle_preserves_cameras PaintGL eq_refl) as [H1 H2].
    rewrite (H1 _ _ H), (H2 _ _ H). exact E.
  - simpl in I. apply negb_true_iff in I.
    change (updateEvent input p = Ok p') in H.
    rewrite (updateEvent_snapshot _ _ _ H), (updateEvent_idle input I _ _ H).
    reflexivity.
Qed.

Lemma run_idle events : forall p p',
  forallb cameraIdle events = true -> run events p = Ok p' ->
  m_cameraPrev p = m_camera p -> m_cameraPrev p' = m_camera p'.
Proof.
  induction events as [|e events IH]; intros p p' I H E.
  - injection H as <-. exact E.
  - simpl in I. apply andb_prop in I. destruct I as [Ie I].
    rewrite run_cons in H.
    destruct (handle e p) as [q| |] eqn:Hq; simpl in H; try discriminate.
    exact (IH _ _ I H (handle_idle _ _ _ Ie Hq E)).
Qed.

(** C5, as amended.  [updateEvent] always returns, and the previous camera
    it leaves is the camera it was called with, whatever the input does to the
    camera afterwards; no other entry point touches either camera.  So the
    previous camera a frame sees is the camera the frame before it saw, and
    from construction on the two are equal as long as no update has come with
    the right button held. *)
Theorem previous_camera_is_camera_of_previous_frame :
  (forall input p,
      exists p', updateEvent input p = Ok p' /\ m_cameraPrev p' = m_camera p) /\
  (forall depthFar depthNear depthDiff dragVelocity events p,
      forallb cameraIdle events = true ->
      run events (MainWidget_new depthFar depthNear depthDiff dragVelocity) = Ok p ->
      m_cameraPrev p = m_camera p) /\
  (forall p input p1 events p2,
      updateEvent input p = Ok p1 ->
      forallb notUpdate events = true ->
      run events p1 = Ok p2 ->
      m_cameraPrev p2 = m_camera p /\ m_camera p2 = m_camera p1).
Proof.
  split; [|split].
  - intros input p. destruct (updateEvent_total input p) as [p' E].
    exists p'. split; [exact E|]. exact (updateEvent_snapshot _ _ _ E).
  - intros a b c d events p I H.
    exact (run_idle events _ _ I H eq_refl).
  - intros p input p1 events p2 Hu Hn H.
    destruct (run_preserves_cameras events Hn) as [H1 H2].
    rewrite (H1 _ _ H), (H2 _ _ H). split; [|reflexivity].
    exact (updateEvent_snapshot _ _ _ Hu).
Qed.

(** *** The uniform block *)

Lemma initializeGL_allocates : ensures allocated initializeGL.
Proof.
  intros p p'. unfold initializeGL. do 5 rewrite block_pure. intros H.
  match type of H with
  | block ?l _ = _ =>
      assert (P : preserves m_matrixBlock (block l)) by solve_preserves
  end.
  unfold allocated. rewrite (P _ _ H). reflexivity.
Qed.

Lemma handle_preserves_matrixBlock e :
  e <> InitializeGL -> preserves m_matrixBlock (handle e).
Proof.
  destruct e as [|w h driver| |input]; intros N; simpl.
  - congruence.
  - solve_preserves.
  - solve_preserves.
  - unfold updateEvent; solve_preserves.
Qed.

Lemma handle_keeps_allocation e :
  forall p p', handle e p = Ok p' -> allocated p -> allocated p'.
Proof.
  destruct e as [|w h driver| |input].
  - intros p p' H _.
    exact ((initializeGL_allocates
            : ensures allocated (handle InitializeGL)) p p' H).
  - intros p p' H S. unfold allocated.
    rewrite (handle_preserves_matrixBlock (ResizeGL w h driver)
               ltac:(discriminate) _ _ H).
    exact S.
  - intros p p' H S. unfold allocated.
    rewrite (handle_preserves_matrixBlock PaintGL ltac:(discriminate) _ _ H).
    exact S.
  - intros p p' H S. unfold allocated.
    rewrite (handle_preserves_matrixBlock (UpdateEvent input)
               ltac:(discriminate) _ _ H).
    exact S.
Qed.

Lemma run_keeps_allocation events : forall p p',
  run events p = Ok p' -> allocated p -> allocated p'.
Proof.
  induction events as [|e events IH]; intros p p' H S.
  - injection H as <-. exact S.
  - rewrite run_cons in H.
    destruct (handle e p) as [q| |] eqn:E; try discriminate.
    exact (IH _ _ H (handle_keeps_allocation _ _ _ E S)).
Qed.

(** C10.  In any state reached after [initializeGL], the uniform block is
    169 floats long, and every write [paintGL] makes into it starts at a
    non-negative offset and ends within the block: ten matrices of 16
    floats at float offsets 0 to 144, 4 floats at 160, and one float at
    each of 164 to 168. *)
Theorem uniform_writes_within_allocation (p0 : MainWidgetPrivate)
  (events : list Event) (p : MainWidgetPrivate) :
  run (InitializeGL :: events) p0 = Ok p ->
  ubo_size (m_matrixBlock p) = sizeof_float * 169 /\
  exists cmds p',
    paintGL p = Ok p' /\ issued p p' cmds /\
    Forall (fun w => 0 <= fst w /\ 0 < snd w /\
                     fst w + snd w <= ubo_size (m_matrixBlock p))
           (bufferWrites cmds) /\
    (m_paused p = false ->
     bufferWrites cmds =
       map (fun w => (sizeof_float * fst w, sizeof_float * snd w))
         [ (0, 16); (16, 16); (32, 16); (48, 16); (64, 16); (80, 16);
           (96, 16); (112, 16); (128, 16); (144, 16); (160, 4); (164, 1);
           (165, 1); (166, 1); (167, 1); (168, 1) ]).
Proof.
  intros H. rewrite run_cons in H.
  destruct (handle InitializeGL p0) as [q| |] eqn:E; try discriminate.
  pose proof (run_keeps_allocation _ _ _ H
                ((initializeGL_allocates
                  : ensures allocated (handle InitializeGL)) _ _ E)) as S.
  unfold allocated in S.
  split; [exact S|]. rewrite S.
  destruct (m_paused p) eqn:P.
  - exists [], p. split; [apply paintGL_when_paused, P|].
    split; [reflexivity|]. split; [constructor|discriminate].
  - destruct (paintGL_renders p P) as [p' [Hp I]].
    exists (renderedFrame p), p'. split; [exact Hp|]. split; [exact I|].
    clear. unfold renderedFrame.
    destruct (m_buffer p); (split; [|intros _; reflexivity]);
      vm_compute; repeat constructor; discriminate.
Qed.

(** *** Mesh reload *)

Lemma loadObj_replaces fileName p :
  exists p',
    loadObj fileName p = Ok p' /\
    m_paused p' = m_paused p /\
    m_halfEdgeMesh p' = Live (KHalfEdgeMesh_new fileName) /\
    m_openGLMesh p' =
      Live (createOpenGLMesh (KHalfEdgeMesh_new fileName)
              [Contiguous; Interleaved]) /\
    m_boundaries p' = query (KHalfEdgeMesh_new fileName).
Proof.
  rewrite loadObj_unfold. unfold loadObj_statements.
  eexists. split; [vm_compute; reflexivity|].
  repeat split.
Qed.

(** C6.  [loadObj] sets the pause flag first and restores the value it had
    last.  After each of its statements but the last the flag is set, so a
    frame requested there draws nothing and changes nothing; when it
    returns the flag is as it was, and the mesh, its drawable buffer and the
    boundary edges all come from the new file.  [openObj] leaves the flag as
    it was whether or not it loads. *)
Theorem loadObj_is_paused_until_mesh_is_replaced (fileName : string)
  (p : MainWidgetPrivate) :
  (forall k,
      (0 < k < List.length (loadObj_statements fileName (m_paused p)))%nat ->
      exists q,
        block (firstn k (loadObj_statements fileName (m_paused p))) p = Ok q /\
        m_paused q = true /\ paintGL q = Ok q) /\
  (exists p',
      loadObj fileName p = Ok p' /\
      m_paused p' = m_paused p /\
      m_halfEdgeMesh p' = Live (KHalfEdgeMesh_new fileName) /\
      m_openGLMesh p' =
        Live (createOpenGLMesh (KHalfEdgeMesh_new fileName)
                [Contiguous; Interleaved]) /\
      m_boundaries p' = query (KHalfEdgeMesh_new fileName)) /\
  (forall dialog,
      exists p', openObj dialog p = Ok p' /\ m_paused p' = m_paused p).
Proof.
  split; [|split].
  - intros k [H0 H1]. cbn [loadObj_statements List.length] in H1.
    destruct k as [|[|[|[|[|[|[|[|[|[|k]]]]]]]]]]; try lia;
      (eexists; split; [vm_compute; reflexivity|];
       split; [reflexivity|apply paintGL_when_paused; reflexivity]).
  - exact (loadObj_replaces fileName p).
  - intros [name|]; simpl.
    + destruct (loadObj_replaces name p) as [p' [H1 [H2 _]]].
      exists p'. split; assumption.
    + exists p. split; reflexivity.
Qed.

(** *** Boundary edges *)

Lemma query_fold mesh (edges : list HalfEdge) : forall result,
  fold_left
    (fun result edge =>
       if (face edge =? 0)%nat then result ++ [query_join mesh edge] else result)
    edges result
  = result ++ map (query_join mesh) (filter isBoundary edges).
Proof.
  induction edges as [|edge edges IH]; intros result; simpl.
  - rewrite app_nil_r. reflexivity.
  - rewrite IH. unfold isBoundary. destruct (face edge =? 0)%nat; simpl.
    + rewrite <- app_assoc. reflexivity.
    + reflexivity.
Qed.

Lemma query_filter_map mesh :
  query mesh = map (query_join mesh) (filter isBoundary (halfEdges mesh)).
Proof. unfold query. rewrite query_fold. reflexivity. Qed.

Lemma filter_none {A : Type} (f : A -> bool) (l : list A) :
  (forall x, In x l -> f x = false) -> filter f l = [].
Proof.
  induction l as [|x l IH]; intros H; simpl.
  - reflexivity.
  - rewrite (H x (or_introl eq_refl)). apply IH.
    intros y Hy. apply H. right. exact Hy.
Qed.

Lemma openLoop_join mesh loop i :
  openLoop mesh loop -> (i < List.length loop)%nat ->
  query_join mesh (nth i loop noHalfEdge)
  = (position (loopVertex mesh loop i), position (loopVertex mesh loop (S i))).
Proof.
  intros [_ Hnext] Hi. unfold query_join, loopVertex.
  rewrite (Hnext i Hi). rewrite (Nat.mod_small i _ Hi). reflexivity.
Qed.

(** C7.  After [loadObj], the boundary set holds, in the order of the
    half-edge list, one pair for each half-edge whose face is 0 and nothing
    else: the position of the vertex the half-edge points to and that of
    the vertex its next half-edge points to.  For a closed mesh the set is
    empty; when the half-edges without a face form one loop of N edges the
    set has N entries, and they are the pairs of positions of consecutive
    vertices of the loop. *)
Theorem boundaries_are_the_faceless_half_edges (fileName : string)
  (p : MainWidgetPrivate) :
  let mesh := KHalfEdgeMesh_new fileName in
  exists p',
    loadObj fileName p = Ok p' /\
    m_boundaries p' = map (query_join mesh) (filter isBoundary (halfEdges mesh)) /\
    List.length (m_boundaries p')
    = List.length (filter isBoundary (halfEdges mesh)) /\
    (closed mesh -> m_boundaries p' = []) /\
    (forall loop,
        openLoop mesh loop ->
        List.length (m_boundaries p') = List.length loop /\
        forall line,
          In line (m_boundaries p') <->
          exists i, (i < List.length loop)%nat /\
                    line = (position (loopVertex mesh loop i),
                            position (loopVertex mesh loop (S i)))).
Proof.
  intros mesh.
  destruct (loadObj_replaces fileName p) as [p' [H1 [_ [_ [_ H5]]]]].
  fold mesh in H5. rewrite query_filter_map in H5.
  exists p'. split; [exact H1|]. rewrite H5.
  split; [reflexivity|]. split; [apply length_map|]. split.
  - intros C. rewrite (filter_none _ _ C). reflexivity.
  - intros loop L. pose proof L as [P _]. split.
    + rewrite length_map. symmetry. apply Permutation_length, P.
    + intros line. rewrite in_map_iff. split.
      * intros [edge [E I]].
        apply (Permutation_in _ (Permutation_sym P)) in I.
        destruct (In_nth _ _ noHalfEdge I) as [i [Hi Hn]].
        exists i. split; [exact Hi|].
        rewrite <- E, <- Hn. apply openLoop_join; assumption.
      * intros [i [Hi E]].
        exists (nth i loop noHalfEdge). split.
        -- rewrite E. apply openLoop_join; assumption.
        -- apply (Permutation_in _ P). apply nth_In, Hi.
Qed.

(** *** Rebuilding the render targets *)

Lemma float_of_int_exact n : Z.abs n <= 2 ^ 24 -> float_of_int n = n.
Proof.
  intros H. unfold float_of_int.
  destruct (Z.abs n <? 2 ^ 24) eqn:E; [reflexivity|].
  apply Z.ltb_ge in E. assert (A : Z.abs n = 2 ^ 24) by lia.
  rewrite A. destruct (Z.abs_eq_or_opp n) as [B|B]; rewrite B in A.
  - subst n. reflexivity.
  - assert (n = - 2 ^ 24) by lia. subst n. reflexivity.
Qed.

Lemma updateBackbuffer_returns w h driver p :
  deferredBuffer_status driver = Complete ->
  lightBuffer_status driver = Complete ->
  exists p', updateBackbuffer w h driver p = Ok p'.
Proof.
  intros C1 C2. unfold updateBackbuffer. rewrite C1, C2.
  generalize (float_of_int w), (float_of_int h). intros fw fh.
  eexists. vm_compute. reflexivity.
Qed.

Lemma resizeGL_returns w h driver p :
  deferredBuffer_status driver = Complete ->
  lightBuffer_status driver = Complete ->
  exists p', resizeGL w h driver p = Ok p'.
Proof.
  intros C1 C2. unfold resizeGL, updateBackbuffer. rewrite C1, C2.
  generalize (float_of_int w), (float_of_int h). intros fw fh.
  eexists. vm_compute. reflexivity.
Qed.

(** Run a rebuild that returned, to the state it returned. *)
Ltac run_rebuild H w h driver :=
  unfold resizeGL, updateBackbuffer in H;
  generalize dependent (float_of_int w); generalize dependent (float_of_int h);
  intros ? ? H;
  destruct (deferredBuffer_status driver); try (vm_compute in H; discriminate);
  destruct (lightBuffer_status driver); try (vm_compute in H; discriminate);
  vm_compute in H; injection H as <-.

(** C2.  A rebuild returns when the driver reports both framebuffers
    complete, and whenever it returns: colour attachments 0 to 4 of the
    G-buffer framebuffer hold the back-buffer texture and G-buffer textures
    0 to 3, in that order, its depth attachment holds the depth texture and
    its draw buffers are the five colour attachments; colour attachment 0 of
    the light framebuffer holds G-buffer texture 3, its depth attachment the
    same depth texture, and its only draw buffer is colour attachment 0.
    The six textures have six different names. *)
Theorem rebuild_wires_the_framebuffers (w h : Z) (driver : Driver)
  (p : MainWidgetPrivate) :
  (deferredBuffer_status driver = Complete ->
   lightBuffer_status driver = Complete ->
   exists p', updateBackbuffer w h driver p = Ok p') /\
  (forall p',
      updateBackbuffer w h driver p = Ok p' ->
      let deferredBuffer := m_deferredBuffer p' in
      let lightBuffer := m_lightBuffer p' in
      attachments deferredBuffer ColorAttachment0
      = Some (textureId (m_backBuffer p')) /\
      attachments deferredBuffer ColorAttachment1
      = Some (textureId (m_deferredTextures p' 0%nat)) /\
      attachments deferredBuffer ColorAttachment2
      = Some (textureId (m_deferredTextures p' 1%nat)) /\
      attachments deferredBuffer ColorAttachment3
      = Some (textureId (m_deferredTextures p' 2%nat)) /\
      attachments deferredBuffer ColorAttachment4
      = Some (textureId (m_deferredTextures p' 3%nat)) /\
      attachments deferredBuffer DepthAttachment
      = Some (textureId (m_depthTexture p')) /\
      drawBufferList deferredBuffer
      = [ColorAttachment0; ColorAttachment1; ColorAttachment2;
         ColorAttachment3; ColorAttachment4] /\
      attachments lightBuffer ColorAttachment0
      = Some (textureId (m_deferredTextures p' 3%nat)) /\
      attachments lightBuffer DepthAttachment
      = Some (textureId (m_depthTexture p')) /\
      drawBufferList lightBuffer = [ColorAttachment0] /\
      NoDup (map (fun t => textureId (texture t p')) renderTargets)).
Proof.
  split; [apply updateBackbuffer_returns|].
  intros p' H. run_rebuild H w h driver.
  cbv zeta. repeat (split; [reflexivity|]).
  cbn. repeat constructor; cbn; lia.
Qed.

(** C3.  [resizeGL] rebuilds both framebuffers and checks each.  If the
    G-buffer framebuffer is not complete the process ends with the message
    of its status; if it is complete and the light framebuffer is not, the
    process ends with the message of that status; if both are complete
    [resizeGL] returns.  Only the complete status has no message, and two
    statuses with the same message are the same status.  [paintGL] never
    ends the process and leaves both framebuffer objects as they are. *)
Theorem incomplete_framebuffer_is_fatal_at_resize (w h : Z) (driver : Driver)
  (p : MainWidgetPrivate) :
  (forall msg,
      reported (deferredBuffer_status driver) = Some msg ->
      resizeGL w h driver p = Fatal msg) /\
  (forall msg,
      deferredBuffer_status driver = Complete ->
      reported (lightBuffer_status driver) = Some msg ->
      resizeGL w h driver p = Fatal msg) /\
  (deferredBuffer_status driver = Complete ->
   lightBuffer_status driver = Complete ->
   exists p', resizeGL w h driver p = Ok p') /\
  (forall s, reported s = None <-> s = Complete) /\
  (forall s1 s2 msg,
      reported s1 = Some msg -> reported s2 = Some msg -> s1 = s2) /\
  (forall q, exists q',
      paintGL q = Ok q' /\
      m_deferredBuffer q' = m_deferredBuffer q /\
      m_lightBuffer q' = m_lightBuffer q).
Proof.
  split; [|split; [|split; [|split; [|split]]]].
  - intros msg R. unfold resizeGL, updateBackbuffer.
    destruct (deferredBuffer_status driver); simpl in R; try discriminate;
      injection R as <-; vm_compute; reflexivity.
  - intros msg C R. unfold resizeGL, updateBackbuffer. rewrite C.
    destruct (lightBuffer_status driver); simpl in R; try discriminate;
      injection R as <-; vm_compute; reflexivity.
  - apply resizeGL_returns.
  - intros s. destruct s; simpl; split; intros; congruence.
  - intros s1 s2 msg. destruct s1, s2; simpl; intros; congruence.
  - intros q. destruct (paintGL_total q) as [q' E]. exists q'.
    split; [exact E|].
    assert (P1 : preserves m_deferredBuffer paintGL) by solve_preserves.
    assert (P2 : preserves m_lightBuffer paintGL) by solve_preserves.
    split; [exact (P1 _ _ E)|exact (P2 _ _ E)].
Qed.

(** C8.  [resizeGL] returns when the driver reports both framebuffers
    complete, and whenever it returns each of the six render targets has a
    name generated during the call, clamp-to-edge wrapping in both
    directions, nearest filtering both ways, and storage and size of the
    width and height as the [float] members hold them; so the six sizes are
    equal.  Whenever [w] and [h] are values of [float], as every window size
    up to 2^24 is, that size is exactly [(w, h)]. *)
Theorem resize_rebuilds_the_render_targets (w h : Z) (driver : Driver)
  (p : MainWidgetPrivate) :
  (deferredBuffer_status driver = Complete ->
   lightBuffer_status driver = Complete ->
   exists p', resizeGL w h driver p = Ok p') /\
  (forall p',
      resizeGL w h driver p = Ok p' ->
      Forall (fun t =>
                let tex := texture t p' in
                width tex = float_of_int w /\ height tex = float_of_int h /\
                wrapS tex = Some ClampToEdge /\ wrapT tex = Some ClampToEdge /\
                magnification tex = Some Nearest /\
                minification tex = Some Nearest /\
                storage tex = Some (formatOf t, float_of_int w, float_of_int h) /\
                (gl_textureNames p < textureId tex)%nat)
             renderTargets /\
      (float_of_int w = w -> float_of_int h = h ->
       Forall (fun t =>
                 width (texture t p') = w /\ height (texture t p') = h /\
                 storage (texture t p') = Some (formatOf t, w, h))
              renderTargets) /\
      (0 < w <= 2 ^ 24 -> 0 < h <= 2 ^ 24 ->
       Forall (fun t => width (texture t p') = w /\ height (texture t p') = h)
              renderTargets)).
Proof.
  split; [apply resizeGL_returns|].
  intros p' H.
  assert (A : Forall (fun t =>
                let tex := texture t p' in
                width tex = float_of_int w /\ height tex = float_of_int h /\
                wrapS tex = Some ClampToEdge /\ wrapT tex = Some ClampToEdge /\
                magnification tex = Some Nearest /\
                minification tex = Some Nearest /\
                storage tex = Some (formatOf t, float_of_int w, float_of_int h) /\
                (gl_textureNames p < textureId tex)%nat)
             renderTargets).
  { run_rebuild H w h driver.
    unfold renderTargets. repeat constructor; cbn; lia. }
  split; [exact A|]. split.
  - intros Ew Eh. rewrite Ew, Eh in A.
    revert A. apply Forall_impl.
    intros t [A1 [A2 [_ [_ [_ [_ [A7 _]]]]]]]. repeat split; assumption.
  - intros Hw Hh.
    rewrite (float_of_int_exact w) in A by lia.
    rewrite (float_of_int_exact h) in A by lia.
    revert A. apply Forall_impl. intros t [A1 [A2 _]]. split; assumption.
Qed.

(** *** The calls of a frame *)

(** X3.  The writes of a frame to the uniform block follow one another from
    byte 0 without gap or overlap, each of positive size, and end at byte
    [sizeof(float) * (16 * 10 + 4 + 5)], the size line 390 allocates. *)
Theorem frame_writes_tile_the_uniform_block (p : MainWidgetPrivate) :
  m_paused p = false ->
  exists cmds p',
    paintGL p = Ok p' /\ issued p p' cmds /\
    tiledUpTo (bufferWrites cmds) 0 = Some (sizeof_float * (16 * 10 + 4 + 5)).
Proof.
  intros H. destruct (paintGL_renders p H) as [p' [E I]].
  exists (renderedFrame p), p'. split; [exact E|]. split; [exact I|].
  clear. unfold renderedFrame. destruct (m_buffer p); reflexivity.
Qed.

(** X4.  The clears and draws of a frame, with the framebuffer bound when
    each is issued: the clear of colour and depth, the floor and the instances
    go to the deferred framebuffer; for [LightPass] and [MotionBlurPass] the
    colour clear and the light volumes go to the light framebuffer; the quad
    and the debug geometry go to the default framebuffer. *)
Theorem frame_draws_each_pass_into_its_target (p : MainWidgetPrivate)
  (s : GLState) :
  m_paused p = false ->
  exists cmds p',
    paintGL p = Ok p' /\ issued p p' cmds /\
    drawTargets cmds s =
      [ (glClear [GL_COLOR_BUFFER_BIT; GL_DEPTH_BUFFER_BIT], Some DeferredBuffer);
        (GroupDraw m_floorGroup, Some DeferredBuffer);
        (GroupDraw m_instanceGroup, Some DeferredBuffer) ]
      ++ match m_buffer p with
         | LightPass | MotionBlurPass =>
             [ (glClear [GL_COLOR_BUFFER_BIT], Some LightBuffer);
               (GroupDraw m_pointLightGroup, Some LightBuffer) ]
         | _ => []
         end
      ++ [ (DrawQuad, None); (DebugDrawDraw, None) ].
Proof.
  intros H. destruct (paintGL_renders p H) as [p' [E I]].
  exists (renderedFrame p), p'. split; [exact E|]. split; [exact I|].
  clear. unfold renderedFrame. destruct (m_buffer p); reflexivity.
Qed.

(** X5.  The light volumes are drawn once in a frame of the channels
    [LightPass] and [MotionBlurPass], not at all otherwise, and when they are
    drawn the light framebuffer and the point light program are bound,
    blending is on with factors (GL_ONE, GL_ONE), the depth function is
    GL_GREATER, and depth test and depth writes are off. *)
Theorem light_volumes_are_drawn_additively (p : MainWidgetPrivate) (s : GLState) :
  m_paused p = false ->
  exists cmds p',
    paintGL p = Ok p' /\ issued p p' cmds /\
    List.length (statesAt isLightVolumeDraw cmds s)
    = match m_buffer p with
      | LightPass | MotionBlurPass => 1%nat
      | _ => 0%nat
      end /\
    Forall (fun g =>
              gl_framebuffer g = Some LightBuffer /\
              gl_program g = Some m_pointLightProgram /\
              gl_blend g = true /\
              gl_blendFunc g = Some (GL_ONE, GL_ONE) /\
              gl_depthFunc g = GL_GREATER /\
              gl_depthMask g = false /\
              gl_depthTest g = false /\
              gl_cullFace g = gl_cullFace s)
           (statesAt isLightVolumeDraw cmds s).
Proof.
  intros H. destruct (paintGL_renders p H) as [p' [E I]].
  exists (renderedFrame p), p'. split; [exact E|]. split; [exact I|].
  clear. unfold renderedFrame.
  destruct (m_buffer p); (split; [reflexivity|]);
    vm_compute; repeat constructor.
Qed.

Lemma quad_context (p : MainWidgetPrivate) (s : GLState) :
  exists g,
    statesAt isQuadDraw (renderedFrame p) s = [g] /\
    gl_framebuffer g = None /\
    gl_program g = Some (m_deferredPrograms (m_buffer p)) /\
    gl_depthTest g = false /\
    gl_depthMask g = false /\
    gl_textureUnits g 0 = Some (textureId (m_deferredTextures p 0%nat)) /\
    gl_textureUnits g 1 = Some (textureId (m_deferredTextures p 1%nat)) /\
    gl_textureUnits g 2 = Some (textureId (m_deferredTextures p 2%nat)) /\
    gl_textureUnits g 3 = Some (textureId (m_backBuffer p)) /\
    gl_textureUnits g 4 = Some (textureId (m_deferredTextures p 3%nat)) /\
    gl_textureUnits g 5 = Some (textureId (m_depthTexture p)).
Proof.
  unfold renderedFrame, drawBackbuffer_quad.
  destruct (m_buffer p);
    (eexists; split; [vm_compute; reflexivity|]; repeat split).
Qed.

Lemma light_context (p : MainWidgetPrivate) (s : GLState) :
  m_buffer p = LightPass \/ m_buffer p = MotionBlurPass ->
  exists g,
    statesAt isLightVolumeDraw (renderedFrame p) s = [g] /\
    gl_framebuffer g = Some LightBuffer /\
    gl_program g = Some m_pointLightProgram /\
    gl_textureUnits g 4 = Some (textureId (m_deferredTextures p 3%nat)) /\
    gl_textureUnits g 5 = Some (textureId (m_depthTexture p)).
Proof.
  unfold renderedFrame, drawBackbuffer_quad.
  intros [-> | ->];
    (eexists; split; [vm_compute; reflexivity|]; repeat split).
Qed.

(** X6.  The quad is drawn once per frame, into the default framebuffer,
    with the program of the selected channel, depth test and depth writes
    off, and the texture units 0 to 5 holding the deferred textures 0, 1, 2,
    the back buffer, the deferred texture 3 and the depth texture. *)
Theorem quad_is_drawn_with_the_selected_program (p : MainWidgetPrivate)
  (s : GLState) :
  m_paused p = false ->
  exists cmds p' g,
    paintGL p = Ok p' /\ issued p p' cmds /\
    statesAt isQuadDraw cmds s = [g] /\
    gl_framebuffer g = None /\
    gl_program g = Some (m_deferredPrograms (m_buffer p)) /\
    gl_depthTest g = false /\
    gl_depthMask g = false /\
    gl_textureUnits g 0 = Some (textureId (m_deferredTextures p 0%nat)) /\
    gl_textureUnits g 1 = Some (textureId (m_deferredTextures p 1%nat)) /\
    gl_textureUnits g 2 = Some (textureId (m_deferredTextures p 2%nat)) /\
    gl_textureUnits g 3 = Some (textureId (m_backBuffer p)) /\
    gl_textureUnits g 4 = Some (textureId (m_deferredTextures p 3%nat)) /\
    gl_textureUnits g 5 = Some (textureId (m_depthTexture p)).
Proof.
  intros H. destruct (paintGL_renders p H) as [p' [E I]].
  destruct (quad_context p s) as [g Q].
  exists (renderedFrame p), p', g. split; [exact E|]. split; [exact I|]. exact Q.
Qed.

(** X7.  A frame closes every marker it opens and leaves the default
    framebuffer bound, depth test and depth writes on and face culling as it
    was.  After the light pass the depth function is GL_LESS and blending is
    off, whatever they were; otherwise both are as they were. *)
Theorem frame_restores_the_context (p : MainWidgetPrivate) (s : GLState)
  (stack : list string) :
  m_paused p = false ->
  exists cmds p',
    paintGL p = Ok p' /\ issued p p' cmds /\
    markerStack cmds stack = Some stack /\
    gl_framebuffer (glRun cmds s) = None /\
    gl_depthTest (glRun cmds s) = true /\
    gl_depthMask (glRun cmds s) = true /\
    gl_cullFace (glRun cmds s) = gl_cullFace s /\
    gl_depthFunc (glRun cmds s)
    = match m_buffer p with
      | LightPass | MotionBlurPass => GL_LESS
      | _ => gl_depthFunc s
      end /\
    gl_blend (glRun cmds s)
    = match m_buffer p with
      | LightPass | MotionBlurPass => false
      | _ => gl_blend s
      end.
Proof.
  intros H. destruct (paintGL_renders p H) as [p' [E I]].
  exists (renderedFrame p), p'. split; [exact E|]. split; [exact I|].
  clear. unfold renderedFrame. destruct (m_buffer p); repeat split.
Qed.

Lemma paintGL_keeps_selection :
  preserves m_paused paintGL /\ preserves m_buffer paintGL.
Proof. split; solve_preserves. Qed.

(** X8.  In the frame painted after another frame, the floor and the
    instances are drawn into the deferred framebuffer with the G-buffer
    program, depth test and depth writes on, and the depth function the frame
    before has left: GL_LESS after a light pass. *)
Theorem geometry_of_the_next_frame_is_depth_tested (p : MainWidgetPrivate)
  (s : GLState) :
  m_paused p = false ->
  exists cmds1 p1 cmds2 p2,
    paintGL p = Ok p1 /\ issued p p1 cmds1 /\
    paintGL p1 = Ok p2 /\ issued p1 p2 cmds2 /\
    List.length (statesAt isGeometryDraw cmds2 (glRun cmds1 s)) = 2%nat /\
    Forall (fun g =>
              gl_framebuffer g = Some DeferredBuffer /\
              gl_program g = Some m_program /\
              gl_depthTest g = true /\
              gl_depthMask g = true /\
              gl_depthFunc g
              = match m_buffer p with
                | LightPass | MotionBlurPass => GL_LESS
                | _ => gl_depthFunc s
                end)
           (statesAt isGeometryDraw cmds2 (glRun cmds1 s)).
Proof.
  intros H. destruct (paintGL_renders p H) as [p1 [E1 I1]].
  destruct paintGL_keeps_selection as [P B].
  pose proof (P _ _ E1) as H1. rewrite H in H1.
  pose proof (B _ _ E1) as B1.
  destruct (paintGL_renders p1 H1) as [p2 [E2 I2]].
  exists (renderedFrame p), p1, (renderedFrame p1), p2.
  split; [exact E1|]. split; [exact I1|]. split; [exact E2|]. split; [exact I2|].
  clear - B1. unfold renderedFrame. rewrite B1.
  destruct (m_buffer p); (split; [reflexivity|]);
    vm_compute; repeat constructor.
Qed.

(** *** Runs of events *)

Lemma block_cons (stmt : MainWidgetPrivate -> Outcome MainWidgetPrivate) rest p :
  block (stmt :: rest) p = bind (stmt p) (block rest).
Proof. reflexivity. Qed.

Lemma run_invariant (P : MainWidgetPrivate -> Prop) :
  (forall e p p', handle e p = Ok p' -> P p -> P p') ->
  forall events p p', run events p = Ok p' -> P p -> P p'.
Proof.
  intros Step. induction events as [|e events IH]; intros p p' H I.
  - injection H as <-. exact I.
  - rewrite run_cons in H.
    destruct (handle e p) as [q| |] eqn:E; simpl in H; try discriminate.
    exact (IH _ _ H (Step _ _ _ E I)).
Qed.

Lemma run_establishes (P : MainWidgetPrivate -> Prop) (est : Event -> bool) :
  (forall e p p', handle e p = Ok p' -> est e = true -> P p') ->
  (forall e p p', handle e p = Ok p' -> P p -> P p') ->
  forall events p p',
    run events p = Ok p' -> existsb est events = true \/ P p -> P p'.
Proof.
  intros Est Step. induction events as [|e events IH]; intros p p' H I.
  - injection H as <-. destruct I as [I|I]; [discriminate|exact I].
  - rewrite run_cons in H.
    destruct (handle e p) as [q| |] eqn:E; simpl in H; try discriminate.
    apply (IH _ _ H). simpl in I.
    destruct (est e) eqn:Ee.
    + right. exact (Est _ _ _ E Ee).
    + destruct I as [I|I]; [left; exact I|right; exact (Step _ _ _ E I)].
Qed.

Lemma run_app events1 events2 p :
  run (events1 ++ events2) p = bind (run events1 p) (run events2).
Proof.
  revert p. induction events1 as [|e events1 IH]; intro p; [reflexivity|].
  rewrite <- app_comm_cons, !run_cons.
  destruct (handle e p) as [q| |]; cbv beta iota delta [bind]; [|reflexivity ..].
  apply IH.
Qed.

Lemma run_invariant_when (P : MainWidgetPrivate -> Prop) (sel : Event -> bool) :
  (forall e p p', sel e = true -> handle e p = Ok p' -> P p -> P p') ->
  forall events, forallb sel events = true ->
  forall p p', run events p = Ok p' -> P p -> P p'.
Proof.
  intros Step. induction events as [|e events IH]; intros S p p' H I.
  - injection H as <-. exact I.
  - simpl in S. apply andb_prop in S. destruct S as [Se S].
    rewrite run_cons in H.
    destruct (handle e p) as [q| |] eqn:E;
      cbv beta iota delta [bind] in H; try discriminate.
    exact (IH S _ _ H (Step _ _ _ Se E I)).
Qed.

Lemma run_preserves_when {A : Type} (f : MainWidgetPrivate -> A)
  (sel : Event -> bool) :
  (forall e, sel e = true -> preserves f (handle e)) ->
  forall events, forallb sel events = true -> preserves f (run events).
Proof.
  intros Step. induction events as [|e events IH]; intros S p p' H.
  - injection H as <-. reflexivity.
  - simpl in S. apply andb_prop in S. destruct S as [Se S].
    rewrite run_cons in H.
    destruct (handle e p) as [q| |] eqn:E; simpl in H; try discriminate.
    rewrite (IH S _ _ H). exact (Step e Se _ _ E).
Qed.

(** The same as [solve_preserves], with [load] for the statements that load
    a mesh. *)
Ltac solve_preserves_with load :=
  lazymatch goal with
  | |- preserves _ (block _) =>
      apply preserves_block;
      repeat (apply Forall_cons; [solve_preserves_with load|]); apply Forall_nil
  | |- preserves _ (pure _) => apply preserves_pure; solve_keeps
  | |- preserves _ (updateBackbuffer _ _ _) =>
      unfold updateBackbuffer; solve_preserves_with load
  | |- preserves _ (resizeGL _ _ _) => unfold resizeGL; solve_preserves_with load
  | |- preserves _ initializeGL => unfold initializeGL; solve_preserves_with load
  | |- preserves _ (updateEvent _) => unfold updateEvent; solve_preserves_with load
  | |- preserves _ paintGL =>
      apply preserves_paintGL; unfold paintGL_statements;
      solve_preserves_with load
  | |- preserves _ (loadObj _) => load
  | |- preserves _ (updateEvent_open _) =>
      apply preserves_updateEvent_open; intro; solve_preserves_with load
  | |- preserves _ _ => solve_leaf
  end.

Ltac solve_preserves_all :=
  solve_preserves_with
    ltac:(apply preserves_loadObj; intro; unfold loadObj_statements;
          solve_preserves).

Lemma loadObj_preserves_paused fileName : preserves m_paused (loadObj fileName).
Proof.
  intros p p' H.
  destruct (loadObj_replaces fileName p) as [q [E [P _]]].
  rewrite E in H. injection H as <-. exact P.
Qed.

Lemma handle_preserves_paused e : preserves m_paused (handle e).
Proof.
  destruct e; simpl;
    solve_preserves_with ltac:(apply loadObj_preserves_paused).
Qed.

(** X1.  From the constructed widget, once [initializeGL] and whatever
    events follow it have returned, the pause flag is clear: [loadObj] is the
    only code that sets it, and it restores it before it returns.  So a paint
    between events renders a frame. *)
Theorem pause_flag_is_clear_between_events
  (depthFar depthNear depthDiff dragVelocity : float) (events : list Event)
  (p : MainWidgetPrivate) :
  run (InitializeGL :: events)
    (MainWidget_new depthFar depthNear depthDiff dragVelocity) = Ok p ->
  m_paused p = false /\
  exists p', paintGL p = Ok p' /\ issued p p' (renderedFrame p).
Proof.
  intros H.
  assert (P : m_paused p = false).
  { exact (run_invariant (fun q => m_paused q = false)
             (fun e q q' E I => eq_trans (handle_preserves_paused e q q' E) I)
             (InitializeGL :: events) _ _ H eq_refl). }
  split; [exact P|]. exact (paintGL_renders p P).
Qed.

(** *** The update event *)

(** The update event, statement by statement. *)
Lemma updateEvent_steps input p p' :
  updateEvent input p = Ok p' ->
  exists q,
    updateEvent_open input
      (updateEvent_camera input
         (updateEvent_lights
            (set_m_instances (updateEvent_rotate (flit 0) (m_instances p))
               (set_m_cameraPrev (m_camera p) p)))) = Ok q /\
    p' = updateEvent_gestures input (updateEvent_buffer input q).
Proof.
  unfold updateEvent. rewrite !block_pure, block_cons. cbv beta.
  match goal with
  | |- context [bind ?x _] => destruct x as [q| |] eqn:E
  end; cbv beta iota delta [bind]; try discriminate.
  rewrite !block_pure. intros H. injection H as <-.
  exists q. split; [exact E|reflexivity].
Qed.

Lemma select_buffer (pressed : bool) channel p :
  m_buffer (if pressed then set_m_buffer channel p else p)
  = if pressed then channel else m_buffer p.
Proof. destruct pressed; reflexivity. Qed.

Lemma updateEvent_buffer_selects input p :
  m_buffer (updateEvent_buffer input p)
  = fold_left
      (fun channel entry =>
         if keyPressed input (fst entry) then snd entry else channel)
      numberKeys (m_buffer p).
Proof.
  unfold updateEvent_buffer, statements. cbn [fold_left numberKeys fst snd].
  rewrite !select_buffer. reflexivity.
Qed.

Lemma last_pressed_wins {A B : Type} (pressed : A -> bool)
  (table : list (A * B)) :
  forall start,
    ((forall k d, In (k, d) table -> pressed k = false) ->
     fold_left (fun c e => if pressed (fst e) then snd e else c) table start
     = start) /\
    (forall before k d after,
       table = before ++ (k, d) :: after -> pressed k = true ->
       (forall k' d', In (k', d') after -> pressed k' = false) ->
       fold_left (fun c e => if pressed (fst e) then snd e else c) table start
       = d).
Proof.
  assert (None' : forall (table : list (A * B)) start,
             (forall k d, In (k, d) table -> pressed k = false) ->
             fold_left (fun c e => if pressed (fst e) then snd e else c)
               table start = start).
  { induction table0 as [|[k d] rest IH]; intros start H; [reflexivity|].
    simpl. rewrite (H k d (or_introl eq_refl)).
    apply IH. intros k' d' I. exact (H k' d' (or_intror I)). }
  intro start. split; [apply None'|].
  intros before k d after -> P N.
  rewrite fold_left_app. simpl. rewrite P. apply None', N.
Qed.

Lemma updateEvent_keeps_buffer_until_keys input p p' :
  updateEvent input p = Ok p' ->
  m_buffer p'
  = fold_left
      (fun channel entry =>
         if keyPressed input (fst entry) then snd entry else channel)
      numberKeys (m_buffer p).
Proof.
  intros H. destruct (updateEvent_steps _ _ _ H) as [q [O ->]].
  assert (G : keeps m_buffer (updateEvent_gestures input)) by solve_keeps.
  rewrite G, updateEvent_buffer_selects. f_equal.
  assert (P : preserves m_buffer (updateEvent_open input)) by solve_preserves.
  rewrite (P _ _ O).
  assert (C : keeps m_buffer (updateEvent_camera input)) by solve_keeps.
  rewrite C. reflexivity.
Qed.

(** X9.  An update leaves the selected channel alone when no number key is
    held; when number keys are held, the one listed last in [numberKeys]
    decides, so the key with the highest digit wins. *)
Theorem number_keys_select_the_channel
  (input : KInputManager) (p : MainWidgetPrivate) :
  exists p',
    updateEvent input p = Ok p' /\
    ((forall key channel, In (key, channel) numberKeys ->
                          keyPressed input key = false) ->
     m_buffer p' = m_buffer p) /\
    (forall before key channel after,
       numberKeys = before ++ (key, channel) :: after ->
       keyPressed input key = true ->
       (forall key' channel', In (key', channel') after ->
                              keyPressed input key' = false) ->
       m_buffer p' = channel).
Proof.
  destruct (updateEvent_total input p) as [p' H]. exists p'.
  split; [exact H|].
  rewrite (updateEvent_keeps_buffer_until_keys _ _ _ H).
  destruct (last_pressed_wins (keyPressed input) numberKeys (m_buffer p))
    as [N L].
  split; [exact N|exact L].
Qed.

Lemma updateEvent_open_outcome input p :
  (forall name,
     keyPressed input Key_Control = true ->
     keyTriggered input Key_O = true ->
     getOpenFileName input = Some name ->
     updateEvent_open input p = loadObj name p) /\
  (keyPressed input Key_Control = false \/
   keyTriggered input Key_O = false \/
   getOpenFileName input = None ->
   updateEvent_open input p = Ok p).
Proof.
  unfold updateEvent_open, openObj. split.
  - intros name -> -> ->. reflexivity.
  - intros [->|[->| ->]]; [reflexivity| |].
    + destruct (keyPressed input Key_Control); reflexivity.
    + destruct (keyPressed input Key_Control), (keyTriggered input Key_O);
        reflexivity.
Qed.

(** X10.  An update replaces the mesh, its drawable buffer and the boundary
    edges by those of the chosen file when Control is held, O is triggered and
    the dialog returns a name; in every other case the three, and the mesh of
    the instance group, are what they were. *)
Theorem mesh_is_replaced_only_on_control_O
  (input : KInputManager) (p : MainWidgetPrivate) :
  exists p',
    updateEvent input p = Ok p' /\
    (forall name,
       keyPressed input Key_Control = true ->
       keyTriggered input Key_O = true ->
       getOpenFileName input = Some name ->
       m_halfEdgeMesh p' = Live (KHalfEdgeMesh_new name) /\
       m_openGLMesh p'
       = Live (createOpenGLMesh (KHalfEdgeMesh_new name)
                 [Contiguous; Interleaved]) /\
       m_boundaries p' = query (KHalfEdgeMesh_new name)) /\
    (keyPressed input Key_Control = false \/
     keyTriggered input Key_O = false \/
     getOpenFileName input = None ->
     m_halfEdgeMesh p' = m_halfEdgeMesh p /\
     m_openGLMesh p' = m_openGLMesh p /\
     m_boundaries p' = m_boundaries p /\
     instanceGroupMesh (gl_commands p') = instanceGroupMesh (gl_commands p)).
Proof.
  destruct (updateEvent_total input p) as [p' H]. exists p'.
  split; [exact H|].
  destruct (updateEvent_steps _ _ _ H) as [q [O Ep']].
  assert (G : keeps meshView (updateEvent_gestures input)) by solve_keeps.
  assert (B : keeps meshView (updateEvent_buffer input)) by solve_keeps.
  assert (C : keeps meshView (updateEvent_camera input)) by solve_keeps.
  assert (V : meshView p' = meshView q)
    by (rewrite Ep'; exact (eq_trans (G _) (B q))).
  clear H Ep'.
  match type of O with
  | updateEvent_open _ ?s = _ =>
      assert (S : meshView s = meshView p)
        by (rewrite C; reflexivity);
      destruct (updateEvent_open_outcome input s) as [Load Skip];
      generalize dependent s; intros start O S Load Skip
  end.
  split.
  - intros name Ctrl Key Name. rewrite (Load name Ctrl Key Name) in O.
    destruct (loadObj_replaces name start) as [q' [E [_ [M1 [M2 M3]]]]].
    rewrite E in O. injection O as ->.
    unfold meshView in V. injection V as V1 V2 V3 _.
    rewrite V1, V2, V3. repeat split; assumption.
  - intros No. rewrite (Skip No) in O. injection O as <-.
    rewrite S in V. unfold meshView in V. injection V as V1 V2 V3 V4.
    repeat split; assumption.
Qed.

(** X11.  An update during which the right button is not held leaves the
    camera where it was, whatever keys are held, and the previous camera
    equals it afterwards. *)
Theorem camera_moves_only_with_the_right_button
  (input : KInputManager) (p : MainWidgetPrivate) :
  buttonPressed_RightButton input = false ->
  exists p',
    updateEvent input p = Ok p' /\
    m_camera p' = m_camera p /\ m_cameraPrev p' = m_camera p.
Proof.
  intros B. destruct (updateEvent_total input p) as [p' H]. exists p'.
  split; [exact H|]. split.
  - exact (updateEvent_idle input B _ _ H).
  - exact (updateEvent_snapshot _ _ _ H).
Qed.

(** *** The loaded mesh *)

Lemma loadObj_coherent fileName : ensures coherent (loadObj fileName).
Proof.
  intros p p' H. rewrite loadObj_unfold in H. vm_compute in H.
  injection H as <-. exists (KHalfEdgeMesh_new fileName). reflexivity.
Qed.

Lemma coherent_view p p' : meshView p' = meshView p -> coherent p -> coherent p'.
Proof. unfold coherent. intros ->. exact (fun C => C). Qed.

Lemma initializeGL_coherent : ensures coherent initializeGL.
Proof.
  intros p p'. unfold initializeGL. rewrite !block_pure, block_cons.
  match goal with
  | |- context [bind ?x _] => destruct x as [q| |] eqn:E
  end; cbv beta iota delta [bind]; try discriminate.
  intros H.
  match type of H with
  | block ?l _ = _ =>
      assert (P : preserves meshView (block l)) by solve_preserves
  end.
  apply (coherent_view _ _ (P _ _ H)).
  exact (loadObj_coherent _ _ _ E).
Qed.

Lemma updateEvent_coherent input p p' :
  updateEvent input p = Ok p' -> coherent p -> coherent p'.
Proof.
  intros H I. destruct (updateEvent_steps _ _ _ H) as [q [O ->]].
  assert (G : keeps meshView (updateEvent_gestures input)) by solve_keeps.
  assert (B : keeps meshView (updateEvent_buffer input)) by solve_keeps.
  assert (C : keeps meshView (updateEvent_camera input)) by solve_keeps.
  apply (coherent_view _ _ (eq_trans (G _) (B q))).
  revert O. unfold updateEvent_open, openObj.
  match goal with
  | |- context [loadObj _ ?s] =>
      assert (S : coherent s) by (apply (coherent_view p); [rewrite C; reflexivity|exact I]);
      generalize dependent s; intros start S
  end.
  destruct (keyPressed input Key_Control);
    [|intros O; injection O as <-; exact S].
  destruct (keyTriggered input Key_O);
    [|intros O; injection O as <-; exact S].
  destruct (getOpenFileName input) as [name|];
    [|intros O; injection O as <-; exact S].
  intros O. exact (loadObj_coherent _ _ _ O).
Qed.

Lemma handle_coherent e p p' : handle e p = Ok p' -> coherent p -> coherent p'.
Proof.
  destruct e as [|w h driver| |input]; intros H I.
  - exact ((initializeGL_coherent
            : ensures coherent (handle InitializeGL)) _ _ H).
  - assert (P : preserves meshView (handle (ResizeGL w h driver)))
      by (simpl; solve_preserves).
    exact (coherent_view _ _ (P _ _ H) I).
  - assert (P : preserves meshView (handle PaintGL)) by (simpl; solve_preserves).
    exact (coherent_view _ _ (P _ _ H) I).
  - exact (updateEvent_coherent _ _ _ H I).
Qed.

(** X16.  Once [initializeGL] has been handled, and whatever is handled
    after it, the half-edge mesh is live, the drawable buffer is the one
    created from it, the boundary edges are those of its query, and the
    instance group has been given that drawable buffer last. *)
Theorem loaded_mesh_stays_coherent (events : list Event)
  (p0 p : MainWidgetPrivate) :
  run events p0 = Ok p ->
  existsb isInitialize events = true ->
  exists mesh,
    m_halfEdgeMesh p = Live mesh /\
    m_openGLMesh p = Live (createOpenGLMesh mesh [Contiguous; Interleaved]) /\
    m_boundaries p = query mesh /\
    instanceGroupMesh (gl_commands p)
    = Some (createOpenGLMesh mesh [Contiguous; Interleaved]).
Proof.
  intros H I.
  assert (C : coherent p).
  { apply (run_establishes coherent isInitialize) with (events := events) (p := p0).
    - intros e q q' E Ie. destruct e; try discriminate.
      exact ((initializeGL_coherent
              : ensures coherent (handle InitializeGL)) _ _ E).
    - exact handle_coherent.
    - exact H.
    - left. exact I. }
  destruct C as [mesh V]. exists mesh.
  unfold meshView in V. injection V as V1 V2 V3 V4.
  repeat split; assumption.
Qed.

(** *** Boundary edges and debug lines *)

Lemma handle_preserves_debugLines e : preserves debugLines (handle e).
Proof. destruct e; cbv beta iota delta [handle]; solve_preserves_all. Qed.

(** X17.  No event issues a debug line: [drawBoundaries] has no caller,
    so the boundary edges [loadObj] collects never reach the screen. *)
Theorem no_event_draws_a_boundary_edge (events : list Event)
  (p0 p : MainWidgetPrivate) :
  run events p0 = Ok p ->
  filter isDebugDrawLine (gl_commands p)
  = filter isDebugDrawLine (gl_commands p0).
Proof.
  intros H.
  exact (run_invariant (fun q => debugLines q = debugLines p0)
           (fun e q q' E I => eq_trans (handle_preserves_debugLines e q q' E) I)
           events _ _ H eq_refl).
Qed.

(** X18.  Called after [loadObj], [drawBoundaries] issues one debug line for
    each half-edge of the mesh without a face, in the order of the half-edge
    list, from the vertex the half-edge points to to the vertex its next
    half-edge points to, both mapped by the model matrix; none for a closed
    mesh. *)
Theorem drawBoundaries_draws_the_open_edges (fileName : string)
  (p : MainWidgetPrivate) :
  let mesh := KHalfEdgeMesh_new fileName in
  let modelToWorld := KTransform3D_toMatrix (m_transform p) in
  exists q,
    loadObj fileName p = Ok q /\
    issued q (drawBoundaries q)
      (map (fun edge =>
              DebugDrawLine
                (mapVector modelToWorld (position (vertex mesh (to edge))))
                (mapVector modelToWorld
                   (position (vertex mesh (to (halfEdge mesh (next edge)))))))
           (filter isBoundary (halfEdges mesh))).
Proof.
  intros mesh modelToWorld.
  destruct (loadObj_replaces fileName p) as [q [E [_ [_ [_ B]]]]].
  exists q. split; [exact E|].
  assert (T : preserves m_transform (loadObj fileName)) by solve_preserves.
  unfold issued, drawBoundaries, emit.
  rewrite B, (T _ _ E), query_filter_map, map_map.
  destruct q. reflexivity.
Qed.

(** *** The render targets between resizes *)

Lemma targets_view p p' :
  targetsView p' = targetsView p -> sized p /\ wired p -> sized p' /\ wired p'.
Proof.
  unfold targetsView. intros V. injection V as W H T B D A1 D1 A2 D2.
  assert (X : forall t, texture t p' = texture t p).
  { intros [i| |]; simpl; [rewrite T; reflexivity|exact B|exact D]. }
  unfold sized, wired. rewrite W, H, T, B, D, A1, A2.
  intros [S Wd]. split; [|exact Wd].
  revert S. apply Forall_impl. intros t. rewrite X. exact (fun I => I).
Qed.

Lemma resizeGL_targets w h driver :
  ensures (fun p => sized p /\ wired p) (resizeGL w h driver).
Proof.
  intros p p' H. run_rebuild H w h driver.
  split; [unfold sized, renderTargets; repeat constructor|].
  unfold wired. repeat split.
Qed.

Lemma handle_preserves_targets e :
  isResize e = false -> isInitialize e = false ->
  preserves targetsView (handle e).
Proof.
  destruct e; intros R N; try discriminate; cbv beta iota delta [handle];
    solve_preserves_all.
Qed.

Lemma handle_keeps_targets e p p' :
  negb (isInitialize e) = true ->
  handle e p = Ok p' -> sized p /\ wired p -> sized p' /\ wired p'.
Proof.
  intros N E S. apply negb_true_iff in N. destruct (isResize e) eqn:R.
  - destruct e as [|w h driver| |]; try discriminate.
    exact ((resizeGL_targets w h driver
            : ensures _ (handle (ResizeGL w h driver))) _ _ E).
  - exact (targets_view _ _ (handle_preserves_targets e R N _ _ E) S).
Qed.

(** A resize, and no initialisation after it. *)
Lemma run_targets w h driver before events p0 p :
  run (before ++ ResizeGL w h driver :: events) p0 = Ok p ->
  forallb (fun e => negb (isInitialize e)) events = true ->
  sized p /\ wired p.
Proof.
  intros H N. rewrite run_app in H.
  destruct (run before p0) as [p1| |];
    cbv beta iota delta [bind] in H; try discriminate.
  rewrite run_cons in H.
  destruct (handle (ResizeGL w h driver) p1) as [q| |] eqn:E;
    cbv beta iota delta [bind] in H; try discriminate.
  apply (run_invariant_when (fun q => sized q /\ wired q) _
           handle_keeps_targets events N q p H).
  exact ((resizeGL_targets w h driver
          : ensures _ (handle (ResizeGL w h driver))) _ _ E).
Qed.

(** X19.  Once a resize has been handled, and as long as no initialisation
    is handled after it, each of the six render targets has storage of the
    width and height the widget holds, and the two framebuffers hold the
    render targets at the attachment points [updateBackbuffer] chose. *)
Theorem render_targets_stay_sized_and_attached (w h : Z) (driver : Driver)
  (before events : list Event) (p0 p : MainWidgetPrivate) :
  run (before ++ ResizeGL w h driver :: events) p0 = Ok p ->
  forallb (fun e => negb (isInitialize e)) events = true ->
  Forall (fun t =>
            width (texture t p) = m_width p /\
            height (texture t p) = m_height p /\
            storage (texture t p) = Some (formatOf t, m_width p, m_height p))
         renderTargets /\
  wired p.
Proof. exact (run_targets w h driver before events p0 p). Qed.

(** *** Samplers *)

Lemma initializeGL_samplersSet : ensures samplersSet initializeGL.
Proof.
  intros p p' H. vm_compute in H. injection H as <-.
  unfold samplersSet, samplerView. cbv beta iota delta [gl_commands].
  intros program N. destruct program as [| |i]; [contradiction| |destruct i];
    vm_compute; repeat split.
Qed.

Lemma handle_preserves_samplerView e :
  isInitialize e = false -> preserves samplerView (handle e).
Proof.
  destruct e; intros N; try discriminate; cbv beta iota delta [handle];
    solve_preserves_all.
Qed.

Lemma run_samplersSet events p0 p :
  run events p0 = Ok p -> existsb isInitialize events = true -> samplersSet p.
Proof.
  intros H I.
  apply (run_establishes samplersSet isInitialize)
    with (events := events) (p := p0).
  - intros e q q' E Ie. destruct e; try discriminate.
    exact ((initializeGL_samplersSet
            : ensures samplersSet (handle InitializeGL)) _ _ E).
  - intros e q q' E S. destruct (isInitialize e) eqn:Ie.
    + destruct e; try discriminate.
      exact ((initializeGL_samplersSet
              : ensures samplersSet (handle InitializeGL)) _ _ E).
    + unfold samplersSet. rewrite (handle_preserves_samplerView e Ie _ _ E).
      exact S.
  - exact H.
  - left. exact I.
Qed.

(** X20.  After an initialisation, a resize after it and no initialisation
    since, in a frame that renders, each sampler of the presenting program
    has a unit, and at the draw of the quad that unit holds the texture
    attached where the sampler's name says:
    geometry, material and dynamics at the colour attachments 1, 2, 3 of the
    deferred framebuffer, the back buffer at its colour attachment 0, the
    light buffer at colour attachment 0 of the light framebuffer, depth at the
    depth attachment. *)
Theorem presented_samplers_read_their_attachments (w h : Z) (driver : Driver)
  (before events : list Event) (p0 p : MainWidgetPrivate) (s : GLState) :
  run (before ++ ResizeGL w h driver :: events) p0 = Ok p ->
  existsb isInitialize before = true ->
  forallb (fun e => negb (isInitialize e)) events = true ->
  m_paused p = false ->
  exists cmds p' g,
    paintGL p = Ok p' /\ issued p p' cmds /\
    statesAt isQuadDraw cmds s = [g] /\
    gl_program g = Some (m_deferredPrograms (m_buffer p)) /\
    Forall (fun sampler =>
              exists unit,
                samplerUnit (m_deferredPrograms (m_buffer p)) (fst sampler)
                  (gl_commands p) = Some unit /\
                gl_textureUnits g unit = snd sampler)
           (samplerSources p).
Proof.
  intros H I N P.
  destruct (run_targets _ _ _ _ _ _ _ H N) as [_ W].
  assert (I' : existsb isInitialize (before ++ ResizeGL w h driver :: events)
               = true) by (rewrite existsb_app, I; reflexivity).
  pose proof (run_samplersSet _ _ _ H I' (m_deferredPrograms (m_buffer p))
                ltac:(discriminate)) as U.
  destruct (paintGL_renders p P) as [p' [E Is]].
  destruct (quad_context p s) as [g [Q [_ [Pg [_ [_ [G0 [G1 [G2 [G3 [G4 G5]]]]]]]]]]].
  exists (renderedFrame p), p', g.
  split; [exact E|]. split; [exact Is|]. split; [exact Q|]. split; [exact Pg|].
  unfold samplerView in U.
  destruct U as [U0 [U1 [U2 [U3 [U4 U5]]]]].
  destruct W as [W0 [W1 [W2 [W3 [_ [W5 [L0 _]]]]]]].
  unfold samplerSources.
  repeat apply Forall_cons; try apply Forall_nil; cbn [fst snd].
  - exists 0. split; [exact U0|]. rewrite G0, W1. reflexivity.
  - exists 1. split; [exact U1|]. rewrite G1, W2. reflexivity.
  - exists 2. split; [exact U2|]. rewrite G2, W3. reflexivity.
  - exists 3. split; [exact U3|]. rewrite G3, W0. reflexivity.
  - exists 4. split; [exact U4|]. rewrite G4, L0. reflexivity.
  - exists 5. split; [exact U5|]. rewrite G5, W5. reflexivity.
Qed.

(** X21.  After an initialisation, a resize after it and no initialisation
    since, when the light volumes are drawn, the colour attachment of the light framebuffer they are drawn into
    is the texture on unit 4, the unit of the [lightbufferTexture] sampler of
    the point light program, and its depth attachment is the texture on
    unit 5, the unit of the [depthTexture] sampler. *)
Theorem light_pass_target_is_bound_for_sampling (w h : Z) (driver : Driver)
  (before events : list Event) (p0 p : MainWidgetPrivate) (s : GLState) :
  run (before ++ ResizeGL w h driver :: events) p0 = Ok p ->
  existsb isInitialize before = true ->
  forallb (fun e => negb (isInitialize e)) events = true ->
  m_paused p = false ->
  m_buffer p = LightPass \/ m_buffer p = MotionBlurPass ->
  exists cmds p' g,
    paintGL p = Ok p' /\ issued p p' cmds /\
    statesAt isLightVolumeDraw cmds s = [g] /\
    gl_framebuffer g = Some LightBuffer /\
    gl_program g = Some m_pointLightProgram /\
    samplerUnit m_pointLightProgram "lightbufferTexture" (gl_commands p)
    = Some 4 /\
    gl_textureUnits g 4 = attachments (m_lightBuffer p) ColorAttachment0 /\
    samplerUnit m_pointLightProgram "depthTexture" (gl_commands p) = Some 5 /\
    gl_textureUnits g 5 = attachments (m_lightBuffer p) DepthAttachment.
Proof.
  intros H I N P B.
  destruct (run_targets _ _ _ _ _ _ _ H N) as [_ W].
  assert (I' : existsb isInitialize (before ++ ResizeGL w h driver :: events)
               = true) by (rewrite existsb_app, I; reflexivity).
  pose proof (run_samplersSet _ _ _ H I' m_pointLightProgram
                ltac:(discriminate)) as U.
  destruct (paintGL_renders p P) as [p' [E Is]].
  destruct (light_context p s B) as [g [Q [F [Pg [G4 G5]]]]].
  exists (renderedFrame p), p', g.
  split; [exact E|]. split; [exact Is|]. split; [exact Q|].
  split; [exact F|]. split; [exact Pg|].
  unfold samplerView in U.
  destruct U as [_ [_ [_ [_ [U4 U5]]]]].
  destruct W as [_ [_ [_ [_ [_ [_ [L0 L5]]]]]]].
  split; [exact U4|]. split; [rewrite G4, L0; reflexivity|].
  split; [exact U5|]. rewrite G5, L5. reflexivity.
Qed.

(** *** The projection *)

Lemma handle_preserves_projection e :
  negb (isResize e) = true -> preserves projectionView (handle e).
Proof.
  destruct e; intros N; try discriminate; cbv beta iota delta [handle];
    solve_preserves_all.
Qed.

Lemma resizeGL_projection w h driver p p' :
  resizeGL w h driver p = Ok p' ->
  projectionView p'
  = (float_of_int w, float_of_int h, flit 1000, flit 0.1,
     fsub (flit 1000) (flit 0.1),
     perspective (flit 45)
       (fdiv (float_of_Z (float_of_int w)) (float_of_Z (float_of_int h)))
       (flit 0.1) (flit 1000) KMatrix4x4_identity).
Proof.
  intros H. run_rebuild H w h driver. reflexivity.
Qed.

(** X22.  After the last resize, and until the next one, the widget holds the
    width and height of that resize converted to [float], the depth range
    0.1 to 1000 with their difference, and the perspective projection of 45
    degrees for that aspect ratio, whatever was handled before or after. *)
Theorem last_resize_fixes_the_projection (w h : Z) (driver : Driver)
  (before events : list Event) (p0 p : MainWidgetPrivate) :
  run (before ++ ResizeGL w h driver :: events) p0 = Ok p ->
  forallb (fun e => negb (isResize e)) events = true ->
  m_width p = float_of_int w /\
  m_height p = float_of_int h /\
  m_depthFar p = flit 1000 /\
  m_depthNear p = flit 0.1 /\
  m_depthDiff p = fsub (flit 1000) (flit 0.1) /\
  m_projection p
  = perspective (flit 45)
      (fdiv (float_of_Z (float_of_int w)) (float_of_Z (float_of_int h)))
      (flit 0.1) (flit 1000) KMatrix4x4_identity.
Proof.
  intros H N. rewrite run_app in H.
  destruct (run before p0) as [p1| |];
    cbv beta iota delta [bind] in H; try discriminate.
  rewrite run_cons in H.
  destruct (handle (ResizeGL w h driver) p1) as [q| |] eqn:E;
    cbv beta iota delta [bind] in H; try discriminate.
  pose proof (run_preserves_when projectionView _ handle_preserves_projection
                events N _ _ H) as V.
  rewrite (resizeGL_projection w h driver p1 q E) in V.
  unfold projectionView in V. injection V as V1 V2 V3 V4 V5 V6.
  repeat split; assumption.
Qed.

(** *** Instances and lights *)

Lemma updateEvent_rotate_length instances : forall angle,
  List.length (updateEvent_rotate angle instances) = List.length instances.
Proof.
  induction instances as [|i rest IH]; intro angle; simpl;
    [reflexivity|rewrite IH; reflexivity].
Qed.

Lemma updateEvent_orbit_length step lights : forall angle,
  List.length (updateEvent_orbit angle step lights) = List.length lights.
Proof.
  induction lights as [|l rest IH]; intro angle; simpl;
    [reflexivity|rewrite IH; reflexivity].
Qed.

Lemma updateEvent_rotate_nth instances : forall angle k instance,
  nth_error (updateEvent_rotate angle instances) k = Some instance ->
  exists old,
    nth_error instances k = Some old /\
    currentTransform instance
    = KTransform3D_rotate (Nat.iter k (fun a => fadd a (flit 1)) angle)
        (vec3 (flit 0) (flit 0) (flit 3)) (currentTransform old) /\
    material instance = material old.
Proof.
  induction instances as [|i rest IH]; intros angle k instance H.
  - destruct k; discriminate.
  - destruct k as [|k]; simpl in H.
    + injection H as <-. exists i. repeat split.
    + destruct (IH _ _ _ H) as [old [N [T M]]].
      exists old. rewrite Nat.iter_succ_r. repeat split; assumption.
Qed.

Lemma updateEvent_orbit_nth step lights : forall angle k light,
  nth_error (updateEvent_orbit angle step lights) k = Some light ->
  exists old,
    nth_error lights k = Some old /\
    translation light
    = (let a := Nat.iter k (fun a => fadd a step) angle in
       vec3 (fmul (fcos a) (flit 17)) (flit 0) (fmul (fsin a) (flit 17))) /\
    radius light = radius old.
Proof.
  induction lights as [|l rest IH]; intros angle k light H.
  - destruct k; discriminate.
  - destruct k as [|k]; simpl in H.
    + injection H as <-. exists l. repeat split.
    + destruct (IH _ _ _ H) as [old [N [T R]]].
      exists old. rewrite Nat.iter_succ_r. repeat split; assumption.
Qed.

(** The animation of one update, read off the first three statements. *)
Lemma updateEvent_animation input p p' :
  updateEvent input p = Ok p' ->
  animationView p'
  = (updateEvent_rotate (flit 0) (m_instances p),
     updateEvent_orbit (fadd (updateEvent_f p) (flit 0.0016))
       (fdiv (flit (2 * 3.1415926))
          (float_of_Z (Z.of_nat (List.length (m_pointLights p)))))
       (m_pointLights p),
     fadd (updateEvent_f p) (flit 0.0016)).
Proof.
  intros H. destruct (updateEvent_steps _ _ _ H) as [q [O ->]].
  assert (G : keeps animationView (updateEvent_gestures input)) by solve_keeps.
  assert (B : keeps animationView (updateEvent_buffer input)) by solve_keeps.
  assert (C : keeps animationView (updateEvent_camera input)) by solve_keeps.
  assert (P : preserves animationView (updateEvent_open input))
    by solve_preserves.
  rewrite G, B, (P _ _ O), C. reflexivity.
Qed.

(** X12.  An update keeps the number and the materials of the instances and
    turns the [k]-th instance about the axis (0, 0, 3) by the angle the loop
    has reached: 0 with 1 added [k] times. *)
Theorem update_turns_each_instance_by_its_index (input : KInputManager)
  (p : MainWidgetPrivate) :
  exists p',
    updateEvent input p = Ok p' /\
    List.length (m_instances p') = List.length (m_instances p) /\
    forall k instance,
      nth_error (m_instances p') k = Some instance ->
      exists old,
        nth_error (m_instances p) k = Some old /\
        currentTransform instance
        = KTransform3D_rotate (Nat.iter k (fun a => fadd a (flit 1)) (flit 0))
            (vec3 (flit 0) (flit 0) (flit 3)) (currentTransform old) /\
        material instance = material old.
Proof.
  destruct (updateEvent_total input p) as [p' H]. exists p'.
  split; [exact H|].
  pose proof (updateEvent_animation _ _ _ H) as V.
  unfold animationView in V. injection V as V1 _ _. rewrite V1.
  split; [apply updateEvent_rotate_length|apply updateEvent_rotate_nth].
Qed.

(** X13.  An update advances the static angle [f] by 0.0016, keeps the number
    and the radii of the lights, and puts the [k]-th light at height 0 on the
    circle of radius 17 about the origin, at the angle [f] with the step
    2 * 3.1415926 / size added [k] times. *)
Theorem update_spreads_the_lights_on_a_circle (input : KInputManager)
  (p : MainWidgetPrivate) :
  let f := fadd (updateEvent_f p) (flit 0.0016) in
  let step :=
    fdiv (flit (2 * 3.1415926))
      (float_of_Z (Z.of_nat (List.length (m_pointLights p)))) in
  exists p',
    updateEvent input p = Ok p' /\
    updateEvent_f p' = f /\
    List.length (m_pointLights p') = List.length (m_pointLights p) /\
    forall k light,
      nth_error (m_pointLights p') k = Some light ->
      exists old,
        nth_error (m_pointLights p) k = Some old /\
        translation light
        = (let a := Nat.iter k (fun a => fadd a step) f in
           vec3 (fmul (fcos a) (flit 17)) (flit 0) (fmul (fsin a) (flit 17))) /\
        radius light = radius old.
Proof.
  intros f step.
  destruct (updateEvent_total input p) as [p' H]. exists p'.
  split; [exact H|].
  pose proof (updateEvent_animation _ _ _ H) as V.
  unfold animationView in V. injection V as _ V2 V3. rewrite V2, V3.
  split; [reflexivity|].
  split; [apply updateEvent_orbit_length|apply updateEvent_orbit_nth].
Qed.

Lemma updateEvent_counts input : preserves countsView (updateEvent input).
Proof.
  intros p p' H. pose proof (updateEvent_animation _ _ _ H) as V.
  unfold animationView in V. injection V as V1 V2 _.
  unfold countsView.
  rewrite V1, V2, updateEvent_rotate_length, updateEvent_orbit_length.
  reflexivity.
Qed.

Lemma initializeGL_counts p p' :
  initializeGL p = Ok p' ->
  countsView p'
  = (List.length (m_instances p) + 12, List.length (m_pointLights p) + 10)%nat.
Proof.
  intros H. vm_compute in H. injection H as <-.
  unfold countsView. cbv beta iota delta [m_instances m_pointLights].
  rewrite !length_app. cbn [List.length]. f_equal; lia.
Qed.

Lemma handle_counts e p p' :
  handle e p = Ok p' ->
  countsView p'
  = if isInitialize e
    then (fst (countsView p) + 12, snd (countsView p) + 10)%nat
    else countsView p.
Proof.
  destruct e as [|w h driver| |input]; cbv beta iota delta [isInitialize].
  - exact ((initializeGL_counts
            : forall p p', handle InitializeGL p = Ok p' -> _) p p').
  - revert p p'.
    change (preserves countsView (handle (ResizeGL w h driver))).
    cbv beta iota delta [handle]. solve_preserves.
  - revert p p'. change (preserves countsView (handle PaintGL)).
    cbv beta iota delta [handle]. solve_preserves.
  - exact ((updateEvent_counts input
            : preserves countsView (handle (UpdateEvent input))) p p').
Qed.

(** X15.  Only [initializeGL] changes the number of instances and of lights:
    after any events the widget holds twelve more instances and ten more
    lights for every initialisation among them. *)
Theorem every_initialisation_adds_twelve_instances_and_ten_lights
  (events : list Event) (p0 p : MainWidgetPrivate) :
  run events p0 = Ok p ->
  List.length (m_instances p)
  = (List.length (m_instances p0)
     + 12 * List.length (filter isInitialize events))%nat /\
  List.length (m_pointLights p)
  = (List.length (m_pointLights p0)
     + 10 * List.length (filter isInitialize events))%nat.
Proof.
  revert p0. induction events as [|e events IH]; intros p0 H.
  - injection H as <-. simpl. split; lia.
  - rewrite run_cons in H.
    destruct (handle e p0) as [q| |] eqn:E;
      cbv beta iota delta [bind] in H; try discriminate.
    destruct (IH _ H) as [I L]. pose proof (handle_counts _ _ _ E) as C.
    cbn [filter]. destruct (isInitialize e); unfold countsView in C;
      cbn [fst snd] in C; injection C as C1 C2; cbn [List.length]; split; lia.
Qed.

(** *** The drag rotation *)

Lemma updateEvent_coasts input p p' :
  untouched input ->
  updateEvent input p = Ok p' ->
  dragView p'
  = (fmul (m_dragVelocity p) (flit 0.9), m_dragAxis p,
     KTransform3D_rotate (fmul (m_dragVelocity p) (flit 0.9)) (m_dragAxis p)
       (m_transform p)).
Proof.
  intros [Pinch [Pan Touch]] H.
  destruct (updateEvent_steps _ _ _ H) as [q [O ->]].
  assert (B : keeps dragView (updateEvent_buffer input)) by solve_keeps.
  assert (C : keeps dragView (updateEvent_camera input)) by solve_keeps.
  assert (P : preserves dragView (updateEvent_open input)) by solve_preserves.
  assert (V : dragView (updateEvent_buffer input q) = dragView p)
    by (rewrite B, (P _ _ O), C; reflexivity).
  generalize dependent (updateEvent_buffer input q). intros b _ V.
  unfold dragView in V. injection V as V1 V2 V3. rewrite <- V1, <- V2, <- V3.
  unfold updateEvent_gestures, statements. cbn [fold_left].
  rewrite Pinch, Pan. apply Nat.eqb_neq in Touch. rewrite Touch.
  reflexivity.
Qed.

(** X14.  While there is no pinch, no pan and no single touch, [n] updates
    multiply the drag velocity by 0.9 [n] times and keep the drag axis; each
    such update turns the model about that axis by the velocity already
    multiplied. *)
Theorem drag_velocity_decays_while_untouched (input : KInputManager) (n : nat)
  (p : MainWidgetPrivate) :
  untouched input ->
  (exists p',
      repeatedly n (updateEvent input) p = Ok p' /\
      m_dragVelocity p'
      = Nat.iter n (fun v => fmul v (flit 0.9)) (m_dragVelocity p) /\
      m_dragAxis p' = m_dragAxis p) /\
  (exists p',
      updateEvent input p = Ok p' /\
      m_transform p'
      = KTransform3D_rotate (fmul (m_dragVelocity p) (flit 0.9)) (m_dragAxis p)
          (m_transform p)).
Proof.
  intros U. split.
  - revert p. induction n as [|n IH]; intro p.
    + exists p. repeat split.
    + destruct (updateEvent_total input p) as [q E].
      pose proof (updateEvent_coasts _ _ _ U E) as V.
      unfold dragView in V. injection V as V1 V2 _.
      destruct (IH q) as [p' [R [Vel Axis]]].
      exists p'. split.
      * change (bind (updateEvent input p) (repeatedly n (updateEvent input))
                = Ok p').
        rewrite E. exact R.
      * rewrite Vel, Axis, V1, V2, Nat.iter_succ_r. split; reflexivity.
  - destruct (updateEvent_total input p) as [p' E]. exists p'.
    split; [exact E|].
    pose proof (updateEvent_coasts _ _ _ U E) as V.
    unfold dragView in V. injection V as _ _ V3. exact V3.
Qed.

End Properties.

(** ** The properties at concrete inputs *)

Example float_of_int_800 : float_of_int 800 = 800.
Proof. reflexivity. Qed.

Example float_of_int_16777217 : float_of_int 16777217 = 16777216.
Proof. reflexivity. Qed.

Example float_of_int_16777219 : float_of_int 16777219 = 16777220.
Proof. reflexivity. Qed.

Example float_of_int_2147483647 : float_of_int 2147483647 = 2147483648.
Proof. reflexivity. Qed.

Example query_triangle :
  query triangle
  = [ (position (corner 0 0 0), position (corner 0 1 0));
      (position (corner 1 0 0), position (corner 0 0 0));
      (position (corner 0 1 0), position (corner 1 0 0)) ].
Proof. reflexivity. Qed.

Example query_tetrahedron : query tetrahedron = [].
Proof. reflexivity. Qed.

Example shownWidget_channel : m_buffer shownWidget = LightPass.
Proof. vm_compute. reflexivity. Qed.

Example shownWidget_light_pass :
  List.length (filter isLightVolumeDraw (renderedFrame shownWidget)) = 1%nat.
Proof. vm_compute. reflexivity. Qed.

Example normals_skip_light_pass :
  filter isLightVolumeDraw (renderedFrame (set_m_buffer NormalData shownWidget))
  = [].
Proof. vm_compute. reflexivity. Qed.

Lemma light_pass_witness :
  m_paused shownWidget = false /\
  exists p',
    paintGL shownWidget = Ok p' /\
    issued shownWidget p' (renderedFrame shownWidget) /\
    existsb isLightVolumeDraw (renderedFrame shownWidget) = true.
Proof.
  assert (H : m_paused shownWidget = false) by (vm_compute; reflexivity).
  split; [exact H|].
  destruct (@light_pass_iff_composed_or_motion_blur TermMath shownWidget H)
    as [p' [E [I [L _]]]].
  exists p'. split; [exact E|]. split; [exact I|].
  apply L. left. vm_compute. reflexivity.
Defined.

Lemma paintGL_paused_witness :
  m_paused pausedWidget = true /\
  paintGL pausedWidget = Ok pausedWidget /\
  repeatedly 3 paintGL pausedWidget = Ok pausedWidget.
Proof.
  assert (H : m_paused pausedWidget = true) by (vm_compute; reflexivity).
  split; [exact H|].
  exact (@paintGL_paused_is_noop TermMath pausedWidget 3 H).
Defined.

Lemma openObj_cancelled_witness :
  isNull None = true /\
  @openObj TermMath sampleFiles None shownWidget = Ok shownWidget.
Proof.
  split; [reflexivity|].
  exact (@openObj_cancelled TermMath sampleFiles None shownWidget eq_refl).
Defined.

(** The dialog returns a path that is empty and not null while the triangle
    is shown: the path is loaded, and the triangle and its three boundary
    edges are gone. *)
Lemma openObj_empty_path_is_loaded :
  isEmpty (Some EmptyString) = true /\
  m_halfEdgeMesh triangleWidget = Live triangle /\
  List.length (m_boundaries triangleWidget) = 3%nat /\
  @openObj TermMath sampleFiles (Some EmptyString) triangleWidget
  = Ok (afterOpen (Some EmptyString) triangleWidget) /\
  m_halfEdgeMesh (afterOpen (Some EmptyString) triangleWidget)
  = Live tetrahedron /\
  m_boundaries (afterOpen (Some EmptyString) triangleWidget) = [] /\
  @openObj TermMath sampleFiles (Some EmptyString) triangleWidget
  <> Ok triangleWidget.
Proof.
  split; [reflexivity|]. split; [vm_compute; reflexivity|].
  split; [vm_compute; reflexivity|]. split; [vm_compute; reflexivity|].
  split; [vm_compute; reflexivity|]. split; [vm_compute; reflexivity|].
  intros H.
  apply (f_equal (fun o => match o with
                           | Ok q => List.length (m_boundaries q)
                           | _ => 0%nat
                           end)) in H.
  vm_compute in H. discriminate.
Qed.

Lemma previous_camera_witness :
  let firstFrame :=
    [ InitializeGL; ResizeGL 800 600 allComplete; UpdateEvent idleInput;
      PaintGL ] in
  let moved := after [UpdateEvent flyInput] shownWidget in
  forallb (@cameraIdle TermMath) firstFrame = true /\
  @run TermMath sampleFiles firstFrame sampleWidget
  = Ok (after firstFrame sampleWidget) /\
  m_cameraPrev (after firstFrame sampleWidget)
  = m_camera (after firstFrame sampleWidget) /\
  @updateEvent TermMath sampleFiles flyInput shownWidget = Ok moved /\
  forallb (@notUpdate TermMath) [PaintGL] = true /\
  @run TermMath sampleFiles [PaintGL] moved = Ok (after [PaintGL] moved) /\
  m_cameraPrev (after [PaintGL] moved) = m_camera shownWidget /\
  m_camera (after [PaintGL] moved) = m_camera moved.
Proof.
  intros firstFrame moved.
  assert (H1 : forallb (@cameraIdle TermMath) firstFrame = true) by reflexivity.
  assert (H2 : @run TermMath sampleFiles firstFrame sampleWidget
               = Ok (after firstFrame sampleWidget))
    by (vm_compute; reflexivity).
  assert (H3 : @updateEvent TermMath sampleFiles flyInput shownWidget = Ok moved)
    by (vm_compute; reflexivity).
  assert (H4 : forallb (@notUpdate TermMath) [PaintGL] = true) by reflexivity.
  assert (H5 : @run TermMath sampleFiles [PaintGL] moved
               = Ok (after [PaintGL] moved))
    by (vm_compute; reflexivity).
  destruct (@previous_camera_is_camera_of_previous_frame TermMath sampleFiles)
    as [_ [First Next]].
  split; [exact H1|]. split; [exact H2|].
  split; [exact (First _ _ _ _ _ _ H1 H2)|].
  split; [exact H3|]. split; [exact H4|]. split; [exact H5|].
  exact (Next _ _ _ _ _ H3 H4 H5).
Defined.

(** The right button is held and the mouse moves during the update before
    the first frame: the frame sees a previous camera that is not the
    current one. *)
Lemma first_frame_after_camera_input_has_motion :
  @run TermMath sampleFiles flownFirstFrame sampleWidget
  = Ok (after flownFirstFrame sampleWidget) /\
  m_cameraPrev (after flownFirstFrame sampleWidget) = m_camera sampleWidget /\
  m_cameraPrev (after flownFirstFrame sampleWidget)
  <> m_camera (after flownFirstFrame sampleWidget).
Proof.
  split; [vm_compute; reflexivity|]. split; [vm_compute; reflexivity|].
  vm_compute. discriminate.
Qed.

Lemma loadObj_paused_witness :
  (0 < 3 < List.length
             (@loadObj_statements TermMath sampleFiles "triangle.obj"
                (m_paused shownWidget)))%nat /\
  exists q,
    block (firstn 3 (@loadObj_statements TermMath sampleFiles "triangle.obj"
                       (m_paused shownWidget))) shownWidget = Ok q /\
    m_paused q = true /\ paintGL q = Ok q.
Proof.
  assert (H : (0 < 3 < List.length
                 (@loadObj_statements TermMath sampleFiles "triangle.obj"
                    (m_paused shownWidget)))%nat)
    by (cbn [loadObj_statements List.length]; lia).
  split; [exact H|].
  exact (proj1 (@loadObj_is_paused_until_mesh_is_replaced TermMath sampleFiles
                  "triangle.obj" shownWidget) 3%nat H).
Defined.

Lemma boundaries_witness :
  openLoop (@KHalfEdgeMesh_new TermMath sampleFiles "triangle.obj") triangle_loop /\
  closed (@KHalfEdgeMesh_new TermMath sampleFiles "tetrahedron.obj") /\
  (exists p',
      @loadObj TermMath sampleFiles "triangle.obj" shownWidget = Ok p' /\
      List.length (m_boundaries p') = 3%nat) /\
  (exists p',
      @loadObj TermMath sampleFiles "tetrahedron.obj" shownWidget = Ok p' /\
      m_boundaries p' = []).
Proof.
  assert (L : openLoop (@KHalfEdgeMesh_new TermMath sampleFiles "triangle.obj")
                triangle_loop).
  { change (openLoop triangle triangle_loop). split.
    - vm_compute. apply perm_skip. apply perm_swap.
    - intros i Hi. cbn [triangle_loop List.length] in Hi.
      destruct i as [|[|[|i]]]; [reflexivity ..|lia]. }
  assert (C : closed (@KHalfEdgeMesh_new TermMath sampleFiles "tetrahedron.obj")).
  { change (closed tetrahedron). intros edge I.
    cbn [tetrahedron halfEdges tetrahedron_halfEdges In] in I.
    repeat (destruct I as [<-|I]; [reflexivity|]). contradiction. }
  split; [exact L|]. split; [exact C|]. split.
  - destruct (@boundaries_are_the_faceless_half_edges TermMath sampleFiles
                "triangle.obj" shownWidget) as [p' [E [_ [_ [_ O]]]]].
    exists p'. split; [exact E|]. exact (proj1 (O _ L)).
  - destruct (@boundaries_are_the_faceless_half_edges TermMath sampleFiles
                "tetrahedron.obj" shownWidget) as [p' [E [_ [_ [B _]]]]].
    exists p'. split; [exact E|]. exact (B C).
Defined.

Lemma rebuild_witness :
  deferredBuffer_status allComplete = Complete /\
  lightBuffer_status allComplete = Complete /\
  exists p',
    @updateBackbuffer TermMath 800 600 allComplete shownWidget = Ok p' /\
    attachments (m_deferredBuffer p') ColorAttachment0
    = Some (textureId (m_backBuffer p')) /\
    attachments (m_lightBuffer p') ColorAttachment0
    = Some (textureId (m_deferredTextures p' 3%nat)).
Proof.
  split; [reflexivity|]. split; [reflexivity|].
  destruct (@rebuild_wires_the_framebuffers TermMath 800 600 allComplete
              shownWidget) as [T W].
  destruct (T eq_refl eq_refl) as [p' E].
  exists p'. split; [exact E|].
  destruct (W p' E) as [A0 [_ [_ [_ [_ [_ [_ [L0 _]]]]]]]].
  split; [exact A0|exact L0].
Defined.

Lemma fatal_witness :
  reported (deferredBuffer_status badDrawBuffer) = Some "Incomplete Draw Buffer" /\
  @resizeGL TermMath 800 600 badDrawBuffer shownWidget
  = Fatal "Incomplete Draw Buffer" /\
  deferredBuffer_status unsupportedLight = Complete /\
  reported (lightBuffer_status unsupportedLight) = Some "Unsupported" /\
  @resizeGL TermMath 800 600 unsupportedLight shownWidget = Fatal "Unsupported" /\
  exists p', @resizeGL TermMath 800 600 allComplete shownWidget = Ok p'.
Proof.
  destruct (@incomplete_framebuffer_is_fatal_at_resize TermMath 800 600
              badDrawBuffer shownWidget) as [D _].
  destruct (@incomplete_framebuffer_is_fatal_at_resize TermMath 800 600
              unsupportedLight shownWidget) as [_ [L _]].
  destruct (@incomplete_framebuffer_is_fatal_at_resize TermMath 800 600
              allComplete shownWidget) as [_ [_ [R _]]].
  split; [reflexivity|]. split; [exact (D _ eq_refl)|].
  split; [reflexivity|]. split; [reflexivity|].
  split; [exact (L _ eq_refl eq_refl)|].
  exact (R eq_refl eq_refl).
Defined.

Lemma resize_witness :
  deferredBuffer_status allComplete = Complete /\
  lightBuffer_status allComplete = Complete /\
  0 < 800 <= 2 ^ 24 /\ 0 < 600 <= 2 ^ 24 /\
  float_of_int 800 = 800 /\ float_of_int 600 = 600 /\
  exists p',
    @resizeGL TermMath 800 600 allComplete shownWidget = Ok p' /\
    Forall (fun t => width (texture t p') = 800 /\ height (texture t p') = 600)
           renderTargets /\
    Forall (fun t => storage (texture t p') = Some (formatOf t, 800, 600))
           renderTargets.
Proof.
  assert (Hw : 0 < 800 <= 2 ^ 24) by lia.
  assert (Hh : 0 < 600 <= 2 ^ 24) by lia.
  assert (Ew : float_of_int 800 = 800) by reflexivity.
  assert (Eh : float_of_int 600 = 600) by reflexivity.
  split; [reflexivity|]. split; [reflexivity|].
  split; [exact Hw|]. split; [exact Hh|].
  split; [exact Ew|]. split; [exact Eh|].
  destruct (@resize_rebuilds_the_render_targets TermMath 800 600 allComplete
              shownWidget) as [T W].
  destruct (T eq_refl eq_refl) as [p' E].
  destruct (W p' E) as [_ [Representable Bounded]].
  exists p'. split; [exact E|]. split; [exact (Bounded Hw Hh)|].
  generalize (Representable Ew Eh). apply Forall_impl.
  intros t [_ [_ S]]. exact S.
Defined.

Lemma uniform_writes_witness :
  @run TermMath sampleFiles [InitializeGL; ResizeGL 800 600 allComplete]
    sampleWidget = Ok shownWidget /\
  ubo_size (m_matrixBlock shownWidget) = sizeof_float * 169.
Proof.
  assert (H : @run TermMath sampleFiles
                [InitializeGL; ResizeGL 800 600 allComplete] sampleWidget
              = Ok shownWidget)
    by (vm_compute; reflexivity).
  split; [exact H|].
  exact (proj1 (@uniform_writes_within_allocation TermMath sampleFiles
                  sampleWidget [ResizeGL 800 600 allComplete] shownWidget H)).
Defined.

Lemma pause_flag_witness :
  @run TermMath sampleFiles showEvents sampleWidget = Ok shownWidget /\
  m_paused shownWidget = false /\
  exists p',
    paintGL shownWidget = Ok p' /\
    issued shownWidget p' (renderedFrame shownWidget).
Proof.
  assert (Run : @run TermMath sampleFiles showEvents sampleWidget
                = Ok shownWidget) by (vm_compute; reflexivity).
  split; [exact Run|].
  exact (pause_flag_is_clear_between_events (K := TermMath)
           (files := sampleFiles) (num 0) (num 0) (num 0) (num 0)
           [ResizeGL 800 600 allComplete] shownWidget Run).
Defined.

Lemma frame_writes_witness :
  m_paused shownWidget = false /\
  exists cmds p',
    paintGL shownWidget = Ok p' /\ issued shownWidget p' cmds /\
    tiledUpTo (bufferWrites cmds) 0 = Some (sizeof_float * (16 * 10 + 4 + 5)).
Proof.
  assert (Renders : m_paused shownWidget = false)
    by (vm_compute; reflexivity).
  split; [exact Renders|].
  exact (frame_writes_tile_the_uniform_block (K := TermMath) shownWidget
           Renders).
Defined.

Lemma frame_draws_witness :
  m_paused shownWidget = false /\
  exists cmds p',
    paintGL shownWidget = Ok p' /\ issued shownWidget p' cmds /\
    map snd (drawTargets cmds freshContext)
    = [ Some DeferredBuffer; Some DeferredBuffer; Some DeferredBuffer;
        Some LightBuffer; Some LightBuffer; None; None ].
Proof.
  assert (Renders : m_paused shownWidget = false)
    by (vm_compute; reflexivity).
  split; [exact Renders|].
  destruct (frame_draws_each_pass_into_its_target (K := TermMath) shownWidget
              freshContext Renders) as [cmds [p' [E [I D]]]].
  exists cmds, p'. split; [exact E|]. split; [exact I|].
  rewrite D. vm_compute. reflexivity.
Defined.

Lemma light_volumes_witness :
  m_paused shownWidget = false /\
  exists cmds p',
    paintGL shownWidget = Ok p' /\ issued shownWidget p' cmds /\
    List.length (statesAt isLightVolumeDraw cmds freshContext) = 1%nat /\
    Forall (fun g => gl_blend g = true /\ gl_depthFunc g = GL_GREATER)
           (statesAt isLightVolumeDraw cmds freshContext).
Proof.
  assert (Renders : m_paused shownWidget = false)
    by (vm_compute; reflexivity).
  split; [exact Renders|].
  destruct (light_volumes_are_drawn_additively (K := TermMath) shownWidget
              freshContext Renders) as [cmds [p' [E [I [L F]]]]].
  exists cmds, p'. split; [exact E|]. split; [exact I|]. split.
  - rewrite L. vm_compute. reflexivity.
  - revert F. apply Forall_impl.
    intros g [_ [_ [B [_ [D _]]]]]. split; assumption.
Defined.

Lemma quad_witness :
  m_paused shownWidget = false /\
  exists cmds p' g,
    paintGL shownWidget = Ok p' /\ issued shownWidget p' cmds /\
    statesAt isQuadDraw cmds freshContext = [g] /\
    gl_framebuffer g = None /\
    gl_program g = Some (m_deferredPrograms (m_buffer shownWidget)).
Proof.
  assert (Renders : m_paused shownWidget = false)
    by (vm_compute; reflexivity).
  split; [exact Renders|].
  destruct (quad_is_drawn_with_the_selected_program (K := TermMath) shownWidget
              freshContext Renders)
    as [cmds [p' [g [E [I [Q [F [P _]]]]]]]].
  exists cmds, p', g. repeat split; assumption.
Defined.

Lemma frame_restores_witness :
  m_paused shownWidget = false /\
  exists cmds p',
    paintGL shownWidget = Ok p' /\ issued shownWidget p' cmds /\
    markerStack cmds [] = Some [] /\
    gl_framebuffer (glRun cmds freshContext) = None /\
    gl_depthTest (glRun cmds freshContext) = true /\
    gl_depthMask (glRun cmds freshContext) = true.
Proof.
  assert (Renders : m_paused shownWidget = false)
    by (vm_compute; reflexivity).
  split; [exact Renders|].
  destruct (frame_restores_the_context (K := TermMath) shownWidget freshContext
              [] Renders)
    as [cmds [p' [E [I [M [F [T [D _]]]]]]]].
  exists cmds, p'. repeat split; assumption.
Defined.

Lemma next_frame_witness :
  m_paused shownWidget = false /\
  exists cmds1 p1 cmds2 p2,
    paintGL shownWidget = Ok p1 /\ issued shownWidget p1 cmds1 /\
    paintGL p1 = Ok p2 /\ issued p1 p2 cmds2 /\
    List.length (statesAt isGeometryDraw cmds2 (glRun cmds1 freshContext))
    = 2%nat /\
    Forall (fun g => gl_depthTest g = true /\ gl_depthMask g = true)
           (statesAt isGeometryDraw cmds2 (glRun cmds1 freshContext)).
Proof.
  assert (Renders : m_paused shownWidget = false)
    by (vm_compute; reflexivity).
  split; [exact Renders|].
  destruct (geometry_of_the_next_frame_is_depth_tested (K := TermMath)
              shownWidget freshContext Renders)
    as [cmds1 [p1 [cmds2 [p2 [E1 [I1 [E2 [I2 [L F]]]]]]]]].
  exists cmds1, p1, cmds2, p2.
  split; [exact E1|]. split; [exact I1|]. split; [exact E2|].
  split; [exact I2|]. split; [exact L|].
  revert F. apply Forall_impl. intros g [_ [_ [T [M _]]]]. split; assumption.
Defined.

Lemma number_keys_witness :
  keyPressed twoAndFourInput Key_4 = true /\
  (exists p',
      @updateEvent TermMath sampleFiles twoAndFourInput shownWidget = Ok p' /\
      m_buffer p' = NormalData) /\
  (exists p',
      @updateEvent TermMath sampleFiles idleInput shownWidget = Ok p' /\
      m_buffer p' = m_buffer shownWidget).
Proof.
  split; [reflexivity|]. split.
  - destruct (number_keys_select_the_channel (K := TermMath)
                (files := sampleFiles) twoAndFourInput shownWidget)
      as [p' [E [_ L]]].
    exists p'. split; [exact E|].
    apply (L (firstn 4 numberKeys) Key_4 NormalData (skipn 5 numberKeys));
      [reflexivity|reflexivity|].
    intros key' channel' I. cbn [numberKeys skipn In] in I.
    repeat (destruct I as [I|I]; [injection I as <- _; reflexivity|]).
    contradiction.
  - destruct (number_keys_select_the_channel (K := TermMath)
                (files := sampleFiles) idleInput shownWidget)
      as [p' [E [N _]]].
    exists p'. split; [exact E|]. apply N. reflexivity.
Defined.

Lemma mesh_replaced_witness :
  (exists p',
      @updateEvent TermMath sampleFiles openTriangleInput shownWidget = Ok p' /\
      m_halfEdgeMesh p' = Live triangle /\
      m_boundaries p' = query triangle) /\
  (exists p',
      @updateEvent TermMath sampleFiles idleInput shownWidget = Ok p' /\
      m_halfEdgeMesh p' = m_halfEdgeMesh shownWidget /\
      m_boundaries p' = m_boundaries shownWidget).
Proof.
  split.
  - destruct (mesh_is_replaced_only_on_control_O (K := TermMath)
                (files := sampleFiles) openTriangleInput shownWidget)
      as [p' [E [L _]]].
    exists p'. split; [exact E|].
    destruct (L "triangle.obj" eq_refl eq_refl eq_refl) as [M [_ B]].
    split; [exact M|exact B].
  - destruct (mesh_is_replaced_only_on_control_O (K := TermMath)
                (files := sampleFiles) idleInput shownWidget)
      as [p' [E [_ S]]].
    exists p'. split; [exact E|].
    destruct (S (or_introl eq_refl)) as [M [_ [B _]]].
    split; [exact M|exact B].
Defined.

Lemma camera_witness :
  buttonPressed_RightButton idleInput = false /\
  exists p',
    @updateEvent TermMath sampleFiles idleInput shownWidget = Ok p' /\
    m_camera p' = m_camera shownWidget /\
    m_cameraPrev p' = m_camera shownWidget.
Proof.
  split; [reflexivity|].
  exact (camera_moves_only_with_the_right_button (K := TermMath)
           (files := sampleFiles) idleInput shownWidget eq_refl).
Defined.

Lemma instances_witness :
  exists p',
    @updateEvent TermMath sampleFiles idleInput shownWidget = Ok p' /\
    List.length (m_instances p') = 12%nat /\
    exists instance old,
      nth_error (m_instances p') 2 = Some instance /\
      nth_error (m_instances shownWidget) 2 = Some old /\
      currentTransform instance
      = KTransform3D_rotate (fadd (fadd (flit 0) (flit 1)) (flit 1))
          (vec3 (flit 0) (flit 0) (flit 3)) (currentTransform old).
Proof.
  destruct (update_turns_each_instance_by_its_index (K := TermMath)
              (files := sampleFiles) idleInput shownWidget)
    as [p' [E [L N]]].
  exists p'. split; [exact E|]. split; [rewrite L; vm_compute; reflexivity|].
  assert (X : exists instance, nth_error (m_instances p') 2 = Some instance).
  { destruct (nth_error (m_instances p') 2) as [i|] eqn:Ei; [exists i; reflexivity|].
    apply nth_error_None in Ei. rewrite L in Ei. vm_compute in Ei. lia. }
  destruct X as [instance Ei].
  destruct (N _ _ Ei) as [old [Eo [T _]]].
  exists instance, old. split; [exact Ei|]. split; [exact Eo|exact T].
Defined.

Lemma lights_witness :
  exists p',
    @updateEvent TermMath sampleFiles idleInput shownWidget = Ok p' /\
    List.length (m_pointLights p') = 10%nat /\
    exists light,
      nth_error (m_pointLights p') 0 = Some light /\
      translation light
      = (let a := fadd (updateEvent_f shownWidget) (flit 0.0016) in
         vec3 (fmul (fcos a) (flit 17)) (flit 0) (fmul (fsin a) (flit 17))).
Proof.
  destruct (update_spreads_the_lights_on_a_circle (K := TermMath)
              (files := sampleFiles) idleInput shownWidget)
    as [p' [E [_ [L N]]]].
  exists p'. split; [exact E|]. split; [rewrite L; vm_compute; reflexivity|].
  assert (X : exists light, nth_error (m_pointLights p') 0 = Some light).
  { destruct (nth_error (m_pointLights p') 0) as [l|] eqn:El; [exists l; reflexivity|].
    apply nth_error_None in El. rewrite L in El. vm_compute in El. lia. }
  destruct X as [light El].
  destruct (N _ _ El) as [old [_ [T _]]].
  exists light. split; [exact El|exact T].
Defined.

Lemma drag_witness :
  untouched idleInput /\
  exists p',
    repeatedly 3 (@updateEvent TermMath sampleFiles idleInput) shownWidget
    = Ok p' /\
    m_dragVelocity p'
    = fmul (fmul (fmul (m_dragVelocity shownWidget) (flit 0.9)) (flit 0.9))
        (flit 0.9) /\
    m_dragAxis p' = m_dragAxis shownWidget.
Proof.
  assert (U : untouched idleInput)
    by (split; [reflexivity|split; [reflexivity|discriminate]]).
  split; [exact U|].
  exact (proj1 (drag_velocity_decays_while_untouched (K := TermMath)
                  (files := sampleFiles) idleInput 3 shownWidget U)).
Defined.

Lemma counts_witness :
  @run TermMath sampleFiles showEvents sampleWidget = Ok shownWidget /\
  List.length (m_instances shownWidget) = 12%nat /\
  List.length (m_pointLights shownWidget) = 10%nat.
Proof.
  assert (Run : @run TermMath sampleFiles showEvents sampleWidget
                = Ok shownWidget) by (vm_compute; reflexivity).
  split; [exact Run|].
  exact (every_initialisation_adds_twelve_instances_and_ten_lights
           (K := TermMath) (files := sampleFiles) showEvents sampleWidget
           shownWidget Run).
Defined.

Lemma coherent_witness :
  @run TermMath sampleFiles showEvents sampleWidget = Ok shownWidget /\
  existsb (@isInitialize TermMath) showEvents = true /\
  exists mesh,
    m_halfEdgeMesh shownWidget = Live mesh /\
    m_openGLMesh shownWidget
    = Live (createOpenGLMesh mesh [Contiguous; Interleaved]) /\
    m_boundaries shownWidget = query mesh /\
    instanceGroupMesh (gl_commands shownWidget)
    = Some (createOpenGLMesh mesh [Contiguous; Interleaved]).
Proof.
  assert (Run : @run TermMath sampleFiles showEvents sampleWidget
                = Ok shownWidget) by (vm_compute; reflexivity).
  split; [exact Run|]. split; [reflexivity|].
  exact (loaded_mesh_stays_coherent (K := TermMath) (files := sampleFiles)
           showEvents sampleWidget shownWidget Run eq_refl).
Defined.

Lemma no_boundary_edge_witness :
  @run TermMath sampleFiles showEvents sampleWidget = Ok shownWidget /\
  filter isDebugDrawLine (gl_commands shownWidget) = [].
Proof.
  assert (Run : @run TermMath sampleFiles showEvents sampleWidget
                = Ok shownWidget) by (vm_compute; reflexivity).
  split; [exact Run|].
  exact (no_event_draws_a_boundary_edge (K := TermMath) (files := sampleFiles)
           showEvents sampleWidget shownWidget Run).
Defined.

Lemma drawBoundaries_witness :
  exists q cmds,
    @loadObj TermMath sampleFiles "triangle.obj" shownWidget = Ok q /\
    issued q (drawBoundaries q) cmds /\
    List.length cmds = 3%nat /\
    Forall (fun c => isDebugDrawLine c = true) cmds.
Proof.
  pose proof (drawBoundaries_draws_the_open_edges (K := TermMath)
                (files := sampleFiles) "triangle.obj" shownWidget) as T.
  cbv zeta in T. destruct T as [q [E I]].
  eexists q, _. split; [exact E|]. split; [exact I|].
  split; [vm_compute; reflexivity|].
  vm_compute. repeat constructor.
Defined.

Lemma targets_witness :
  let p := after (showEvents ++ sessionEvents) sampleWidget in
  @run TermMath sampleFiles
    ([InitializeGL] ++ ResizeGL 800 600 allComplete :: sessionEvents)
    sampleWidget = Ok p /\
  forallb (fun e => negb (@isInitialize TermMath e)) sessionEvents = true /\
  Forall (fun t => width (texture t p) = 800 /\ height (texture t p) = 600)
         renderTargets /\
  wired p.
Proof.
  intros p.
  assert (Run : @run TermMath sampleFiles
                  ([InitializeGL] ++ ResizeGL 800 600 allComplete
                                  :: sessionEvents) sampleWidget = Ok p)
    by (vm_compute; reflexivity).
  split; [exact Run|]. split; [reflexivity|].
  destruct (render_targets_stay_sized_and_attached (K := TermMath)
              (files := sampleFiles) 800 600 allComplete [InitializeGL]
              sessionEvents sampleWidget p Run eq_refl) as [S W].
  split; [|exact W].
  revert S. apply Forall_impl. intros t [Hw [Hh _]].
  rewrite Hw, Hh. split; vm_compute; reflexivity.
Defined.

Lemma samplers_witness :
  let p := after (showEvents ++ sessionEvents) sampleWidget in
  @run TermMath sampleFiles
    ([InitializeGL] ++ ResizeGL 800 600 allComplete :: sessionEvents)
    sampleWidget = Ok p /\
  existsb (@isInitialize TermMath) [InitializeGL] = true /\
  forallb (fun e => negb (@isInitialize TermMath e)) sessionEvents = true /\
  m_paused p = false /\
  exists cmds p' g,
    paintGL p = Ok p' /\ issued p p' cmds /\
    statesAt isQuadDraw cmds freshContext = [g] /\
    gl_program g = Some (m_deferredPrograms (m_buffer p)) /\
    Forall (fun sampler =>
              exists unit,
                samplerUnit (m_deferredPrograms (m_buffer p))
                  (fst sampler) (gl_commands p) = Some unit /\
                gl_textureUnits g unit = snd sampler)
           (samplerSources p).
Proof.
  intros p.
  assert (Run : @run TermMath sampleFiles
                  ([InitializeGL] ++ ResizeGL 800 600 allComplete
                                  :: sessionEvents) sampleWidget = Ok p)
    by (vm_compute; reflexivity).
  assert (Renders : m_paused p = false) by (vm_compute; reflexivity).
  split; [exact Run|]. split; [reflexivity|].
  split; [reflexivity|]. split; [exact Renders|].
  exact (presented_samplers_read_their_attachments (K := TermMath)
           (files := sampleFiles) 800 600 allComplete [InitializeGL]
           sessionEvents sampleWidget p freshContext Run eq_refl eq_refl
           Renders).
Defined.

Lemma light_target_witness :
  let p := after (showEvents ++ sessionEvents) sampleWidget in
  @run TermMath sampleFiles
    ([InitializeGL] ++ ResizeGL 800 600 allComplete :: sessionEvents)
    sampleWidget = Ok p /\
  existsb (@isInitialize TermMath) [InitializeGL] = true /\
  forallb (fun e => negb (@isInitialize TermMath e)) sessionEvents = true /\
  m_paused p = false /\
  m_buffer p = LightPass /\
  exists cmds p' g,
    paintGL p = Ok p' /\ issued p p' cmds /\
    statesAt isLightVolumeDraw cmds freshContext = [g] /\
    gl_framebuffer g = Some LightBuffer /\
    gl_textureUnits g 4 = attachments (m_lightBuffer p) ColorAttachment0.
Proof.
  intros p.
  assert (Run : @run TermMath sampleFiles
                  ([InitializeGL] ++ ResizeGL 800 600 allComplete
                                  :: sessionEvents) sampleWidget = Ok p)
    by (vm_compute; reflexivity).
  assert (Renders : m_paused p = false) by (vm_compute; reflexivity).
  assert (B : m_buffer p = LightPass) by (vm_compute; reflexivity).
  split; [exact Run|]. split; [reflexivity|]. split; [reflexivity|].
  split; [exact Renders|]. split; [exact B|].
  destruct (light_pass_target_is_bound_for_sampling (K := TermMath)
              (files := sampleFiles) 800 600 allComplete [InitializeGL]
              sessionEvents sampleWidget p freshContext Run eq_refl eq_refl
              Renders (or_introl B))
    as [cmds [p' [g [E [I [Q [F [_ [_ [G4 _]]]]]]]]]].
  exists cmds, p', g. repeat split; assumption.
Defined.

Lemma projection_witness :
  let events := [InitializeGL] ++ ResizeGL 800 600 allComplete :: sessionEvents in
  @run TermMath sampleFiles events sampleWidget = Ok (after events sampleWidget) /\
  forallb (fun e => negb (@isResize TermMath e)) sessionEvents = true /\
  m_width (after events sampleWidget) = 800 /\
  m_height (after events sampleWidget) = 600 /\
  m_depthDiff (after events sampleWidget) = fsub (flit 1000) (flit 0.1).
Proof.
  intros events.
  assert (H : @run TermMath sampleFiles events sampleWidget
              = Ok (after events sampleWidget)) by (vm_compute; reflexivity).
  split; [exact H|]. split; [reflexivity|].
  destruct (last_resize_fixes_the_projection (K := TermMath)
              (files := sampleFiles) 800 600 allComplete [InitializeGL]
              sessionEvents sampleWidget (after events sampleWidget) H eq_refl)
    as [W [Hh [_ [_ [D _]]]]].
  split; [exact W|]. split; [exact Hh|exact D].
Defined.
